(** * Data layer of the "Evolução das Proposições" dashboard (app.py)

    A shallow embedding of the data-acquisition functions of [app.py]:
    [safe_get], [buscar_pls_periodo], [autores_por_proposicao],
    [partido_do_deputado] and [contagem_por_partido].

    Conventions of the embedding.
    - Python values that travel through these functions are the values
      [json.loads] produces; they are the type [json] below.  Python's
      [None] is [JNull].  JSON numbers are integers (the identifiers and
      counters of the API); floating-point numbers are outside the model.
    - A Python [str] is the [string] of its UTF-8 bytes; what the code
      asks about characters outside ASCII is answered from the tables of
      [Unicode].
    - The remote API, the connection pool, the wall clock and the
      platform's sleep are the [world]: the answer to a request, the time
      read by the cache and whether a pause is accepted may depend on
      everything that happened before (the [trace]).
    - Functions that may raise return a [res]; functions that talk to the
      world run in the monad [M] (state passing over [state]).  *)

From Stdlib Require Import ZArith List String Ascii Bool Lia Arith.
From Stdlib Require Import DecimalString Permutation Sorted DecimalZ DecimalPos.
Import ListNotations.
Open Scope string_scope.
Open Scope Z_scope.

(** ** Unicode data

    What the interpreter's character database (Unicode 14.0, the one of
    CPython 3.11) says about the characters outside ASCII, for the three
    questions the code asks of a character: is it white space (then
    [int()] strips it), is it a decimal digit (then [int()] reads it), and
    what is its upper-case form ([str.upper]).  Characters are code
    points. *)

Module Unicode.

(** the white space outside ASCII ([str.isspace]) *)
Definition SPACES : list Z :=
  [ 0x85; 0xa0; 0x1680; 0x2000; 0x2001; 0x2002; 0x2003; 0x2004; 0x2005; 0x2006;
    0x2007; 0x2008; 0x2009; 0x200a; 0x2028; 0x2029; 0x202f; 0x205f; 0x3000 ].

(** the digit zero of each script outside ASCII; the digits 1 to 9 of the
    script follow it ([unicodedata.decimal]) *)
Definition ZEROS : list Z :=
  [ 0x660; 0x6f0; 0x7c0; 0x966; 0x9e6; 0xa66; 0xae6; 0xb66; 0xbe6; 0xc66; 0xce6;
    0xd66; 0xde6; 0xe50; 0xed0; 0xf20; 0x1040; 0x1090; 0x17e0; 0x1810; 0x1946;
    0x19d0; 0x1a80; 0x1a90; 0x1b50; 0x1bb0; 0x1c40; 0x1c50; 0xa620; 0xa8d0;
    0xa900; 0xa9d0; 0xa9f0; 0xaa50; 0xabf0; 0xff10; 0x104a0; 0x10d30; 0x11066;
    0x110f0; 0x11136; 0x111d0; 0x112f0; 0x11450; 0x114d0; 0x11650; 0x116c0;
    0x11730; 0x118e0; 0x11950; 0x11c50; 0x11d50; 0x11da0; 0x16a60; 0x16ac0;
    0x16b50; 0x1d7ce; 0x1d7d8; 0x1d7e2; 0x1d7ec; 0x1d7f6; 0x1e140; 0x1e2f0;
    0x1e950; 0x1fbf0 ].

(** every character outside ASCII that [str.upper] changes, with the
    characters it becomes (one, two or three) *)
Definition UPPER : list (Z * list Z) :=
  [ (0xb5, [0x39c]); (0xdf, [0x53; 0x53]); (0xe0, [0xc0]); (0xe1, [0xc1]);
    (0xe2, [0xc2]); (0xe3, [0xc3]); (0xe4, [0xc4]); (0xe5, [0xc5]);
    (0xe6, [0xc6]); (0xe7, [0xc7]); (0xe8, [0xc8]); (0xe9, [0xc9]);
    (0xea, [0xca]); (0xeb, [0xcb]); (0xec, [0xcc]); (0xed, [0xcd]);
    (0xee, [0xce]); (0xef, [0xcf]); (0xf0, [0xd0]); (0xf1, [0xd1]);
    (0xf2, [0xd2]); (0xf3, [0xd3]); (0xf4, [0xd4]); (0xf5, [0xd5]);
    (0xf6, [0xd6]); (0xf8, [0xd8]); (0xf9, [0xd9]); (0xfa, [0xda]);
    (0xfb, [0xdb]); (0xfc, [0xdc]); (0xfd, [0xdd]); (0xfe, [0xde]);
    (0xff, [0x178]); (0x101, [0x100]); (0x103, [0x102]); (0x105, [0x104]);
    (0x107, [0x106]); (0x109, [0x108]); (0x10b, [0x10a]); (0x10d, [0x10c]);
    (0x10f, [0x10e]); (0x111, [0x110]); (0x113, [0x112]); (0x115, [0x114]);
    (0x117, [0x116]); (0x119, [0x118]); (0x11b, [0x11a]); (0x11d, [0x11c]);
    (0x11f, [0x11e]); (0x121, [0x120]); (0x123, [0x122]); (0x125, [0x124]);
    (0x127, [0x126]); (0x129, [0x128]); (0x12b, [0x12a]); (0x12d, [0x12c]);
    (0x12f, [0x12e]); (0x131, [0x49]); (0x133, [0x132]); (0x135, [0x134]);
    (0x137, [0x136]); (0x13a, [0x139]); (0x13c, [0x13b]); (0x13e, [0x13d]);
    (0x140, [0x13f]); (0x142, [0x141]); (0x144, [0x143]); (0x146, [0x145]);
    (0x148, [0x147]); (0x149, [0x2bc; 0x4e]); (0x14b, [0x14a]);
    (0x14d, [0x14c]); (0x14f, [0x14e]); (0x151, [0x150]); (0x153, [0x152]);
    (0x155, [0x154]); (0x157, [0x156]); (0x159, [0x158]); (0x15b, [0x15a]);
    (0x15d, [0x15c]); (0x15f, [0x15e]); (0x161, [0x160]); (0x163, [0x162]);
    (0x165, [0x164]); (0x167, [0x166]); (0x169, [0x168]); (0x16b, [0x16a]);
    (0x16d, [0x16c]); (0x16f, [0x16e]); (0x171, [0x170]); (0x173, [0x172]);
    (0x175, [0x174]); (0x177, [0x176]); (0x17a, [0x179]); (0x17c, [0x17b]);
    (0x17e, [0x17d]); (0x17f, [0x53]); (0x180, [0x243]); (0x183, [0x182]);
    (0x185, [0x184]); (0x188, [0x187]); (0x18c, [0x18b]); (0x192, [0x191]);
    (0x195, [0x1f6]); (0x199, [0x198]); (0x19a, [0x23d]); (0x19e, [0x220]);
    (0x1a1, [0x1a0]); (0x1a3, [0x1a2]); (0x1a5, [0x1a4]); (0x1a8, [0x1a7]);
    (0x1ad, [0x1ac]); (0x1b0, [0x1af]); (0x1b4, [0x1b3]); (0x1b6, [0x1b5]);
    (0x1b9, [0x1b8]); (0x1bd, [0x1bc]); (0x1bf, [0x1f7]); (0x1c5, [0x1c4]);
    (0x1c6, [0x1c4]); (0x1c8, [0x1c7]); (0x1c9, [0x1c7]); (0x1cb, [0x1ca]);
    (0x1cc, [0x1ca]); (0x1ce, [0x1cd]); (0x1d0, [0x1cf]); (0x1d2, [0x1d1]);
    (0x1d4, [0x1d3]); (0x1d6, [0x1d5]); (0x1d8, [0x1d7]); (0x1da, [0x1d9]);
    (0x1dc, [0x1db]); (0x1dd, [0x18e]); (0x1df, [0x1de]); (0x1e1, [0x1e0]);
    (0x1e3, [0x1e2]); (0x1e5, [0x1e4]); (0x1e7, [0x1e6]); (0x1e9, [0x1e8]);
    (0x1eb, [0x1ea]); (0x1ed, [0x1ec]); (0x1ef, [0x1ee]);
    (0x1f0, [0x4a; 0x30c]); (0x1f2, [0x1f1]); (0x1f3, [0x1f1]);
    (0x1f5, [0x1f4]); (0x1f9, [0x1f8]); (0x1fb, [0x1fa]); (0x1fd, [0x1fc]);
    (0x1ff, [0x1fe]); (0x201, [0x200]); (0x203, [0x202]); (0x205, [0x204]);
    (0x207, [0x206]); (0x209, [0x208]); (0x20b, [0x20a]); (0x20d, [0x20c]);
    (0x20f, [0x20e]); (0x211, [0x210]); (0x213, [0x212]); (0x215, [0x214]);
    (0x217, [0x216]); (0x219, [0x218]); (0x21b, [0x21a]); (0x21d, [0x21c]);
    (0x21f, [0x21e]); (0x223, [0x222]); (0x225, [0x224]); (0x227, [0x226]);
    (0x229, [0x228]); (0x22b, [0x22a]); (0x22d, [0x22c]); (0x22f, [0x22e]);
    (0x231, [0x230]); (0x233, [0x232]); (0x23c, [0x23b]); (0x23f, [0x2c7e]);
    (0x240, [0x2c7f]); (0x242, [0x241]); (0x247, [0x246]); (0x249, [0x248]);
    (0x24b, [0x24a]); (0x24d, [0x24c]); (0x24f, [0x24e]); (0x250, [0x2c6f]);
    (0x251, [0x2c6d]); (0x252, [0x2c70]); (0x253, [0x181]); (0x254, [0x186]);
    (0x256, [0x189]); (0x257, [0x18a]); (0x259, [0x18f]); (0x25b, [0x190]);
    (0x25c, [0xa7ab]); (0x260, [0x193]); (0x261, [0xa7ac]); (0x263, [0x194]);
    (0x265, [0xa78d]); (0x266, [0xa7aa]); (0x268, [0x197]); (0x269, [0x196]);
    (0x26a, [0xa7ae]); (0x26b, [0x2c62]); (0x26c, [0xa7ad]); (0x26f, [0x19c]);
    (0x271, [0x2c6e]); (0x272, [0x19d]); (0x275, [0x19f]); (0x27d, [0x2c64]);
    (0x280, [0x1a6]); (0x282, [0xa7c5]); (0x283, [0x1a9]); (0x287, [0xa7b1]);
    (0x288, [0x1ae]); (0x289, [0x244]); (0x28a, [0x1b1]); (0x28b, [0x1b2]);
    (0x28c, [0x245]); (0x292, [0x1b7]); (0x29d, [0xa7b2]); (0x29e, [0xa7b0]);
    (0x345, [0x399]); (0x371, [0x370]); (0x373, [0x372]); (0x377, [0x376]);
    (0x37b, [0x3fd]); (0x37c, [0x3fe]); (0x37d, [0x3ff]);
    (0x390, [0x399; 0x308; 0x301]); (0x3ac, [0x386]); (0x3ad, [0x388]);
    (0x3ae, [0x389]); (0x3af, [0x38a]); (0x3b0, [0x3a5; 0x308; 0x301]);
    (0x3b1, [0x391]); (0x3b2, [0x392]); (0x3b3, [0x393]); (0x3b4, [0x394]);
    (0x3b5, [0x395]); (0x3b6, [0x396]); (0x3b7, [0x397]); (0x3b8, [0x398]);
    (0x3b9, [0x399]); (0x3ba, [0x39a]); (0x3bb, [0x39b]); (0x3bc, [0x39c]);
    (0x3bd, [0x39d]); (0x3be, [0x39e]); (0x3bf, [0x39f]); (0x3c0, [0x3a0]);
    (0x3c1, [0x3a1]); (0x3c2, [0x3a3]); (0x3c3, [0x3a3]); (0x3c4, [0x3a4]);
    (0x3c5, [0x3a5]); (0x3c6, [0x3a6]); (0x3c7, [0x3a7]); (0x3c8, [0x3a8]);
    (0x3c9, [0x3a9]); (0x3ca, [0x3aa]); (0x3cb, [0x3ab]); (0x3cc, [0x38c]);
    (0x3cd, [0x38e]); (0x3ce, [0x38f]); (0x3d0, [0x392]); (0x3d1, [0x398]);
    (0x3d5, [0x3a6]); (0x3d6, [0x3a0]); (0x3d7, [0x3cf]); (0x3d9, [0x3d8]);
    (0x3db, [0x3da]); (0x3dd, [0x3dc]); (0x3df, [0x3de]); (0x3e1, [0x3e0]);
    (0x3e3, [0x3e2]); (0x3e5, [0x3e4]); (0x3e7, [0x3e6]); (0x3e9, [0x3e8]);
    (0x3eb, [0x3ea]); (0x3ed, [0x3ec]); (0x3ef, [0x3ee]); (0x3f0, [0x39a]);
    (0x3f1, [0x3a1]); (0x3f2, [0x3f9]); (0x3f3, [0x37f]); (0x3f5, [0x395]);
    (0x3f8, [0x3f7]); (0x3fb, [0x3fa]); (0x430, [0x410]); (0x431, [0x411]);
    (0x432, [0x412]); (0x433, [0x413]); (0x434, [0x414]); (0x435, [0x415]);
    (0x436, [0x416]); (0x437, [0x417]); (0x438, [0x418]); (0x439, [0x419]);
    (0x43a, [0x41a]); (0x43b, [0x41b]); (0x43c, [0x41c]); (0x43d, [0x41d]);
    (0x43e, [0x41e]); (0x43f, [0x41f]); (0x440, [0x420]); (0x441, [0x421]);
    (0x442, [0x422]); (0x443, [0x423]); (0x444, [0x424]); (0x445, [0x425]);
    (0x446, [0x426]); (0x447, [0x427]); (0x448, [0x428]); (0x449, [0x429]);
    (0x44a, [0x42a]); (0x44b, [0x42b]); (0x44c, [0x42c]); (0x44d, [0x42d]);
    (0x44e, [0x42e]); (0x44f, [0x42f]); (0x450, [0x400]); (0x451, [0x401]);
    (0x452, [0x402]); (0x453, [0x403]); (0x454, [0x404]); (0x455, [0x405]);
    (0x456, [0x406]); (0x457, [0x407]); (0x458, [0x408]); (0x459, [0x409]);
    (0x45a, [0x40a]); (0x45b, [0x40b]); (0x45c, [0x40c]); (0x45d, [0x40d]);
    (0x45e, [0x40e]); (0x45f, [0x40f]); (0x461, [0x460]); (0x463, [0x462]);
    (0x465, [0x464]); (0x467, [0x466]); (0x469, [0x468]); (0x46b, [0x46a]);
    (0x46d, [0x46c]); (0x46f, [0x46e]); (0x471, [0x470]); (0x473, [0x472]);
    (0x475, [0x474]); (0x477, [0x476]); (0x479, [0x478]); (0x47b, [0x47a]);
    (0x47d, [0x47c]); (0x47f, [0x47e]); (0x481, [0x480]); (0x48b, [0x48a]);
    (0x48d, [0x48c]); (0x48f, [0x48e]); (0x491, [0x490]); (0x493, [0x492]);
    (0x495, [0x494]); (0x497, [0x496]); (0x499, [0x498]); (0x49b, [0x49a]);
    (0x49d, [0x49c]); (0x49f, [0x49e]); (0x4a1, [0x4a0]); (0x4a3, [0x4a2]);
    (0x4a5, [0x4a4]); (0x4a7, [0x4a6]); (0x4a9, [0x4a8]); (0x4ab, [0x4aa]);
    (0x4ad, [0x4ac]); (0x4af, [0x4ae]); (0x4b1, [0x4b0]); (0x4b3, [0x4b2]);
    (0x4b5, [0x4b4]); (0x4b7, [0x4b6]); (0x4b9, [0x4b8]); (0x4bb, [0x4ba]);
    (0x4bd, [0x4bc]); (0x4bf, [0x4be]); (0x4c2, [0x4c1]); (0x4c4, [0x4c3]);
    (0x4c6, [0x4c5]); (0x4c8, [0x4c7]); (0x4ca, [0x4c9]); (0x4cc, [0x4cb]);
    (0x4ce, [0x4cd]); (0x4cf, [0x4c0]); (0x4d1, [0x4d0]); (0x4d3, [0x4d2]);
    (0x4d5, [0x4d4]); (0x4d7, [0x4d6]); (0x4d9, [0x4d8]); (0x4db, [0x4da]);
    (0x4dd, [0x4dc]); (0x4df, [0x4de]); (0x4e1, [0x4e0]); (0x4e3, [0x4e2]);
    (0x4e5, [0x4e4]); (0x4e7, [0x4e6]); (0x4e9, [0x4e8]); (0x4eb, [0x4ea]);
    (0x4ed, [0x4ec]); (0x4ef, [0x4ee]); (0x4f1, [0x4f0]); (0x4f3, [0x4f2]);
    (0x4f5, [0x4f4]); (0x4f7, [0x4f6]); (0x4f9, [0x4f8]); (0x4fb, [0x4fa]);
    (0x4fd, [0x4fc]); (0x4ff, [0x4fe]); (0x501, [0x500]); (0x503, [0x502]);
    (0x505, [0x504]); (0x507, [0x506]); (0x509, [0x508]); (0x50b, [0x50a]);
    (0x50d, [0x50c]); (0x50f, [0x50e]); (0x511, [0x510]); (0x513, [0x512]);
    (0x515, [0x514]); (0x517, [0x516]); (0x519, [0x518]); (0x51b, [0x51a]);
    (0x51d, [0x51c]); (0x51f, [0x51e]); (0x521, [0x520]); (0x523, [0x522]);
    (0x525, [0x524]); (0x527, [0x526]); (0x529, [0x528]); (0x52b, [0x52a]);
    (0x52d, [0x52c]); (0x52f, [0x52e]); (0x561, [0x531]); (0x562, [0x532]);
    (0x563, [0x533]); (0x564, [0x534]); (0x565, [0x535]); (0x566, [0x536]);
    (0x567, [0x537]); (0x568, [0x538]); (0x569, [0x539]); (0x56a, [0x53a]);
    (0x56b, [0x53b]); (0x56c, [0x53c]); (0x56d, [0x53d]); (0x56e, [0x53e]);
    (0x56f, [0x53f]); (0x570, [0x540]); (0x571, [0x541]); (0x572, [0x542]);
    (0x573, [0x543]); (0x574, [0x544]); (0x575, [0x545]); (0x576, [0x546]);
    (0x577, [0x547]); (0x578, [0x548]); (0x579, [0x549]); (0x57a, [0x54a]);
    (0x57b, [0x54b]); (0x57c, [0x54c]); (0x57d, [0x54d]); (0x57e, [0x54e]);
    (0x57f, [0x54f]); (0x580, [0x550]); (0x581, [0x551]); (0x582, [0x552]);
    (0x583, [0x553]); (0x584, [0x554]); (0x585, [0x555]); (0x586, [0x556]);
    (0x587, [0x535; 0x552]); (0x10d0, [0x1c90]); (0x10d1, [0x1c91]);
    (0x10d2, [0x1c92]); (0x10d3, [0x1c93]); (0x10d4, [0x1c94]);
    (0x10d5, [0x1c95]); (0x10d6, [0x1c96]); (0x10d7, [0x1c97]);
    (0x10d8, [0x1c98]); (0x10d9, [0x1c99]); (0x10da, [0x1c9a]);
    (0x10db, [0x1c9b]); (0x10dc, [0x1c9c]); (0x10dd, [0x1c9d]);
    (0x10de, [0x1c9e]); (0x10df, [0x1c9f]); (0x10e0, [0x1ca0]);
    (0x10e1, [0x1ca1]); (0x10e2, [0x1ca2]); (0x10e3, [0x1ca3]);
    (0x10e4, [0x1ca4]); (0x10e5, [0x1ca5]); (0x10e6, [0x1ca6]);
    (0x10e7, [0x1ca7]); (0x10e8, [0x1ca8]); (0x10e9, [0x1ca9]);
    (0x10ea, [0x1caa]); (0x10eb, [0x1cab]); (0x10ec, [0x1cac]);
    (0x10ed, [0x1cad]); (0x10ee, [0x1cae]); (0x10ef, [0x1caf]);
    (0x10f0, [0x1cb0]); (0x10f1, [0x1cb1]); (0x10f2, [0x1cb2]);
    (0x10f3, [0x1cb3]); (0x10f4, [0x1cb4]); (0x10f5, [0x1cb5]);
    (0x10f6, [0x1cb6]); (0x10f7, [0x1cb7]); (0x10f8, [0x1cb8]);
    (0x10f9, [0x1cb9]); (0x10fa, [0x1cba]); (0x10fd, [0x1cbd]);
    (0x10fe, [0x1cbe]); (0x10ff, [0x1cbf]); (0x13f8, [0x13f0]);
    (0x13f9, [0x13f1]); (0x13fa, [0x13f2]); (0x13fb, [0x13f3]);
    (0x13fc, [0x13f4]); (0x13fd, [0x13f5]); (0x1c80, [0x412]);
    (0x1c81, [0x414]); (0x1c82, [0x41e]); (0x1c83, [0x421]); (0x1c84, [0x422]);
    (0x1c85, [0x422]); (0x1c86, [0x42a]); (0x1c87, [0x462]);
    (0x1c88, [0xa64a]); (0x1d79, [0xa77d]); (0x1d7d, [0x2c63]);
    (0x1d8e, [0xa7c6]); (0x1e01, [0x1e00]); (0x1e03, [0x1e02]);
    (0x1e05, [0x1e04]); (0x1e07, [0x1e06]); (0x1e09, [0x1e08]);
    (0x1e0b, [0x1e0a]); (0x1e0d, [0x1e0c]); (0x1e0f, [0x1e0e]);
    (0x1e11, [0x1e10]); (0x1e13, [0x1e12]); (0x1e15, [0x1e14]);
    (0x1e17, [0x1e16]); (0x1e19, [0x1e18]); (0x1e1b, [0x1e1a]);
    (0x1e1d, [0x1e1c]); (0x1e1f, [0x1e1e]); (0x1e21, [0x1e20]);
    (0x1e23, [0x1e22]); (0x1e25, [0x1e24]); (0x1e27, [0x1e26]);
    (0x1e29, [0x1e28]); (0x1e2b, [0x1e2a]); (0x1e2d, [0x1e2c]);
    (0x1e2f, [0x1e2e]); (0x1e31, [0x1e30]); (0x1e33, [0x1e32]);
    (0x1e35, [0x1e34]); (0x1e37, [0x1e36]); (0x1e39, [0x1e38]);
    (0x1e3b, [0x1e3a]); (0x1e3d, [0x1e3c]); (0x1e3f, [0x1e3e]);
    (0x1e41, [0x1e40]); (0x1e43, [0x1e42]); (0x1e45, [0x1e44]);
    (0x1e47, [0x1e46]); (0x1e49, [0x1e48]); (0x1e4b, [0x1e4a]);
    (0x1e4d, [0x1e4c]); (0x1e4f, [0x1e4e]); (0x1e51, [0x1e50]);
    (0x1e53, [0x1e52]); (0x1e55, [0x1e54]); (0x1e57, [0x1e56]);
    (0x1e59, [0x1e58]); (0x1e5b, [0x1e5a]); (0x1e5d, [0x1e5c]);
    (0x1e5f, [0x1e5e]); (0x1e61, [0x1e60]); (0x1e63, [0x1e62]);
    (0x1e65, [0x1e64]); (0x1e67, [0x1e66]); (0x1e69, [0x1e68]);
    (0x1e6b, [0x1e6a]); (0x1e6d, [0x1e6c]); (0x1e6f, [0x1e6e]);
    (0x1e71, [0x1e70]); (0x1e73, [0x1e72]); (0x1e75, [0x1e74]);
    (0x1e77, [0x1e76]); (0x1e79, [0x1e78]); (0x1e7b, [0x1e7a]);
    (0x1e7d, [0x1e7c]); (0x1e7f, [0x1e7e]); (0x1e81, [0x1e80]);
    (0x1e83, [0x1e82]); (0x1e85, [0x1e84]); (0x1e87, [0x1e86]);
    (0x1e89, [0x1e88]); (0x1e8b, [0x1e8a]); (0x1e8d, [0x1e8c]);
    (0x1e8f, [0x1e8e]); (0x1e91, [0x1e90]); (0x1e93, [0x1e92]);
    (0x1e95, [0x1e94]); (0x1e96, [0x48; 0x331]); (0x1e97, [0x54; 0x308]);
    (0x1e98, [0x57; 0x30a]); (0x1e99, [0x59; 0x30a]); (0x1e9a, [0x41; 0x2be]);
    (0x1e9b, [0x1e60]); (0x1ea1, [0x1ea0]); (0x1ea3, [0x1ea2]);
    (0x1ea5, [0x1ea4]); (0x1ea7, [0x1ea6]); (0x1ea9, [0x1ea8]);
    (0x1eab, [0x1eaa]); (0x1ead, [0x1eac]); (0x1eaf, [0x1eae]);
    (0x1eb1, [0x1eb0]); (0x1eb3, [0x1eb2]); (0x1eb5, [0x1eb4]);
    (0x1eb7, [0x1eb6]); (0x1eb9, [0x1eb8]); (0x1ebb, [0x1eba]);
    (0x1ebd, [0x1ebc]); (0x1ebf, [0x1ebe]); (0x1ec1, [0x1ec0]);
    (0x1ec3, [0x1ec2]); (0x1ec5, [0x1ec4]); (0x1ec7, [0x1ec6]);
    (0x1ec9, [0x1ec8]); (0x1ecb, [0x1eca]); (0x1ecd, [0x1ecc]);
    (0x1ecf, [0x1ece]); (0x1ed1, [0x1ed0]); (0x1ed3, [0x1ed2]);
    (0x1ed5, [0x1ed4]); (0x1ed7, [0x1ed6]); (0x1ed9, [0x1ed8]);
    (0x1edb, [0x1eda]); (0x1edd, [0x1edc]); (0x1edf, [0x1ede]);
    (0x1ee1, [0x1ee0]); (0x1ee3, [0x1ee2]); (0x1ee5, [0x1ee4]);
    (0x1ee7, [0x1ee6]); (0x1ee9, [0x1ee8]); (0x1eeb, [0x1eea]);
    (0x1eed, [0x1eec]); (0x1eef, [0x1eee]); (0x1ef1, [0x1ef0]);
    (0x1ef3, [0x1ef2]); (0x1ef5, [0x1ef4]); (0x1ef7, [0x1ef6]);
    (0x1ef9, [0x1ef8]); (0x1efb, [0x1efa]); (0x1efd, [0x1efc]);
    (0x1eff, [0x1efe]); (0x1f00, [0x1f08]); (0x1f01, [0x1f09]);
    (0x1f02, [0x1f0a]); (0x1f03, [0x1f0b]); (0x1f04, [0x1f0c]);
    (0x1f05, [0x1f0d]); (0x1f06, [0x1f0e]); (0x1f07, [0x1f0f]);
    (0x1f10, [0x1f18]); (0x1f11, [0x1f19]); (0x1f12, [0x1f1a]);
    (0x1f13, [0x1f1b]); (0x1f14, [0x1f1c]); (0x1f15, [0x1f1d]);
    (0x1f20, [0x1f28]); (0x1f21, [0x1f29]); (0x1f22, [0x1f2a]);
    (0x1f23, [0x1f2b]); (0x1f24, [0x1f2c]); (0x1f25, [0x1f2d]);
    (0x1f26, [0x1f2e]); (0x1f27, [0x1f2f]); (0x1f30, [0x1f38]);
    (0x1f31, [0x1f39]); (0x1f32, [0x1f3a]); (0x1f33, [0x1f3b]);
    (0x1f34, [0x1f3c]); (0x1f35, [0x1f3d]); (0x1f36, [0x1f3e]);
    (0x1f37, [0x1f3f]); (0x1f40, [0x1f48]); (0x1f41, [0x1f49]);
    (0x1f42, [0x1f4a]); (0x1f43, [0x1f4b]); (0x1f44, [0x1f4c]);
    (0x1f45, [0x1f4d]); (0x1f50, [0x3a5; 0x313]); (0x1f51, [0x1f59]);
    (0x1f52, [0x3a5; 0x313; 0x300]); (0x1f53, [0x1f5b]);
    (0x1f54, [0x3a5; 0x313; 0x301]); (0x1f55, [0x1f5d]);
    (0x1f56, [0x3a5; 0x313; 0x342]); (0x1f57, [0x1f5f]); (0x1f60, [0x1f68]);
    (0x1f61, [0x1f69]); (0x1f62, [0x1f6a]); (0x1f63, [0x1f6b]);
    (0x1f64, [0x1f6c]); (0x1f65, [0x1f6d]); (0x1f66, [0x1f6e]);
    (0x1f67, [0x1f6f]); (0x1f70, [0x1fba]); (0x1f71, [0x1fbb]);
    (0x1f72, [0x1fc8]); (0x1f73, [0x1fc9]); (0x1f74, [0x1fca]);
    (0x1f75, [0x1fcb]); (0x1f76, [0x1fda]); (0x1f77, [0x1fdb]);
    (0x1f78, [0x1ff8]); (0x1f79, [0x1ff9]); (0x1f7a, [0x1fea]);
    (0x1f7b, [0x1feb]); (0x1f7c, [0x1ffa]); (0x1f7d, [0x1ffb]);
    (0x1f80, [0x1f08; 0x399]); (0x1f81, [0x1f09; 0x399]);
    (0x1f82, [0x1f0a; 0x399]); (0x1f83, [0x1f0b; 0x399]);
    (0x1f84, [0x1f0c; 0x399]); (0x1f85, [0x1f0d; 0x399]);
    (0x1f86, [0x1f0e; 0x399]); (0x1f87, [0x1f0f; 0x399]);
    (0x1f88, [0x1f08; 0x399]); (0x1f89, [0x1f09; 0x399]);
    (0x1f8a, [0x1f0a; 0x399]); (0x1f8b, [0x1f0b; 0x399]);
    (0x1f8c, [0x1f0c; 0x399]); (0x1f8d, [0x1f0d; 0x399]);
    (0x1f8e, [0x1f0e; 0x399]); (0x1f8f, [0x1f0f; 0x399]);
    (0x1f90, [0x1f28; 0x399]); (0x1f91, [0x1f29; 0x399]);
    (0x1f92, [0x1f2a; 0x399]); (0x1f93, [0x1f2b; 0x399]);
    (0x1f94, [0x1f2c; 0x399]); (0x1f95, [0x1f2d; 0x399]);
    (0x1f96, [0x1f2e; 0x399]); (0x1f97, [0x1f2f; 0x399]);
    (0x1f98, [0x1f28; 0x399]); (0x1f99, [0x1f29; 0x399]);
    (0x1f9a, [0x1f2a; 0x399]); (0x1f9b, [0x1f2b; 0x399]);
    (0x1f9c, [0x1f2c; 0x399]); (0x1f9d, [0x1f2d; 0x399]);
    (0x1f9e, [0x1f2e; 0x399]); (0x1f9f, [0x1f2f; 0x399]);
    (0x1fa0, [0x1f68; 0x399]); (0x1fa1, [0x1f69; 0x399]);
    (0x1fa2, [0x1f6a; 0x399]); (0x1fa3, [0x1f6b; 0x399]);
    (0x1fa4, [0x1f6c; 0x399]); (0x1fa5, [0x1f6d; 0x399]);
    (0x1fa6, [0x1f6e; 0x399]); (0x1fa7, [0x1f6f; 0x399]);
    (0x1fa8, [0x1f68; 0x399]); (0x1fa9, [0x1f69; 0x399]);
    (0x1faa, [0x1f6a; 0x399]); (0x1fab, [0x1f6b; 0x399]);
    (0x1fac, [0x1f6c; 0x399]); (0x1fad, [0x1f6d; 0x399]);
    (0x1fae, [0x1f6e; 0x399]); (0x1faf, [0x1f6f; 0x399]); (0x1fb0, [0x1fb8]);
    (0x1fb1, [0x1fb9]); (0x1fb2, [0x1fba; 0x399]); (0x1fb3, [0x391; 0x399]);
    (0x1fb4, [0x386; 0x399]); (0x1fb6, [0x391; 0x342]);
    (0x1fb7, [0x391; 0x342; 0x399]); (0x1fbc, [0x391; 0x399]);
    (0x1fbe, [0x399]); (0x1fc2, [0x1fca; 0x399]); (0x1fc3, [0x397; 0x399]);
    (0x1fc4, [0x389; 0x399]); (0x1fc6, [0x397; 0x342]);
    (0x1fc7, [0x397; 0x342; 0x399]); (0x1fcc, [0x397; 0x399]);
    (0x1fd0, [0x1fd8]); (0x1fd1, [0x1fd9]); (0x1fd2, [0x399; 0x308; 0x300]);
    (0x1fd3, [0x399; 0x308; 0x301]); (0x1fd6, [0x399; 0x342]);
    (0x1fd7, [0x399; 0x308; 0x342]); (0x1fe0, [0x1fe8]); (0x1fe1, [0x1fe9]);
    (0x1fe2, [0x3a5; 0x308; 0x300]); (0x1fe3, [0x3a5; 0x308; 0x301]);
    (0x1fe4, [0x3a1; 0x313]); (0x1fe5, [0x1fec]); (0x1fe6, [0x3a5; 0x342]);
    (0x1fe7, [0x3a5; 0x308; 0x342]); (0x1ff2, [0x1ffa; 0x399]);
    (0x1ff3, [0x3a9; 0x399]); (0x1ff4, [0x38f; 0x399]);
    (0x1ff6, [0x3a9; 0x342]); (0x1ff7, [0x3a9; 0x342; 0x399]);
    (0x1ffc, [0x3a9; 0x399]); (0x214e, [0x2132]); (0x2170, [0x2160]);
    (0x2171, [0x2161]); (0x2172, [0x2162]); (0x2173, [0x2163]);
    (0x2174, [0x2164]); (0x2175, [0x2165]); (0x2176, [0x2166]);
    (0x2177, [0x2167]); (0x2178, [0x2168]); (0x2179, [0x2169]);
    (0x217a, [0x216a]); (0x217b, [0x216b]); (0x217c, [0x216c]);
    (0x217d, [0x216d]); (0x217e, [0x216e]); (0x217f, [0x216f]);
    (0x2184, [0x2183]); (0x24d0, [0x24b6]); (0x24d1, [0x24b7]);
    (0x24d2, [0x24b8]); (0x24d3, [0x24b9]); (0x24d4, [0x24ba]);
    (0x24d5, [0x24bb]); (0x24d6, [0x24bc]); (0x24d7, [0x24bd]);
    (0x24d8, [0x24be]); (0x24d9, [0x24bf]); (0x24da, [0x24c0]);
    (0x24db, [0x24c1]); (0x24dc, [0x24c2]); (0x24dd, [0x24c3]);
    (0x24de, [0x24c4]); (0x24df, [0x24c5]); (0x24e0, [0x24c6]);
    (0x24e1, [0x24c7]); (0x24e2, [0x24c8]); (0x24e3, [0x24c9]);
    (0x24e4, [0x24ca]); (0x24e5, [0x24cb]); (0x24e6, [0x24cc]);
    (0x24e7, [0x24cd]); (0x24e8, [0x24ce]); (0x24e9, [0x24cf]);
    (0x2c30, [0x2c00]); (0x2c31, [0x2c01]); (0x2c32, [0x2c02]);
    (0x2c33, [0x2c03]); (0x2c34, [0x2c04]); (0x2c35, [0x2c05]);
    (0x2c36, [0x2c06]); (0x2c37, [0x2c07]); (0x2c38, [0x2c08]);
    (0x2c39, [0x2c09]); (0x2c3a, [0x2c0a]); (0x2c3b, [0x2c0b]);
    (0x2c3c, [0x2c0c]); (0x2c3d, [0x2c0d]); (0x2c3e, [0x2c0e]);
    (0x2c3f, [0x2c0f]); (0x2c40, [0x2c10]); (0x2c41, [0x2c11]);
    (0x2c42, [0x2c12]); (0x2c43, [0x2c13]); (0x2c44, [0x2c14]);
    (0x2c45, [0x2c15]); (0x2c46, [0x2c16]); (0x2c47, [0x2c17]);
    (0x2c48, [0x2c18]); (0x2c49, [0x2c19]); (0x2c4a, [0x2c1a]);
    (0x2c4b, [0x2c1b]); (0x2c4c, [0x2c1c]); (0x2c4d, [0x2c1d]);
    (0x2c4e, [0x2c1e]); (0x2c4f, [0x2c1f]); (0x2c50, [0x2c20]);
    (0x2c51, [0x2c21]); (0x2c52, [0x2c22]); (0x2c53, [0x2c23]);
    (0x2c54, [0x2c24]); (0x2c55, [0x2c25]); (0x2c56, [0x2c26]);
    (0x2c57, [0x2c27]); (0x2c58, [0x2c28]); (0x2c59, [0x2c29]);
    (0x2c5a, [0x2c2a]); (0x2c5b, [0x2c2b]); (0x2c5c, [0x2c2c]);
    (0x2c5d, [0x2c2d]); (0x2c5e, [0x2c2e]); (0x2c5f, [0x2c2f]);
    (0x2c61, [0x2c60]); (0x2c65, [0x23a]); (0x2c66, [0x23e]);
    (0x2c68, [0x2c67]); (0x2c6a, [0x2c69]); (0x2c6c, [0x2c6b]);
    (0x2c73, [0x2c72]); (0x2c76, [0x2c75]); (0x2c81, [0x2c80]);
    (0x2c83, [0x2c82]); (0x2c85, [0x2c84]); (0x2c87, [0x2c86]);
    (0x2c89, [0x2c88]); (0x2c8b, [0x2c8a]); (0x2c8d, [0x2c8c]);
    (0x2c8f, [0x2c8e]); (0x2c91, [0x2c90]); (0x2c93, [0x2c92]);
    (0x2c95, [0x2c94]); (0x2c97, [0x2c96]); (0x2c99, [0x2c98]);
    (0x2c9b, [0x2c9a]); (0x2c9d, [0x2c9c]); (0x2c9f, [0x2c9e]);
    (0x2ca1, [0x2ca0]); (0x2ca3, [0x2ca2]); (0x2ca5, [0x2ca4]);
    (0x2ca7, [0x2ca6]); (0x2ca9, [0x2ca8]); (0x2cab, [0x2caa]);
    (0x2cad, [0x2cac]); (0x2caf, [0x2cae]); (0x2cb1, [0x2cb0]);
    (0x2cb3, [0x2cb2]); (0x2cb5, [0x2cb4]); (0x2cb7, [0x2cb6]);
    (0x2cb9, [0x2cb8]); (0x2cbb, [0x2cba]); (0x2cbd, [0x2cbc]);
    (0x2cbf, [0x2cbe]); (0x2cc1, [0x2cc0]); (0x2cc3, [0x2cc2]);
    (0x2cc5, [0x2cc4]); (0x2cc7, [0x2cc6]); (0x2cc9, [0x2cc8]);
    (0x2ccb, [0x2cca]); (0x2ccd, [0x2ccc]); (0x2ccf, [0x2cce]);
    (0x2cd1, [0x2cd0]); (0x2cd3, [0x2cd2]); (0x2cd5, [0x2cd4]);
    (0x2cd7, [0x2cd6]); (0x2cd9, [0x2cd8]); (0x2cdb, [0x2cda]);
    (0x2cdd, [0x2cdc]); (0x2cdf, [0x2cde]); (0x2ce1, [0x2ce0]);
    (0x2ce3, [0x2ce2]); (0x2cec, [0x2ceb]); (0x2cee, [0x2ced]);
    (0x2cf3, [0x2cf2]); (0x2d00, [0x10a0]); (0x2d01, [0x10a1]);
    (0x2d02, [0x10a2]); (0x2d03, [0x10a3]); (0x2d04, [0x10a4]);
    (0x2d05, [0x10a5]); (0x2d06, [0x10a6]); (0x2d07, [0x10a7]);
    (0x2d08, [0x10a8]); (0x2d09, [0x10a9]); (0x2d0a, [0x10aa]);
    (0x2d0b, [0x10ab]); (0x2d0c, [0x10ac]); (0x2d0d, [0x10ad]);
    (0x2d0e, [0x10ae]); (0x2d0f, [0x10af]); (0x2d10, [0x10b0]);
    (0x2d11, [0x10b1]); (0x2d12, [0x10b2]); (0x2d13, [0x10b3]);
    (0x2d14, [0x10b4]); (0x2d15, [0x10b5]); (0x2d16, [0x10b6]);
    (0x2d17, [0x10b7]); (0x2d18, [0x10b8]); (0x2d19, [0x10b9]);
    (0x2d1a, [0x10ba]); (0x2d1b, [0x10bb]); (0x2d1c, [0x10bc]);
    (0x2d1d, [0x10bd]); (0x2d1e, [0x10be]); (0x2d1f, [0x10bf]);
    (0x2d20, [0x10c0]); (0x2d21, [0x10c1]); (0x2d22, [0x10c2]);
    (0x2d23, [0x10c3]); (0x2d24, [0x10c4]); (0x2d25, [0x10c5]);
    (0x2d27, [0x10c7]); (0x2d2d, [0x10cd]); (0xa641, [0xa640]);
    (0xa643, [0xa642]); (0xa645, [0xa644]); (0xa647, [0xa646]);
    (0xa649, [0xa648]); (0xa64b, [0xa64a]); (0xa64d, [0xa64c]);
    (0xa64f, [0xa64e]); (0xa651, [0xa650]); (0xa653, [0xa652]);
    (0xa655, [0xa654]); (0xa657, [0xa656]); (0xa659, [0xa658]);
    (0xa65b, [0xa65a]); (0xa65d, [0xa65c]); (0xa65f, [0xa65e]);
    (0xa661, [0xa660]); (0xa663, [0xa662]); (0xa665, [0xa664]);
    (0xa667, [0xa666]); (0xa669, [0xa668]); (0xa66b, [0xa66a]);
    (0xa66d, [0xa66c]); (0xa681, [0xa680]); (0xa683, [0xa682]);
    (0xa685, [0xa684]); (0xa687, [0xa686]); (0xa689, [0xa688]);
    (0xa68b, [0xa68a]); (0xa68d, [0xa68c]); (0xa68f, [0xa68e]);
    (0xa691, [0xa690]); (0xa693, [0xa692]); (0xa695, [0xa694]);
    (0xa697, [0xa696]); (0xa699, [0xa698]); (0xa69b, [0xa69a]);
    (0xa723, [0xa722]); (0xa725, [0xa724]); (0xa727, [0xa726]);
    (0xa729, [0xa728]); (0xa72b, [0xa72a]); (0xa72d, [0xa72c]);
    (0xa72f, [0xa72e]); (0xa733, [0xa732]); (0xa735, [0xa734]);
    (0xa737, [0xa736]); (0xa739, [0xa738]); (0xa73b, [0xa73a]);
    (0xa73d, [0xa73c]); (0xa73f, [0xa73e]); (0xa741, [0xa740]);
    (0xa743, [0xa742]); (0xa745, [0xa744]); (0xa747, [0xa746]);
    (0xa749, [0xa748]); (0xa74b, [0xa74a]); (0xa74d, [0xa74c]);
    (0xa74f, [0xa74e]); (0xa751, [0xa750]); (0xa753, [0xa752]);
    (0xa755, [0xa754]); (0xa757, [0xa756]); (0xa759, [0xa758]);
    (0xa75b, [0xa75a]); (0xa75d, [0xa75c]); (0xa75f, [0xa75e]);
    (0xa761, [0xa760]); (0xa763, [0xa762]); (0xa765, [0xa764]);
    (0xa767, [0xa766]); (0xa769, [0xa768]); (0xa76b, [0xa76a]);
    (0xa76d, [0xa76c]); (0xa76f, [0xa76e]); (0xa77a, [0xa779]);
    (0xa77c, [0xa77b]); (0xa77f, [0xa77e]); (0xa781, [0xa780]);
    (0xa783, [0xa782]); (0xa785, [0xa784]); (0xa787, [0xa786]);
    (0xa78c, [0xa78b]); (0xa791, [0xa790]); (0xa793, [0xa792]);
    (0xa794, [0xa7c4]); (0xa797, [0xa796]); (0xa799, [0xa798]);
    (0xa79b, [0xa79a]); (0xa79d, [0xa79c]); (0xa79f, [0xa79e]);
    (0xa7a1, [0xa7a0]); (0xa7a3, [0xa7a2]); (0xa7a5, [0xa7a4]);
    (0xa7a7, [0xa7a6]); (0xa7a9, [0xa7a8]); (0xa7b5, [0xa7b4]);
    (0xa7b7, [0xa7b6]); (0xa7b9, [0xa7b8]); (0xa7bb, [0xa7ba]);
    (0xa7bd, [0xa7bc]); (0xa7bf, [0xa7be]); (0xa7c1, [0xa7c0]);
    (0xa7c3, [0xa7c2]); (0xa7c8, [0xa7c7]); (0xa7ca, [0xa7c9]);
    (0xa7d1, [0xa7d0]); (0xa7d7, [0xa7d6]); (0xa7d9, [0xa7d8]);
    (0xa7f6, [0xa7f5]); (0xab53, [0xa7b3]); (0xab70, [0x13a0]);
    (0xab71, [0x13a1]); (0xab72, [0x13a2]); (0xab73, [0x13a3]);
    (0xab74, [0x13a4]); (0xab75, [0x13a5]); (0xab76, [0x13a6]);
    (0xab77, [0x13a7]); (0xab78, [0x13a8]); (0xab79, [0x13a9]);
    (0xab7a, [0x13aa]); (0xab7b, [0x13ab]); (0xab7c, [0x13ac]);
    (0xab7d, [0x13ad]); (0xab7e, [0x13ae]); (0xab7f, [0x13af]);
    (0xab80, [0x13b0]); (0xab81, [0x13b1]); (0xab82, [0x13b2]);
    (0xab83, [0x13b3]); (0xab84, [0x13b4]); (0xab85, [0x13b5]);
    (0xab86, [0x13b6]); (0xab87, [0x13b7]); (0xab88, [0x13b8]);
    (0xab89, [0x13b9]); (0xab8a, [0x13ba]); (0xab8b, [0x13bb]);
    (0xab8c, [0x13bc]); (0xab8d, [0x13bd]); (0xab8e, [0x13be]);
    (0xab8f, [0x13bf]); (0xab90, [0x13c0]); (0xab91, [0x13c1]);
    (0xab92, [0x13c2]); (0xab93, [0x13c3]); (0xab94, [0x13c4]);
    (0xab95, [0x13c5]); (0xab96, [0x13c6]); (0xab97, [0x13c7]);
    (0xab98, [0x13c8]); (0xab99, [0x13c9]); (0xab9a, [0x13ca]);
    (0xab9b, [0x13cb]); (0xab9c, [0x13cc]); (0xab9d, [0x13cd]);
    (0xab9e, [0x13ce]); (0xab9f, [0x13cf]); (0xaba0, [0x13d0]);
    (0xaba1, [0x13d1]); (0xaba2, [0x13d2]); (0xaba3, [0x13d3]);
    (0xaba4, [0x13d4]); (0xaba5, [0x13d5]); (0xaba6, [0x13d6]);
    (0xaba7, [0x13d7]); (0xaba8, [0x13d8]); (0xaba9, [0x13d9]);
    (0xabaa, [0x13da]); (0xabab, [0x13db]); (0xabac, [0x13dc]);
    (0xabad, [0x13dd]); (0xabae, [0x13de]); (0xabaf, [0x13df]);
    (0xabb0, [0x13e0]); (0xabb1, [0x13e1]); (0xabb2, [0x13e2]);
    (0xabb3, [0x13e3]); (0xabb4, [0x13e4]); (0xabb5, [0x13e5]);
    (0xabb6, [0x13e6]); (0xabb7, [0x13e7]); (0xabb8, [0x13e8]);
    (0xabb9, [0x13e9]); (0xabba, [0x13ea]); (0xabbb, [0x13eb]);
    (0xabbc, [0x13ec]); (0xabbd, [0x13ed]); (0xabbe, [0x13ee]);
    (0xabbf, [0x13ef]); (0xfb00, [0x46; 0x46]); (0xfb01, [0x46; 0x49]);
    (0xfb02, [0x46; 0x4c]); (0xfb03, [0x46; 0x46; 0x49]);
    (0xfb04, [0x46; 0x46; 0x4c]); (0xfb05, [0x53; 0x54]);
    (0xfb06, [0x53; 0x54]); (0xfb13, [0x544; 0x546]); (0xfb14, [0x544; 0x535]);
    (0xfb15, [0x544; 0x53b]); (0xfb16, [0x54e; 0x546]);
    (0xfb17, [0x544; 0x53d]); (0xff41, [0xff21]); (0xff42, [0xff22]);
    (0xff43, [0xff23]); (0xff44, [0xff24]); (0xff45, [0xff25]);
    (0xff46, [0xff26]); (0xff47, [0xff27]); (0xff48, [0xff28]);
    (0xff49, [0xff29]); (0xff4a, [0xff2a]); (0xff4b, [0xff2b]);
    (0xff4c, [0xff2c]); (0xff4d, [0xff2d]); (0xff4e, [0xff2e]);
    (0xff4f, [0xff2f]); (0xff50, [0xff30]); (0xff51, [0xff31]);
    (0xff52, [0xff32]); (0xff53, [0xff33]); (0xff54, [0xff34]);
    (0xff55, [0xff35]); (0xff56, [0xff36]); (0xff57, [0xff37]);
    (0xff58, [0xff38]); (0xff59, [0xff39]); (0xff5a, [0xff3a]);
    (0x10428, [0x10400]); (0x10429, [0x10401]); (0x1042a, [0x10402]);
    (0x1042b, [0x10403]); (0x1042c, [0x10404]); (0x1042d, [0x10405]);
    (0x1042e, [0x10406]); (0x1042f, [0x10407]); (0x10430, [0x10408]);
    (0x10431, [0x10409]); (0x10432, [0x1040a]); (0x10433, [0x1040b]);
    (0x10434, [0x1040c]); (0x10435, [0x1040d]); (0x10436, [0x1040e]);
    (0x10437, [0x1040f]); (0x10438, [0x10410]); (0x10439, [0x10411]);
    (0x1043a, [0x10412]); (0x1043b, [0x10413]); (0x1043c, [0x10414]);
    (0x1043d, [0x10415]); (0x1043e, [0x10416]); (0x1043f, [0x10417]);
    (0x10440, [0x10418]); (0x10441, [0x10419]); (0x10442, [0x1041a]);
    (0x10443, [0x1041b]); (0x10444, [0x1041c]); (0x10445, [0x1041d]);
    (0x10446, [0x1041e]); (0x10447, [0x1041f]); (0x10448, [0x10420]);
    (0x10449, [0x10421]); (0x1044a, [0x10422]); (0x1044b, [0x10423]);
    (0x1044c, [0x10424]); (0x1044d, [0x10425]); (0x1044e, [0x10426]);
    (0x1044f, [0x10427]); (0x104d8, [0x104b0]); (0x104d9, [0x104b1]);
    (0x104da, [0x104b2]); (0x104db, [0x104b3]); (0x104dc, [0x104b4]);
    (0x104dd, [0x104b5]); (0x104de, [0x104b6]); (0x104df, [0x104b7]);
    (0x104e0, [0x104b8]); (0x104e1, [0x104b9]); (0x104e2, [0x104ba]);
    (0x104e3, [0x104bb]); (0x104e4, [0x104bc]); (0x104e5, [0x104bd]);
    (0x104e6, [0x104be]); (0x104e7, [0x104bf]); (0x104e8, [0x104c0]);
    (0x104e9, [0x104c1]); (0x104ea, [0x104c2]); (0x104eb, [0x104c3]);
    (0x104ec, [0x104c4]); (0x104ed, [0x104c5]); (0x104ee, [0x104c6]);
    (0x104ef, [0x104c7]); (0x104f0, [0x104c8]); (0x104f1, [0x104c9]);
    (0x104f2, [0x104ca]); (0x104f3, [0x104cb]); (0x104f4, [0x104cc]);
    (0x104f5, [0x104cd]); (0x104f6, [0x104ce]); (0x104f7, [0x104cf]);
    (0x104f8, [0x104d0]); (0x104f9, [0x104d1]); (0x104fa, [0x104d2]);
    (0x104fb, [0x104d3]); (0x10597, [0x10570]); (0x10598, [0x10571]);
    (0x10599, [0x10572]); (0x1059a, [0x10573]); (0x1059b, [0x10574]);
    (0x1059c, [0x10575]); (0x1059d, [0x10576]); (0x1059e, [0x10577]);
    (0x1059f, [0x10578]); (0x105a0, [0x10579]); (0x105a1, [0x1057a]);
    (0x105a3, [0x1057c]); (0x105a4, [0x1057d]); (0x105a5, [0x1057e]);
    (0x105a6, [0x1057f]); (0x105a7, [0x10580]); (0x105a8, [0x10581]);
    (0x105a9, [0x10582]); (0x105aa, [0x10583]); (0x105ab, [0x10584]);
    (0x105ac, [0x10585]); (0x105ad, [0x10586]); (0x105ae, [0x10587]);
    (0x105af, [0x10588]); (0x105b0, [0x10589]); (0x105b1, [0x1058a]);
    (0x105b3, [0x1058c]); (0x105b4, [0x1058d]); (0x105b5, [0x1058e]);
    (0x105b6, [0x1058f]); (0x105b7, [0x10590]); (0x105b8, [0x10591]);
    (0x105b9, [0x10592]); (0x105bb, [0x10594]); (0x105bc, [0x10595]);
    (0x10cc0, [0x10c80]); (0x10cc1, [0x10c81]); (0x10cc2, [0x10c82]);
    (0x10cc3, [0x10c83]); (0x10cc4, [0x10c84]); (0x10cc5, [0x10c85]);
    (0x10cc6, [0x10c86]); (0x10cc7, [0x10c87]); (0x10cc8, [0x10c88]);
    (0x10cc9, [0x10c89]); (0x10cca, [0x10c8a]); (0x10ccb, [0x10c8b]);
    (0x10ccc, [0x10c8c]); (0x10ccd, [0x10c8d]); (0x10cce, [0x10c8e]);
    (0x10ccf, [0x10c8f]); (0x10cd0, [0x10c90]); (0x10cd1, [0x10c91]);
    (0x10cd2, [0x10c92]); (0x10cd3, [0x10c93]); (0x10cd4, [0x10c94]);
    (0x10cd5, [0x10c95]); (0x10cd6, [0x10c96]); (0x10cd7, [0x10c97]);
    (0x10cd8, [0x10c98]); (0x10cd9, [0x10c99]); (0x10cda, [0x10c9a]);
    (0x10cdb, [0x10c9b]); (0x10cdc, [0x10c9c]); (0x10cdd, [0x10c9d]);
    (0x10cde, [0x10c9e]); (0x10cdf, [0x10c9f]); (0x10ce0, [0x10ca0]);
    (0x10ce1, [0x10ca1]); (0x10ce2, [0x10ca2]); (0x10ce3, [0x10ca3]);
    (0x10ce4, [0x10ca4]); (0x10ce5, [0x10ca5]); (0x10ce6, [0x10ca6]);
    (0x10ce7, [0x10ca7]); (0x10ce8, [0x10ca8]); (0x10ce9, [0x10ca9]);
    (0x10cea, [0x10caa]); (0x10ceb, [0x10cab]); (0x10cec, [0x10cac]);
    (0x10ced, [0x10cad]); (0x10cee, [0x10cae]); (0x10cef, [0x10caf]);
    (0x10cf0, [0x10cb0]); (0x10cf1, [0x10cb1]); (0x10cf2, [0x10cb2]);
    (0x118c0, [0x118a0]); (0x118c1, [0x118a1]); (0x118c2, [0x118a2]);
    (0x118c3, [0x118a3]); (0x118c4, [0x118a4]); (0x118c5, [0x118a5]);
    (0x118c6, [0x118a6]); (0x118c7, [0x118a7]); (0x118c8, [0x118a8]);
    (0x118c9, [0x118a9]); (0x118ca, [0x118aa]); (0x118cb, [0x118ab]);
    (0x118cc, [0x118ac]); (0x118cd, [0x118ad]); (0x118ce, [0x118ae]);
    (0x118cf, [0x118af]); (0x118d0, [0x118b0]); (0x118d1, [0x118b1]);
    (0x118d2, [0x118b2]); (0x118d3, [0x118b3]); (0x118d4, [0x118b4]);
    (0x118d5, [0x118b5]); (0x118d6, [0x118b6]); (0x118d7, [0x118b7]);
    (0x118d8, [0x118b8]); (0x118d9, [0x118b9]); (0x118da, [0x118ba]);
    (0x118db, [0x118bb]); (0x118dc, [0x118bc]); (0x118dd, [0x118bd]);
    (0x118de, [0x118be]); (0x118df, [0x118bf]); (0x16e60, [0x16e40]);
    (0x16e61, [0x16e41]); (0x16e62, [0x16e42]); (0x16e63, [0x16e43]);
    (0x16e64, [0x16e44]); (0x16e65, [0x16e45]); (0x16e66, [0x16e46]);
    (0x16e67, [0x16e47]); (0x16e68, [0x16e48]); (0x16e69, [0x16e49]);
    (0x16e6a, [0x16e4a]); (0x16e6b, [0x16e4b]); (0x16e6c, [0x16e4c]);
    (0x16e6d, [0x16e4d]); (0x16e6e, [0x16e4e]); (0x16e6f, [0x16e4f]);
    (0x16e70, [0x16e50]); (0x16e71, [0x16e51]); (0x16e72, [0x16e52]);
    (0x16e73, [0x16e53]); (0x16e74, [0x16e54]); (0x16e75, [0x16e55]);
    (0x16e76, [0x16e56]); (0x16e77, [0x16e57]); (0x16e78, [0x16e58]);
    (0x16e79, [0x16e59]); (0x16e7a, [0x16e5a]); (0x16e7b, [0x16e5b]);
    (0x16e7c, [0x16e5c]); (0x16e7d, [0x16e5d]); (0x16e7e, [0x16e5e]);
    (0x16e7f, [0x16e5f]); (0x1e922, [0x1e900]); (0x1e923, [0x1e901]);
    (0x1e924, [0x1e902]); (0x1e925, [0x1e903]); (0x1e926, [0x1e904]);
    (0x1e927, [0x1e905]); (0x1e928, [0x1e906]); (0x1e929, [0x1e907]);
    (0x1e92a, [0x1e908]); (0x1e92b, [0x1e909]); (0x1e92c, [0x1e90a]);
    (0x1e92d, [0x1e90b]); (0x1e92e, [0x1e90c]); (0x1e92f, [0x1e90d]);
    (0x1e930, [0x1e90e]); (0x1e931, [0x1e90f]); (0x1e932, [0x1e910]);
    (0x1e933, [0x1e911]); (0x1e934, [0x1e912]); (0x1e935, [0x1e913]);
    (0x1e936, [0x1e914]); (0x1e937, [0x1e915]); (0x1e938, [0x1e916]);
    (0x1e939, [0x1e917]); (0x1e93a, [0x1e918]); (0x1e93b, [0x1e919]);
    (0x1e93c, [0x1e91a]); (0x1e93d, [0x1e91b]); (0x1e93e, [0x1e91c]);
    (0x1e93f, [0x1e91d]); (0x1e940, [0x1e91e]); (0x1e941, [0x1e91f]);
    (0x1e942, [0x1e920]); (0x1e943, [0x1e921]) ].

Definition is_space (cp : Z) : bool := existsb (Z.eqb cp) SPACES.

(** the value of a decimal digit *)
Definition decimal (cp : Z) : option Z :=
  match find (fun z => (z <=? cp) && (cp <? z + 10)) ZEROS with
  | Some z => Some (cp - z)
  | None => None
  end.

(** [None]: the character is its own upper-case form *)
Definition upper (cp : Z) : option (list Z) :=
  match find (fun e => fst e =? cp) UPPER with
  | Some e => Some (snd e)
  | None => None
  end.

End Unicode.

(** ** Strings *)

Module Str.

Definition byte (c : ascii) : Z := Z.of_nat (nat_of_ascii c).

Definition chr (n : Z) : ascii := ascii_of_nat (Z.to_nat n).

(** a continuation byte of UTF-8: 10xxxxxx *)
Definition is_cont (c : ascii) : bool := (128 <=? byte c) && (byte c <? 192).

(** the number of continuation bytes the first byte of a character
    announces *)
Definition follow (c : ascii) : nat :=
  let n := byte c in
  if n <? 192 then 0 else if n <? 224 then 1 else if n <? 240 then 2
  else if n <? 248 then 3 else 0.

(** The characters of a string, each as the string of its bytes.  A byte
    that does not begin a complete character (no text has one) counts as
    a character of its own. *)
Fixpoint chars (s : string) : list string :=
  match s with
  | EmptyString => []
  | String a r =>
      match follow a, r with
      | 1%nat, String b r1 =>
          if is_cont b then String a (String b EmptyString) :: chars r1
          else String a EmptyString :: chars r
      | 2%nat, String b (String c r2) =>
          if is_cont b && is_cont c
          then String a (String b (String c EmptyString)) :: chars r2
          else String a EmptyString :: chars r
      | 3%nat, String b (String c (String d r3)) =>
          if is_cont b && is_cont c && is_cont d
          then String a (String b (String c (String d EmptyString))) :: chars r3
          else String a EmptyString :: chars r
      | _, _ => String a EmptyString :: chars r
      end
  end.

(** the code point of one character; [None] for bytes that are not the
    UTF-8 form of a code point *)
Definition code_point (c : string) : option Z :=
  match c with
  | String a EmptyString => if byte a <? 128 then Some (byte a) else None
  | String a (String b EmptyString) =>
      let n := (byte a - 192) * 64 + (byte b - 128) in
      if (follow a =? 1)%nat && is_cont b && (128 <=? n) then Some n else None
  | String a (String b (String c EmptyString)) =>
      let n := ((byte a - 224) * 64 + (byte b - 128)) * 64 + (byte c - 128) in
      if (follow a =? 2)%nat && is_cont b && is_cont c && (2048 <=? n)
      then Some n else None
  | String a (String b (String c (String d EmptyString))) =>
      let n := (((byte a - 240) * 64 + (byte b - 128)) * 64 + (byte c - 128)) * 64
               + (byte d - 128) in
      if (follow a =? 3)%nat && is_cont b && is_cont c && is_cont d
         && (65536 <=? n) && (n <=? 1114111)
      then Some n else None
  | _ => None
  end.

(** the bytes of a code point *)
Definition encode (cp : Z) : string :=
  if cp <? 128 then String (chr cp) EmptyString
  else if cp <? 2048 then
    String (chr (192 + cp / 64)) (String (chr (128 + cp mod 64)) EmptyString)
  else if cp <? 65536 then
    String (chr (224 + cp / 4096))
      (String (chr (128 + (cp / 64) mod 64)) (String (chr (128 + cp mod 64)) EmptyString))
  else
    String (chr (240 + cp / 262144))
      (String (chr (128 + (cp / 4096) mod 64))
         (String (chr (128 + (cp / 64) mod 64))
            (String (chr (128 + cp mod 64)) EmptyString))).

Definition is_upper (c : ascii) : bool :=
  let n := nat_of_ascii c in ((65 <=? n) && (n <=? 90))%nat.

Definition is_lower (c : ascii) : bool :=
  let n := nat_of_ascii c in ((97 <=? n) && (n <=? 122))%nat.

Definition lower_char (c : ascii) : ascii :=
  if is_upper c then ascii_of_nat (nat_of_ascii c + 32) else c.

Definition upper_char (c : ascii) : ascii :=
  if is_lower c then ascii_of_nat (nat_of_ascii c - 32) else c.

Fixpoint map (f : ascii -> ascii) (s : string) : string :=
  match s with
  | EmptyString => EmptyString
  | String c r => String (f c) (map f r)
  end.

(** [s.lower()], as far as the code can tell.  The code only compares a
    lowered text with ASCII text ([startswith("parlamentar")], the header
    name "retry-after"), so the letters A to Z are the ones that matter:
    a character outside ASCII stays outside ASCII when lowered, except
    U+0130 and U+212A, whose lower-case forms begin with i and k, letters
    that neither of the two texts holds.  The bytes of such characters
    are left as they are. *)
Definition lower : string -> string := map lower_char.

(** the upper-case form of one character *)
Definition upper_one (c : string) : string :=
  match c with
  | String a EmptyString => String (upper_char a) EmptyString
  | _ =>
      match code_point c with
      | Some cp =>
          match Unicode.upper cp with
          | Some us => String.concat EmptyString (List.map encode us)
          | None => c
          end
      | None => c
      end
  end.

(** [s.upper()]: character by character *)
Definition upper (s : string) : string :=
  String.concat EmptyString (List.map upper_one (chars s)).

(** [s.startswith(p)] *)
Fixpoint startswith (s p : string) {struct p} : bool :=
  match p, s with
  | EmptyString, _ => true
  | String _ _, EmptyString => false
  | String a p', String b s' => Ascii.eqb a b && startswith s' p'
  end.

Definition is_empty (s : string) : bool :=
  match s with EmptyString => true | _ => false end.

(** [str(n)] for an integer, as an f-string interpolates it *)
Definition of_Z (n : Z) : string := NilZero.string_of_int (Z.to_int n).

(** the ASCII white space: tab, line feed, vertical tab, form feed,
    carriage return, blank *)
Definition is_space (c : ascii) : bool :=
  let n := nat_of_ascii c in (((9 <=? n) && (n <=? 13)) || (n =? 32))%nat.

Definition is_digit (c : ascii) : bool :=
  let n := nat_of_ascii c in ((48 <=? n) && (n <=? 57))%nat.

Definition digit_val (c : ascii) : Z := Z.of_nat (nat_of_ascii c - 48).

(** What [int()] reads in place of a character: an ASCII character is
    read as it is; outside ASCII a white space is read as a blank and a
    decimal digit as the ASCII digit of its value; nothing else is read
    ([None]). *)
Definition int_char (c : string) : option ascii :=
  match c with
  | String a EmptyString => if byte a <? 128 then Some a else None
  | _ =>
      match code_point c with
      | Some cp =>
          if Unicode.is_space cp then Some " "%char
          else match Unicode.decimal cp with
               | Some d => Some (chr (48 + d))
               | None => None
               end
      | None => None
      end
  end.

Fixpoint int_text (cs : list string) : option string :=
  match cs with
  | [] => Some EmptyString
  | c :: r =>
      match int_char c, int_text r with
      | Some a, Some t => Some (String a t)
      | _, _ => None
      end
  end.

Fixpoint lstrip (s : string) : string :=
  match s with
  | String c r => if is_space c then lstrip r else s
  | EmptyString => EmptyString
  end.

Fixpoint rstrip (s : string) : string :=
  match s with
  | EmptyString => EmptyString
  | String c r =>
      match rstrip r with
      | EmptyString => if is_space c then EmptyString else String c EmptyString
      | r' => String c r'
      end
  end.

Definition strip (s : string) : string := rstrip (lstrip s).

(** digits of a base-10 literal: groups of digits, single underscores
    allowed between two digits only *)
Fixpoint digits (s : string) (acc : Z) (after_digit : bool) : option Z :=
  match s with
  | EmptyString => if after_digit then Some acc else None
  | String c r =>
      if is_digit c then digits r (10 * acc + digit_val c) true
      else if Ascii.eqb c "_" && after_digit then digits r acc false
      else None
  end.

Fixpoint count_digits (s : string) : Z :=
  match s with
  | EmptyString => 0
  | String c r => (if is_digit c then 1 else 0) + count_digits r
  end.

(** the longest literal [int()] converts (the interpreter's default,
    [sys.get_int_max_str_digits()]) *)
Definition INT_MAX_STR_DIGITS : Z := 4300.

(** [int(s)] on a string: [None] stands for [ValueError].  White space
    around the literal is dropped, a sign may precede the digits, and a
    literal of more than [INT_MAX_STR_DIGITS] digits is refused. *)
Definition to_int (s : string) : option Z :=
  match int_text (chars s) with
  | None => None
  | Some t =>
      let lit := strip t in
      if INT_MAX_STR_DIGITS <? count_digits lit then None
      else
        match lit with
        | String "-" r => option_map Z.opp (digits r 0 false)
        | String "+" r => digits r 0 false
        | _ => digits lit 0 false
        end
  end.

End Str.

(** ** Values and exceptions *)

Set Warnings "-register-all".

Inductive json : Type :=
| JNull
| JBool (b : bool)
| JInt (n : Z)
| JStr (s : string)
| JArr (items : list json)
| JObj (fields : list (string * json)).

Inductive exn : Type :=
| HTTPError
| ConnectionError
| Timeout
| JSONDecodeError
| ValueError
| OverflowError
| OSError
| TypeError
| AttributeError
| KeyError
| UnboundLocalError.

Inductive res (A : Type) : Type :=
| Ok (a : A)
| Raise (e : exn).
Arguments Ok {A} a.
Arguments Raise {A} e.

Definition res_bind {A B} (r : res A) (k : A -> res B) : res B :=
  match r with
  | Ok a => k a
  | Raise e => Raise e
  end.

Module Py.

(** truth value of an object, as [if x], [not x] and [x or y] test it *)
Definition truthy (v : json) : bool :=
  match v with
  | JNull => false
  | JBool b => b
  | JInt n => negb (n =? 0)
  | JStr s => negb (Str.is_empty s)
  | JArr l => match l with [] => false | _ => true end
  | JObj o => match o with [] => false | _ => true end
  end.

(** [x or y] *)
Definition or_ (x y : json) : json := if truthy x then x else y.

(** a dict read through its keys; the first binding of a key is the
    dict's entry *)
Fixpoint lookup (k : string) (o : list (string * json)) : option json :=
  match o with
  | [] => None
  | (k', v) :: r => if String.eqb k k' then Some v else lookup k r
  end.

(** [d.get(k, default)]: only dicts have the method *)
Definition get (d : json) (k : string) (default : json) : res json :=
  match d with
  | JObj o => Ok (match lookup k o with Some v => v | None => default end)
  | _ => Raise AttributeError
  end.

(** [d[k]] with a string key *)
Definition getitem (d : json) (k : string) : res json :=
  match d with
  | JObj o => match lookup k o with Some v => Ok v | None => Raise KeyError end
  | _ => Raise TypeError
  end.

(** the items a [for] loop or [list.extend] draws from an object: the
    entries of a list, the characters of a string, the keys of a dict *)
Definition iter (v : json) : res (list json) :=
  match v with
  | JArr l => Ok l
  | JStr s => Ok (List.map JStr (Str.chars s))
  | JObj o => Ok (List.map (fun kv => JStr (fst kv)) o)
  | _ => Raise TypeError
  end.

Definition hashable (v : json) : bool :=
  match v with
  | JArr _ | JObj _ => false
  | _ => true
  end.

(** [s.lower()] / [s.upper()] exist on strings only *)
Definition lower (v : json) : res string :=
  match v with
  | JStr s => Ok (Str.lower s)
  | _ => Raise AttributeError
  end.

Definition upper (v : json) : res string :=
  match v with
  | JStr s => Ok (Str.upper s)
  | _ => Raise AttributeError
  end.

(** [int(v)] *)
Definition int (v : json) : res Z :=
  match v with
  | JInt n => Ok n
  | JBool b => Ok (if b then 1 else 0)
  | JStr s => match Str.to_int s with Some n => Ok n | None => Raise ValueError end
  | _ => Raise TypeError
  end.

End Py.

(** ** The world: connection pool, remote API, clock *)

(** what [SESSION.get(url, params=..., timeout=...)] is called with *)
Record request : Type := mk_request {
  req_url : string;
  req_params : option (list (string * json));
  req_timeout : Z
}.

(** what the code reads of a [requests.Response]; [body = None] is a
    payload that [resp.json()] cannot decode *)
Record response : Type := mk_response {
  status_code : Z;
  headers : list (string * string);
  body : option json
}.

(** [SESSION.get] hands back the response left after the pool's own
    retries, or raises *)
Inductive outcome : Type :=
| Response (r : response)
| Raises (e : exn).

Inductive warning : Type :=
| WarnStatus (status : Z) (url : string)
    (* "Servidor retornou <status> para <url>. Vou tentar prosseguir ..." *)
| WarnFalha (url : string) (e : exn).
    (* "Falha ao acessar <url>: <e>" *)

(** the effects of the data layer, in the order they happen *)
Inductive event : Type :=
| EvGet (rq : request)
| EvSleep (millis : Z)
| EvWarning (w : warning).

Record world : Type := mk_world {
  (** answer of the pool to a request, given all that happened before *)
  server : list event -> request -> outcome;
  (** seconds read by the cache's timer, given all that happened before *)
  clock : list event -> Z;
  (** whether the platform's sleep turns down a pause of so many
      seconds, given all that happened before *)
  sleep_refused : list event -> Z -> bool
}.

(** ** State and monad *)

(** a [st.cache_data] table: for an argument, the time of the write and
    what was stored *)
Definition memo (V : Type) : Type := list (Z * (Z * V)).

(** what happened so far and the tables of the two resolvers; a table
    stores of a call its value and the warnings it showed *)
Record state : Type := mk_state {
  trace : list event;
  memo_autores : memo (json * list warning);
  memo_partido : memo (string * list warning)
}.

Definition M (A : Type) : Type := state -> res A * state.

Definition ret {A} (a : A) : M A := fun st => (Ok a, st).

Definition bind {A B} (c : M A) (k : A -> M B) : M B :=
  fun st =>
    match c st with
    | (Ok a, st') => k a st'
    | (Raise e, st') => (Raise e, st')
    end.

Definition lift {A} (r : res A) : M A := fun st => (r, st).

Notation "x <- c ;; k" := (bind c (fun x => k))
  (at level 61, c at next level, right associativity).
Notation "c ;;; k" := (bind c (fun _ => k))
  (at level 61, right associativity).

Definition emit (e : event) : M unit :=
  fun st => (Ok tt, mk_state (trace st ++ [e]) (memo_autores st) (memo_partido st)).

(** [st.warning(...)] *)
Definition st_warning (w : warning) : M unit := emit (EvWarning w).

Definition gets (t : list event) : list request :=
  flat_map (fun e => match e with EvGet rq => [rq] | _ => [] end) t.

Definition sleeps (t : list event) : list Z :=
  flat_map (fun e => match e with EvSleep ms => [ms] | _ => [] end) t.

Definition warnings (t : list event) : list warning :=
  flat_map (fun e => match e with EvWarning x => [x] | _ => [] end) t.

(** [st] after the further events [t] *)
Definition logged (st : state) (t : list event) : state :=
  mk_state (trace st ++ t) (memo_autores st) (memo_partido st).

(** the events [st1] holds beyond those of [st] *)
Definition since (st st1 : state) : list event :=
  skipn (List.length (trace st)) (trace st1).

(** largest whole number of seconds [time.sleep] converts to its
    nanosecond clock (2^63 - 1 nanoseconds) *)
Definition SLEEP_MAX : Z := 9223372036.

(** [time.sleep(n)] with an integer.  A negative length is a
    [ValueError], one beyond the clock's range an [OverflowError]; a
    length within the range is handed to the platform, which sleeps or
    turns it down ([OSError]: Invalid argument, as Linux does for the
    largest ones). *)
Definition time_sleep (w : world) (n : Z) : M unit :=
  fun st =>
    if n <? 0 then (Raise (if n <? - SLEEP_MAX then OverflowError else ValueError), st)
    else if SLEEP_MAX <? n then (Raise OverflowError, st)
    else if sleep_refused w (trace st) n then (Raise OSError, st)
    else emit (EvSleep (1000 * n)) st.

(** [time.sleep(0.15)], [time.sleep(0.4)]: fixed pauses, in milliseconds *)
Definition time_sleep_ms (ms : Z) : M unit := emit (EvSleep ms).

(** [SESSION.get(url, params=params, timeout=timeout)] *)
Definition SESSION_get (w : world) (rq : request) : state -> outcome * state :=
  fun st =>
    (server w (trace st) rq,
     mk_state (trace st ++ [EvGet rq]) (memo_autores st) (memo_partido st)).

Definition BASE : string := "https://dadosabertos.camara.leg.br/api/v2".

(** ** safe_get *)

(** header names of a response compare without case *)
Fixpoint headers_get (h : list (string * string)) (name default : string) : string :=
  match h with
  | [] => default
  | (k, v) :: r =>
      if String.eqb (Str.lower k) (Str.lower name) then v else headers_get r name default
  end.

(** [resp.raise_for_status()] *)
Definition raise_for_status (r : response) : res unit :=
  if (400 <=? status_code r) && (status_code r <? 600) then Raise HTTPError else Ok tt.

(** [resp.json()] *)
Definition resp_json (r : response) : res json :=
  match body r with
  | Some j => Ok j
  | None => Raise JSONDecodeError
  end.

(** The two [except] clauses.  [resp] is the local variable as it stands
    when the exception arrives: [None] when it was never assigned. *)
Definition safe_get_except (url : string) (resp : option response) (e : exn) : M json :=
  match e with
  | HTTPError =>
      match resp with
      | Some r => st_warning (WarnStatus (status_code r) url) ;;; ret JNull
      | None => lift (Raise UnboundLocalError)
      end
  | _ => st_warning (WarnFalha url e) ;;; ret JNull
  end.

(** lines 41-42, for the response [resp] is bound to *)
Definition safe_get_finish (url : string) (r : response) : M json :=
  fun st =>
    match res_bind (raise_for_status r) (fun _ => resp_json r) with
    | Ok j => (Ok j, st)
    | Raise e => safe_get_except url (Some r) e st
    end.

Definition safe_get (w : world) (url : string)
    (params : option (list (string * json))) : M json :=
  fun st0 =>
    let rq := mk_request url params 30 in
    match SESSION_get w rq st0 with
    | (Raises e, st1) => safe_get_except url None e st1
    | (Response r1, st1) =>
        if status_code r1 =? 429 then
          match Str.to_int (headers_get (headers r1) "Retry-After" "2") with
          | None => safe_get_except url (Some r1) ValueError st1
          | Some wait =>
              match time_sleep w wait st1 with
              | (Raise e, st2) => safe_get_except url (Some r1) e st2
              | (Ok _, st2) =>
                  match SESSION_get w rq st2 with
                  | (Raises e, st3) => safe_get_except url (Some r1) e st3
                  | (Response r2, st3) => safe_get_finish url r2 st3
                  end
              end
          end
        else safe_get_finish url r1 st1
    end.

(** ** buscar_pls_periodo *)

(** the [params] dict of one listing request *)
Definition params_pagina (ano pagina : Z) : list (string * json) :=
  [ ("siglaTipo", JStr "PL");
    ("dataApresentacaoInicio", JStr (Str.of_Z ano ++ "-01-01"));
    ("dataApresentacaoFim", JStr (Str.of_Z ano ++ "-12-31"));
    ("itens", JInt 100);
    ("pagina", JInt pagina) ].

Definition url_proposicoes : string := BASE ++ "/proposicoes".

(** [{l["rel"]: l["href"] for l in ...}]: the entries in the order they
    are written; a key must be hashable *)
Fixpoint links_dict (ls : list json) : res (list (json * json)) :=
  match ls with
  | [] => Ok []
  | l :: r =>
      res_bind (Py.getitem l "rel") (fun k =>
      res_bind (Py.getitem l "href") (fun v =>
      if Py.hashable k then res_bind (links_dict r) (fun d => Ok ((k, v) :: d))
      else Raise TypeError))
  end.

(** ["next" in links] *)
Definition has_next (links : list (json * json)) : bool :=
  existsb (fun kv => match fst kv with JStr s => String.eqb s "next" | _ => false end) links.

(** lines 74-79 for a page [js] that passed [if not js]: the records the
    page adds to [todos], and whether the loop goes on to the next page *)
Definition pagina_lida (js : json) : res (list json * bool) :=
  res_bind (Py.get js "dados" (JArr [])) (fun dados =>
  res_bind (Py.iter dados) (fun itens =>
  res_bind (Py.get js "links" (JArr [])) (fun ls =>
  res_bind (Py.iter ls) (fun ls' =>
  res_bind (links_dict ls') (fun links =>
  Ok (itens, has_next links && (0 <? Z.of_nat (List.length itens))))))))%bool.

(** the [while True] loop of one year; [None]: the loop is still running
    when the fuel is spent *)
Fixpoint paginas (fuel : nat) (w : world) (ano pagina : Z) (todos : list json)
    (st : state) : option (res (list json) * state) :=
  match fuel with
  | O => None
  | S fuel' =>
      match safe_get w url_proposicoes (Some (params_pagina ano pagina)) st with
      | (Raise e, st1) => Some (Raise e, st1)
      | (Ok js, st1) =>
          if negb (Py.truthy js) then Some (Ok todos, st1)
          else
            match pagina_lida js with
            | Raise e => Some (Raise e, st1)
            | Ok (dados, true) =>
                paginas fuel' w ano (pagina + 1) (todos ++ dados)%list
                        (snd (time_sleep_ms 150 st1))
            | Ok (dados, false) => Some (Ok (todos ++ dados)%list, st1)
            end
      end
  end.

(** [range(a, b)] *)
Definition py_range (a b : Z) : list Z :=
  List.map (fun k => a + Z.of_nat k) (seq 0 (Z.to_nat (b - a))).

(** the [for ano in ...] loop; every year starts at page 1 *)
Fixpoint anos (fuel : nat) (w : world) (ys : list Z) (todos : list json)
    (st : state) : option (res (list json) * state) :=
  match ys with
  | [] => Some (Ok todos, st)
  | ano :: ys' =>
      match paginas fuel w ano 1 todos st with
      | None => None
      | Some (Raise e, st1) => Some (Raise e, st1)
      | Some (Ok todos1, st1) => anos fuel w ys' todos1 st1
      end
  end.

(** The collection loop (lines 58-83); the result is [todos], the records
    the data frame is built from.  The frame itself and its date columns
    (lines 85-91) are pandas objects and are not modelled. *)
Definition buscar_pls_periodo (fuel : nat) (w : world) (ano_ini ano_fim : Z)
    : state -> option (res (list json) * state) :=
  anos fuel w (py_range ano_ini (ano_fim + 1)) [].

(** ** st.cache_data(ttl=3600)

    Each decorated function has a table from its argument to the value of
    an earlier call, the warnings that call showed and the time of that
    call.  An entry younger than [TTL] answers in place of the body: the
    stored value is returned and the stored warnings are shown again.  A
    call that raises stores nothing.  The tables of the two resolvers are
    part of [state].  The two outer functions, [buscar_pls_periodo] and
    [contagem_por_partido], are modelled by their bodies (one
    execution). *)

Definition TTL : Z := 3600.

Fixpoint memo_find {V} (k : Z) (m : memo V) : option (Z * V) :=
  match m with
  | [] => None
  | (k', e) :: r => if k =? k' then Some e else memo_find k r
  end.

(** an entry answers until [TTL] seconds after it was written *)
Definition memo_hit {V} (now : Z) (k : Z) (m : memo V) : option V :=
  match memo_find k m with
  | Some (stamp, v) => if now <? stamp + TTL then Some v else None
  | None => None
  end.

(** ** autores_por_proposicao *)

Definition url_autores (id_proposicao : Z) : string :=
  BASE ++ "/proposicoes/" ++ Str.of_Z id_proposicao ++ "/autores".

Definition autores_body (w : world) (id_proposicao : Z) : M json :=
  js <- safe_get w (url_autores id_proposicao) None ;;
  if negb (Py.truthy js) then ret (JArr [])
  else lift (Py.get js "dados" (JArr [])).

Definition autores_por_proposicao (w : world) (id_proposicao : Z) : M json :=
  fun st =>
    match memo_hit (clock w (trace st)) id_proposicao (memo_autores st) with
    | Some (v, ws) => (Ok v, logged st (List.map EvWarning ws))
    | None =>
        match autores_body w id_proposicao st with
        | (Ok v, st1) =>
            (Ok v, mk_state (trace st1)
                            ((id_proposicao,
                              (clock w (trace st1), (v, warnings (since st st1))))
                             :: memo_autores st1)
                            (memo_partido st1))
        | (Raise e, st1) => (Raise e, st1)
        end
    end.

(** ** partido_do_deputado *)

Definition url_deputado (id_deputado : Z) : string :=
  BASE ++ "/deputados/" ++ Str.of_Z id_deputado.

(** lines 109-113, on what [safe_get] handed back *)
Definition partido_de (js : json) : res string :=
  if negb (Py.truthy js) then Ok ""
  else
    res_bind (Py.get js "dados" (JObj [])) (fun d =>
    let dados := Py.or_ d (JObj []) in
    res_bind (Py.get dados "ultimoStatus" (JObj [])) (fun u =>
    let ultimo := Py.or_ u (JObj []) in
    res_bind (Py.get ultimo "siglaPartido" JNull) (fun s =>
    Py.upper (Py.or_ s (JStr ""))))).

Definition partido_body (w : world) (id_deputado : Z) : M string :=
  js <- safe_get w (url_deputado id_deputado) None ;;
  lift (partido_de js).

Definition partido_do_deputado (w : world) (id_deputado : Z) : M string :=
  fun st =>
    match memo_hit (clock w (trace st)) id_deputado (memo_partido st) with
    | Some (v, ws) => (Ok v, logged st (List.map EvWarning ws))
    | None =>
        match partido_body w id_deputado st with
        | (Ok v, st1) =>
            (Ok v, mk_state (trace st1) (memo_autores st1)
                            ((id_deputado,
                              (clock w (trace st1), (v, warnings (since st st1))))
                             :: memo_partido st1))
        | (Raise e, st1) => (Raise e, st1)
        end
    end.

(** ** contagem_por_partido *)

(** [(a.get("tipoAutor") or "").lower().startswith("parlamentar")] *)
Definition is_parlamentar (a : json) : res bool :=
  res_bind (Py.get a "tipoAutor" JNull) (fun t =>
  res_bind (Py.lower (Py.or_ t (JStr ""))) (fun s =>
  Ok (Str.startswith s "parlamentar"))).

(** [a.get("idDeputado") or (a.get("autor") or {}).get("id")]; the right
    operand is evaluated only when the left one is falsy *)
Definition id_deputado_de (a : json) : res json :=
  res_bind (Py.get a "idDeputado" JNull) (fun top =>
  if Py.truthy top then Ok top
  else
    res_bind (Py.get a "autor" JNull) (fun au =>
    Py.get (Py.or_ au (JObj [])) "id" JNull)).

(** body of the inner loop (lines 134-141) for one author [a] *)
Definition conta_autor (w : world) (a : json) (partidos : list string)
    : M (list string) :=
  par <- lift (is_parlamentar a) ;;
  if par then
    idep <- lift (id_deputado_de a) ;;
    if Py.truthy idep then
      n <- lift (Py.int idep) ;;
      p <- partido_do_deputado w n ;;
      if negb (Str.is_empty p) then ret (partidos ++ [p])%list else ret partidos
    else ret partidos
  else ret partidos.

Fixpoint conta_autores (w : world) (autores : list json) (partidos : list string)
    : M (list string) :=
  match autores with
  | [] => ret partidos
  | a :: r => ps <- conta_autor w a partidos ;; conta_autores w r ps
  end.

(** the [for i, pid in enumerate(ids, start=1)] loop, entered at index [i] *)
Fixpoint conta_pls (w : world) (i : Z) (ids : list Z) (partidos : list string)
    : M (list string) :=
  match ids with
  | [] => ret partidos
  | pid :: r =>
      (if i mod 25 =? 0 then time_sleep_ms 400 else ret tt) ;;;
      autores <- autores_por_proposicao w pid ;;
      itens <- lift (Py.iter autores) ;;
      ps <- conta_autores w itens partidos ;;
      conta_pls w (i + 1) r ps
  end.

(** The [id] column of the frame: one cell per bill, [None] for a missing
    value.  The column holds integers, as the API's identifiers are. *)
Definition coluna : Type := list (option Z).

(** [.dropna().astype(int).tolist()] *)
Fixpoint dropna (c : coluna) : list Z :=
  match c with
  | [] => []
  | Some n :: r => n :: dropna r
  | None :: r => dropna r
  end.

(** lines 123-125 *)
Definition amostra (ids : list Z) (usar_todos : bool) : list Z :=
  if negb usar_todos then firstn 800 ids else ids.

Fixpoint incr (p : string) (acc : list (string * Z)) : list (string * Z) :=
  match acc with
  | [] => [(p, 1)]
  | (q, n) :: r => if String.eqb p q then (q, n + 1) :: r else (q, n) :: incr p r
  end.

(** [s.value_counts()]: one row per distinct value *)
Definition value_counts (l : list string) : list (string * Z) :=
  fold_left (fun acc p => incr p acc) l [].

Fixpoint insert_desc (x : string * Z) (l : list (string * Z)) : list (string * Z) :=
  match l with
  | [] => [x]
  | y :: r => if snd y <=? snd x then x :: y :: r else y :: insert_desc x r
  end.

(** [sort_values("autores", ascending=False)]; rows with equal counts
    keep their order here (pandas leaves it to the sort kind) *)
Definition sort_values_desc (l : list (string * Z)) : list (string * Z) :=
  fold_right insert_desc [] l.

(** The result frame: its rows (partido, autores). *)
Definition contagem_por_partido (w : world) (df_id : coluna) (usar_todos : bool)
    : M (list (string * Z)) :=
  let ids := amostra (dropna df_id) usar_todos in
  partidos <- conta_pls w 1 ids [] ;;
  match partidos with
  | [] => ret []
  | _ => ret (sort_values_desc (value_counts partidos))
  end.

(** ** The aggregation in the words of the specification

    "For each bill identifier, in order: fetch its Author References; for
    each reference whose author-type classification starts with
    parliamentary, resolve a legislator identifier and, if present,
    resolve its party."  [referencias] lists the references for which a
    non-empty party code came back, one entry per bill-author pairing. *)

Record referencia : Type := mk_ref {
  ref_pl : Z;
  ref_autor : json;
  ref_partido : string
}.

Definition resolve (w : world) (pid : Z) (a : json) : M (option referencia) :=
  par <- lift (is_parlamentar a) ;;
  if par then
    idep <- lift (id_deputado_de a) ;;
    if Py.truthy idep then
      n <- lift (Py.int idep) ;;
      p <- partido_do_deputado w n ;;
      ret (if Str.is_empty p then None else Some (mk_ref pid a p))
    else ret None
  else ret None.

Fixpoint referencias_pl (w : world) (pid : Z) (autores : list json)
    : M (list referencia) :=
  match autores with
  | [] => ret []
  | a :: r =>
      o <- resolve w pid a ;;
      rs <- referencias_pl w pid r ;;
      ret (match o with Some x => x :: rs | None => rs end)
  end.

Fixpoint referencias (w : world) (i : Z) (ids : list Z) : M (list referencia) :=
  match ids with
  | [] => ret []
  | pid :: r =>
      (if i mod 25 =? 0 then time_sleep_ms 400 else ret tt) ;;;
      autores <- autores_por_proposicao w pid ;;
      itens <- lift (Py.iter autores) ;;
      here <- referencias_pl w pid itens ;;
      rest <- referencias w (i + 1) r ;;
      ret (here ++ rest)%list
  end.

(** * Observations and scripted worlds *)

(** the state of a fresh process: nothing happened, nothing cached *)
Definition st0 : state := mk_state [] [] [].

Definition ok_json (j : json) : outcome := Response (mk_response 200 [] (Some j)).

(** a server that answers by URL alone *)
Definition static_world (routes : list (string * outcome)) (fallback : outcome) : world :=
  mk_world
    (fun _ rq =>
       match find (fun r => String.eqb (fst r) (req_url rq)) routes with
       | Some r => snd r
       | None => fallback
       end)
    (fun _ => 0)
    (fun _ _ => false).

(** the seconds [safe_get] reads from a 429 response; [None] when
    [int()] raises *)
Definition retry_after (r : response) : option Z :=
  Str.to_int (headers_get (headers r) "Retry-After" "2").

(** worlds for the rate-limit scenarios *)
Definition HTTP_DATE : string := "Wed, 21 Oct 2015 07:28:00 GMT".

Definition resp_429 (retry : list (string * string)) : response :=
  mk_response 429 retry None.

(** every answer is a 429 carrying the given headers *)
Definition world_always_429 (hs : list (string * string)) : world :=
  mk_world (fun _ _ => Response (resp_429 hs)) (fun _ => 0) (fun _ _ => false).

(** the first answer is a 429 with the given headers, later ones a 200 *)
Definition world_429_then (hs : list (string * string)) (j : json) : world :=
  mk_world
    (fun h _ => match gets h with
                | [] => Response (resp_429 hs)
                | _ => ok_json j
                end)
    (fun _ => 0)
    (fun _ _ => false).

(** every answer is a 429 asking for a pause of [n] seconds, and the
    platform turns down pauses of more than 4611686018 seconds *)
Definition world_pausa_recusada (n : Z) : world :=
  mk_world (fun _ _ => Response (resp_429 [("Retry-After", Str.of_Z n)]))
           (fun _ => 0)
           (fun _ secs => 4611686018 <? secs).

(** the pool raises the given exception on every attempt *)
Definition world_raising (e : exn) : world :=
  mk_world (fun _ _ => Raises e) (fun _ => 0) (fun _ _ => false).

(** * Notions the statements use *)

(** ** Payload of /deputados/{id} *)

(** [d.get(k)] on a dict *)
Definition campo (o : list (string * json)) (k : string) : json :=
  match Py.lookup k o with
  | Some v => v
  | None => JNull
  end.

(** the key is missing or holds [null] *)
Definition ausente (o : list (string * json)) (k : string) : Prop :=
  Py.lookup k o = None \/ Py.lookup k o = Some JNull.

(** where the payload of /deputados/{id} holds the party code, level by
    level: dados, ultimoStatus, siglaPartido *)
Inductive sigla : json -> option string -> Prop :=
| sigla_sem_dados o :
    ausente o "dados" -> sigla (JObj o) None
| sigla_sem_status o d :
    Py.lookup "dados" o = Some (JObj d) ->
    ausente d "ultimoStatus" -> sigla (JObj o) None
| sigla_sem_sigla o d u :
    Py.lookup "dados" o = Some (JObj d) ->
    Py.lookup "ultimoStatus" d = Some (JObj u) ->
    ausente u "siglaPartido" -> sigla (JObj o) None
| sigla_presente o d u s :
    Py.lookup "dados" o = Some (JObj d) ->
    Py.lookup "ultimoStatus" d = Some (JObj u) ->
    Py.lookup "siglaPartido" u = Some (JStr s) -> sigla (JObj o) (Some s).

Definition partido_esperado (v : option string) : string :=
  match v with
  | Some s => Str.upper s
  | None => ""
  end.

Definition deputado_json (s : json) : json :=
  JObj [("dados", JObj [("id", JInt 55);
                        ("ultimoStatus", JObj [("siglaPartido", s)])])].

(** the end-to-end scenario: bill 101 has one parliamentary author,
    legislator 55, whose party reads "pt"; bill 102 has one author of
    another kind.  [nested] chooses where the payload carries the
    legislator's id. *)
Definition autor_55 (nested : bool) : json :=
  if nested
  then JObj [("tipoAutor", JStr "Parlamentar"); ("autor", JObj [("id", JInt 55)])]
  else JObj [("tipoAutor", JStr "Parlamentar"); ("idDeputado", JInt 55)].

Definition world_cenario (nested : bool) : world :=
  static_world
    [ (url_autores 101, ok_json (JObj [("dados", JArr [autor_55 nested])]));
      (url_autores 102,
       ok_json (JObj [("dados", JArr [JObj [("tipoAutor", JStr "Orgao do Poder Executivo");
                                            ("idDeputado", JInt 77)]])]));
      (url_deputado 55, ok_json (deputado_json (JStr "pt"))) ]
    (Response (mk_response 404 [] None)).

(** ** The result frame *)

(** sum of the counts column *)
Definition total (c : list (string * Z)) : Z :=
  fold_right (fun kv s => snd kv + s) 0 c.

(** the count the frame shows for party [p] (0 when it has no row) *)
Definition autores_de (p : string) (c : list (string * Z)) : Z :=
  fold_right (fun kv s => if String.eqb p (fst kv) then snd kv + s else s) 0 c.

(** number of entries of [l] equal to [p] *)
Definition ocorrencias (p : string) (l : list string) : Z :=
  Z.of_nat (count_occ string_dec l p).

(** the rows built from a tally list *)
Definition linhas (partidos : list string) : list (string * Z) :=
  match partidos with
  | [] => []
  | _ => sort_values_desc (value_counts partidos)
  end.

(** ** The tally against the resolved references *)

Definition partido_opt (o : option referencia) : list string :=
  match o with
  | Some x => [ref_partido x]
  | None => []
  end.

(** both runs end alike: the tally is [ps] followed by the parties of the
    listed references, or both raise the same exception; the states
    agree *)
Definition mesma_contagem {R} (proj : R -> list string) (ps : list string)
    (impl : res (list string) * state) (spec : res R * state) : Prop :=
  match impl, spec with
  | (Ok l, s1), (Ok r, s2) => l = (ps ++ proj r)%list /\ s1 = s2
  | (Raise e1, s1), (Raise e2, s2) => e1 = e2 /\ s1 = s2
  | _, _ => False
  end.

(** what [resolve] lists is a parliamentary reference of that bill with
    a non-empty party *)
Definition resolvida (r : referencia) : Prop :=
  is_parlamentar (ref_autor r) = Ok true /\ ref_partido r <> "".

(** every bill exists and has no author *)
Definition world_sem_autores : world :=
  static_world [] (ok_json (JObj [("dados", JArr [])])).

(** the column 1, 2, ..., n *)
Definition coluna_ate (n : Z) : coluna := map Some (py_range 1 (n + 1)).

(** ** Pages of the listing endpoint *)

(** a pagination link with relation [rel] *)
Definition link_rel (l : json) (rel : string) : Prop :=
  exists o href,
    l = JObj o /\ Py.lookup "rel" o = Some (JStr rel) /\ Py.lookup "href" o = Some href.

Definition links_ok (ls : list json) : Prop :=
  Forall (fun l => exists rel, link_rel l rel) ls.

(** the page carries a "next" link *)
Definition tem_next (ls : list json) : Prop :=
  Exists (fun l => link_rel l "next") ls.

(** a listing page with records [ds] and links [ls] (no "links" key reads
    as no link) *)
Definition pagina (js : json) (ds ls : list json) : Prop :=
  exists o,
    js = JObj o /\
    Py.lookup "dados" o = Some (JArr ds) /\
    (Py.lookup "links" o = Some (JArr ls) \/ (Py.lookup "links" o = None /\ ls = [])) /\
    links_ok ls.

(** a full page: records and a "next" link *)
Definition cheia (js : json) (ds : list json) : Prop :=
  exists ls, pagina js ds ls /\ tem_next ls /\ ds <> [].

(** a last page: no "next" link, or no record *)
Definition ultima (js : json) (ds : list json) : Prop :=
  exists ls, pagina js ds ls /\ (~ tem_next ls \/ ds = []).

Definition req_pagina (ano p : Z) : request :=
  mk_request url_proposicoes (Some (params_pagina ano p)) 30.

(** whenever page [p] of year [ano] is asked for, the API answers with
    payload [js] *)
Definition responde (w : world) (ano p : Z) (js : json) : Prop :=
  forall h, exists r,
    server w h (req_pagina ano p) = Response r /\ status_code r < 400 /\ body r = Some js.

(** the effects of reading pages [p], [p+1], ..., [p+n] of a year *)
Fixpoint trace_paginas (ano p : Z) (n : nat) : list event :=
  match n with
  | O => [EvGet (req_pagina ano p)]
  | S n' => EvGet (req_pagina ano p) :: EvSleep 150 :: trace_paginas ano (p + 1) n'
  end.

(** a simulated API for one year: the full pages 1..N, then a last one *)
Definition api_paginada (w : world) (ano : Z)
    (full : list (json * list json)) (last : json * list json) : Prop :=
  (forall k js ds,
      nth_error full k = Some (js, ds) ->
      cheia js ds /\ responde w ano (1 + Z.of_nat k) js) /\
  ultima (fst last) (snd last) /\
  responde w ano (1 + Z.of_nat (List.length full)) (fst last).

(** records and effects of the whole period, year by year *)
Definition registros_de (full : Z -> list (json * list json))
    (last : Z -> json * list json) (ys : list Z) : list json :=
  flat_map (fun y => List.concat (map snd (full y)) ++ snd (last y))%list ys.

Definition trace_de (full : Z -> list (json * list json)) (ys : list Z) : list event :=
  flat_map (fun y => trace_paginas y 1 (List.length (full y))) ys.

(** a scripted listing endpoint: payloads by year and page, 404 elsewhere *)
Definition link (rel : string) : json :=
  JObj [("rel", JStr rel); ("href", JStr (url_proposicoes ++ "?" ++ rel))].

Definition pagina_json (ds : list json) (rels : list string) : json :=
  JObj [("dados", JArr ds); ("links", JArr (map link rels))].

Definition world_paginado (routes : list (Z * Z * json)) : world :=
  mk_world
    (fun _ rq =>
       match req_params rq with
       | Some ps =>
           match campo ps "pagina", campo ps "dataApresentacaoInicio" with
           | JInt p, JStr ini =>
               match find (fun r => (snd (fst r) =? p) &&
                                    String.eqb (Str.of_Z (fst (fst r)) ++ "-01-01") ini)
                          routes with
               | Some r => ok_json (snd r)
               | None => Response (mk_response 404 [] None)
               end
           | _, _ => Response (mk_response 404 [] None)
           end
       | None => Response (mk_response 404 [] None)
       end)
    (fun _ => 0)
    (fun _ _ => false).

Definition pl (n : Z) : json := JObj [("id", JInt n); ("siglaTipo", JStr "PL")].

Definition rotas_exemplo : list (Z * Z * json) :=
  [ (2023, 1, pagina_json [pl 1; pl 2] ["self"; "next"; "last"]);
    (2023, 2, pagina_json [pl 3; pl 4] ["self"; "next"; "last"]);
    (2023, 3, pagina_json [pl 5] ["self"; "first"]);
    (2024, 1, pagina_json [pl 6] []) ].

Definition full_exemplo (y : Z) : list (json * list json) :=
  if y =? 2023
  then [ (pagina_json [pl 1; pl 2] ["self"; "next"; "last"], [pl 1; pl 2]);
         (pagina_json [pl 3; pl 4] ["self"; "next"; "last"], [pl 3; pl 4]) ]
  else [].

Definition last_exemplo (y : Z) : json * list json :=
  if y =? 2023
  then (pagina_json [pl 5] ["self"; "first"], [pl 5])
  else (pagina_json [pl 6] [], [pl 6]).

(** ** Requests to the authors endpoint *)

Definition is_url_autores (u : string) : bool :=
  Str.startswith u (BASE ++ "/proposicoes/").

(** the URLs under /proposicoes/ requested in [t], in order *)
Definition pedidos_autores (t : list event) : list string :=
  filter is_url_autores (map req_url (gets t)).

(** each bill's authors URL [k] times, [k] taken from [ks] *)
Definition pedidos_de (ids : list Z) (ks : list nat) : list string :=
  flat_map (fun pk => repeat (url_autores (fst pk)) (snd pk)) (combine ids ks).

(** no bill of [ids] has an entry in the authors cache *)
Definition sem_memo (ids : list Z) (st : state) : Prop :=
  forall pid, In pid ids -> memo_find pid (memo_autores st) = None.

(** what a step leaves behind: further events [t]; the authors cache is
    the one before, possibly with new entries for the bills [novos] *)
Definition passo (st st' : state) (t : list event) (novos : list Z) : Prop :=
  trace st' = (trace st ++ t)%list /\
  forall pid, ~ In pid novos ->
              memo_find pid (memo_autores st') = memo_find pid (memo_autores st).

(** ** Further scenarios *)

(** bills 1 and 2 share their author, legislator 55 *)
Definition world_mesmo_autor : world :=
  static_world
    [ (url_autores 1, ok_json (JObj [("dados", JArr [autor_55 false])]));
      (url_autores 2, ok_json (JObj [("dados", JArr [autor_55 true])]));
      (url_deputado 55, ok_json (deputado_json (JStr "pt"))) ]
    (Response (mk_response 404 [] None)).

(** the same API seen through a clock that jumps two hours per request *)
Definition world_relogio_rapido : world :=
  mk_world (server world_mesmo_autor)
           (fun h => 7200 * Z.of_nat (List.length (gets h)))
           (fun _ _ => false).

(** year 2023 breaks at its second page, year 2024 is served *)
Definition rotas_falha : list (Z * Z * json) :=
  [ (2023, 1, pagina_json [pl 1; pl 2] ["self"; "next"]);
    (2024, 1, pagina_json [pl 6] ["self"]) ].

(** ** Invariants of the party cache and of the tally *)

(** [p] is an upper-cased text: what [str.upper] made of some text *)
Definition maiusculo (p : string) : Prop := exists s, p = Str.upper s.

(** every party code the cache holds is an upper-cased text *)
Definition memo_maiusculo (st : state) : Prop :=
  Forall (fun e => maiusculo (fst (snd (snd e)))) (memo_partido st).

(** the pauses of 0.4 s in [t] *)
Definition pausas_400 (t : list event) : nat :=
  List.length (filter (fun ms => ms =? 400) (sleeps t)).

(** rows in descending order of their counts *)
Definition decrescente (c : list (string * Z)) : Prop :=
  StronglySorted (fun a b => snd b <= snd a) c.

(** lines 123-125 once the first identifier is set aside *)
Definition amostra_resto (usar_todos : bool) (ids : list Z) : list Z :=
  if negb usar_todos then firstn 799 ids else ids.

(** the trace grows by [t], which holds no pause of 0.4 s *)
Definition sem_pausa (st st' : state) : Prop :=
  exists t, trace st' = (trace st ++ t)%list /\ pausas_400 t = 0%nat.

(** The events of a count, bill by bill: [segs] holds the events of each
    bill, the first of which is the [i]-th of the loop; a pause of 0.4 s
    stands in front of the events of every bill whose position is
    divisible by 25, and nowhere else. *)
Fixpoint ritmo (i : Z) (segs : list (list event)) : list event :=
  match segs with
  | [] => []
  | s :: r => ((if i mod 25 =? 0 then [EvSleep 400] else []) ++ s ++ ritmo (i + 1) r)%list
  end.

(** the events of bill [pid], fetched from the API: they begin with the
    request for its authors, hold no pause of 0.4 s, and ask for the
    authors of no other bill *)
Definition eventos_pl (pid : Z) (s : list event) : Prop :=
  exists s',
    s = EvGet (mk_request (url_autores pid) None 30) :: s' /\
    pausas_400 s' = 0%nat /\
    Forall (fun u => u = url_autores pid) (pedidos_autores s').

(** the positions, counted from [i], of [n] bills at which the loop
    pauses: those divisible by 25 *)
Definition pausas_entre (i : Z) (n : nat) : list Z :=
  filter (fun k => k mod 25 =? 0) (py_range i (i + Z.of_nat n)).

(** bill 1 is signed by legislators 55 (pt) and 56 (psdb), bill 2 by 56 *)
Definition autor_id (n : Z) : json :=
  JObj [("tipoAutor", JStr "Parlamentar"); ("idDeputado", JInt n)].

Definition world_dois_partidos : world :=
  static_world
    [ (url_autores 1, ok_json (JObj [("dados", JArr [autor_id 55; autor_id 56])]));
      (url_autores 2, ok_json (JObj [("dados", JArr [autor_id 56])]));
      (url_deputado 55, ok_json (deputado_json (JStr "pt")));
      (url_deputado 56, ok_json (deputado_json (JStr "psdb"))) ]
    (Response (mk_response 404 [] None)).

(** * Properties *)

(** ** safe_get *)

Lemma logged_nil st : logged st [] = st.
Proof. destruct st; unfold logged; simpl. now rewrite app_nil_r. Qed.

Lemma logged_app st t u : logged (logged st t) u = logged st (t ++ u).
Proof. unfold logged; simpl. now rewrite app_assoc. Qed.

Ltac run :=
  repeat progress
    (simpl; cbv [bind ret lift emit st_warning time_sleep_ms logged safe_get_except]).

Ltac case_status r :=
  destruct (Z.eqb_spec (status_code r) 429); try lia.

(** a response outside the error range with a decodable payload is
    returned as it is, after one request *)
Lemma safe_get_ok w url params st r j :
  server w (trace st) (mk_request url params 30) = Response r ->
  status_code r < 400 ->
  body r = Some j ->
  safe_get w url params st = (Ok j, logged st [EvGet (mk_request url params 30)]).
Proof.
  intros Hs Hc Hb. unfold safe_get, SESSION_get. rewrite Hs.
  case_status r.
  unfold safe_get_finish, raise_for_status, resp_json.
  destruct (Z.leb_spec 400 (status_code r)); try lia.
  simpl. now rewrite Hb.
Qed.

(** an error status (other than a first 429) ends in the status warning
    and [None] *)
Lemma safe_get_error_status w url params st r :
  server w (trace st) (mk_request url params 30) = Response r ->
  400 <= status_code r < 600 ->
  status_code r <> 429 ->
  safe_get w url params st =
    (Ok JNull, logged st [EvGet (mk_request url params 30);
                          EvWarning (WarnStatus (status_code r) url)]).
Proof.
  intros Hs Hc Hn. unfold safe_get, SESSION_get. rewrite Hs.
  case_status r.
  unfold safe_get_finish, raise_for_status.
  destruct (Z.leb_spec 400 (status_code r)); try lia.
  destruct (Z.ltb_spec (status_code r) 600); try lia.
  run. now rewrite <- app_assoc.
Qed.

Lemma safe_get_except_bound url r e st :
  exists x, safe_get_except url (Some r) e st = (Ok JNull, logged st [EvWarning x]).
Proof.
  destruct e; simpl; eexists; reflexivity.
Qed.

Lemma safe_get_finish_returns url r st :
  exists j t, safe_get_finish url r st = (Ok j, logged st t) /\ gets t = [] /\ sleeps t = [].
Proof.
  unfold safe_get_finish.
  destruct (res_bind (raise_for_status r) (fun _ => resp_json r)) as [j|e].
  - exists j, []. now rewrite logged_nil.
  - destruct (safe_get_except_bound url r e st) as [x Hx].
    exists JNull, [EvWarning x]. now rewrite Hx.
Qed.

Ltac by_except :=
  match goal with
  | |- context [safe_get_except ?u (Some ?r) ?e ?s] =>
      let x := fresh "x" in let Hx := fresh "Hx" in
      destruct (safe_get_except_bound u r e s) as [x Hx]; rewrite Hx
  end.

Ltac by_finish :=
  match goal with
  | |- context [safe_get_finish ?u ?r ?s] =>
      let j := fresh "j" in let t := fresh "t" in let H := fresh "Hfin" in
      destruct (safe_get_finish_returns u r s) as (j & t & H & ? & ?); rewrite H
  end.

(** Unless the first attempt itself raises [HTTPError], [safe_get]
    returns: a payload or [None], never an exception. *)
Lemma safe_get_returns w url params st :
  server w (trace st) (mk_request url params 30) <> Raises HTTPError ->
  exists j st', safe_get w url params st = (Ok j, st').
Proof.
  intros Hne. unfold safe_get, SESSION_get.
  destruct (server w (trace st) _) as [r1|e] eqn:Hs.
  - destruct (status_code r1 =? 429).
    + destruct (Str.to_int _) as [wait|]; [|by_except; eauto].
      destruct (time_sleep w wait _) as [[[]|e] st2] eqn:Hsl; [|by_except; eauto].
      destruct (server w (trace st2) _) as [r2|e2].
      * by_finish; eauto.
      * by_except; eauto.
    + by_finish; eauto.
  - destruct e; try congruence; run; eauto.
Qed.

Lemma retry_after_absent r :
  (forall k v, In (k, v) (headers r) -> Str.lower k <> "retry-after") ->
  retry_after r = Some 2.
Proof.
  unfold retry_after. intros H.
  assert (E : headers_get (headers r) "Retry-After" "2" = "2").
  { induction (headers r) as [|[k v] h IH]; [reflexivity|]. simpl.
    change (Str.lower "Retry-After") with "retry-after".
    destruct (String.eqb_spec (Str.lower k) "retry-after") as [Heq|_].
    - exfalso. apply (H k v); [now left | exact Heq].
    - apply IH. intros k' v' Hin. apply (H k' v'). now right. }
  now rewrite E.
Qed.

(** a pause the clock can hold and the platform accepts is taken *)
Lemma time_sleep_ok w n st :
  0 <= n <= SLEEP_MAX ->
  sleep_refused w (trace st) n = false ->
  time_sleep w n st = (Ok tt, logged st [EvSleep (1000 * n)]).
Proof.
  intros [H0 H1] Hr. unfold time_sleep.
  destruct (Z.ltb_spec n 0); try lia.
  destruct (Z.ltb_spec SLEEP_MAX n); try lia. now rewrite Hr.
Qed.

(** [time.sleep] either raises at once or adds the pause, nothing else *)
Lemma time_sleep_cases w n st :
  (exists e, time_sleep w n st = (Raise e, st)) \/
  time_sleep w n st = (Ok tt, logged st [EvSleep (1000 * n)]).
Proof.
  unfold time_sleep.
  destruct (n <? 0); [left; eauto|].
  destruct (SLEEP_MAX <? n); [left; eauto|].
  destruct (sleep_refused w (trace st) n); [left; eauto|now right].
Qed.

Lemma time_sleep_trace w n st :
  exists r t, time_sleep w n st = (r, logged st t) /\ gets t = [].
Proof.
  destruct (time_sleep_cases w n st) as [[e ->]| ->].
  - eexists; exists []; rewrite logged_nil; split; reflexivity.
  - eexists; exists [EvSleep (1000 * n)]. split; reflexivity.
Qed.

Lemma gets_app t u : gets (t ++ u) = (gets t ++ gets u)%list.
Proof. unfold gets. apply flat_map_app. Qed.

(** warnings shown again are neither requests nor pauses *)
Lemma gets_warnings ws : gets (List.map EvWarning ws) = [].
Proof. induction ws as [|x ws IH]; [reflexivity|exact IH]. Qed.

Lemma sleeps_warnings ws : sleeps (List.map EvWarning ws) = [].
Proof. induction ws as [|x ws IH]; [reflexivity|exact IH]. Qed.

Lemma sleeps_app t u : sleeps (t ++ u) = (sleeps t ++ sleeps u)%list.
Proof. unfold sleeps. apply flat_map_app. Qed.

(** the trace of one call: one request, or two when the first answer is
    a 429 whose pause could be taken *)
Lemma safe_get_trace w url params st :
  let rq := mk_request url params 30 in
  exists t, snd (safe_get w url params st) = logged st t /\
            (gets t = [rq] \/ gets t = [rq; rq]).
Proof.
  intros rq. unfold safe_get, SESSION_get. fold rq.
  change (mk_state (trace st ++ [EvGet rq]) (memo_autores st) (memo_partido st))
    with (logged st [EvGet rq]).
  destruct (server w (trace st) rq) as [r1|e].
  - destruct (status_code r1 =? 429).
    + destruct (Str.to_int _) as [wait|].
      * destruct (time_sleep_trace w wait (logged st [EvGet rq])) as (r & t & Hsl & Hg).
        rewrite Hsl. destruct r as [[]|e].
        -- change (mk_state (trace (logged (logged st [EvGet rq]) t) ++ [EvGet rq])
                     (memo_autores (logged (logged st [EvGet rq]) t))
                     (memo_partido (logged (logged st [EvGet rq]) t)))
             with (logged (logged (logged st [EvGet rq]) t) [EvGet rq]).
           rewrite !logged_app.
           destruct (server w _ rq) as [r2|e2].
           ++ by_finish. rewrite logged_app. eexists. split; [reflexivity|].
              right. rewrite !gets_app, Hg. simpl.
              match goal with H : gets _ = [] |- _ => now rewrite H end.
           ++ by_except. rewrite logged_app. eexists. split; [reflexivity|].
              right. rewrite !gets_app, Hg. reflexivity.
        -- by_except. rewrite !logged_app. eexists. split; [reflexivity|].
           left. rewrite !gets_app, Hg. reflexivity.
      * by_except. rewrite logged_app. eexists. split; [reflexivity|]. now left.
    + by_finish. rewrite logged_app. eexists. split; [reflexivity|].
      left. rewrite gets_app. simpl.
      match goal with H : gets _ = [] |- _ => now rewrite H end.
  - destruct e; run;
      try (exists [EvGet rq]; split; [reflexivity|now left]);
      (eexists [EvGet rq; _]; split; [rewrite <- app_assoc; reflexivity|now left]).
Qed.

(** C10: a 429 response whose Retry-After value [int()] rejects (the
    HTTP-date form is one) makes [safe_get] return [None] with the generic
    failure warning, after the single request: no pause, no second
    attempt. *)
Theorem safe_get_429_retry_after_rejected w url params st r :
  server w (trace st) (mk_request url params 30) = Response r ->
  status_code r = 429 ->
  retry_after r = None ->
  safe_get w url params st =
    (Ok JNull, logged st [EvGet (mk_request url params 30);
                          EvWarning (WarnFalha url ValueError)]).
Proof.
  intros Hs Hc Hr. unfold safe_get, SESSION_get. rewrite Hs, Hc. simpl.
  unfold retry_after in Hr. rewrite Hr. run. now rewrite <- app_assoc.
Qed.

Lemma safe_get_429_retry_after_rejected_witness :
  retry_after (resp_429 [("Retry-After", HTTP_DATE)]) = None /\
  safe_get (world_always_429 [("Retry-After", HTTP_DATE)]) url_proposicoes None st0 =
    (Ok JNull, logged st0 [EvGet (mk_request url_proposicoes None 30);
                           EvWarning (WarnFalha url_proposicoes ValueError)]).
Proof.
  split; [reflexivity|].
  apply (safe_get_429_retry_after_rejected
           (world_always_429 [("Retry-After", HTTP_DATE)]) url_proposicoes None st0
           (resp_429 [("Retry-After", HTTP_DATE)])); reflexivity.
Defined.

(** C3, as stated, fails: not every 429 is followed by a pause and a
    second attempt.  With an HTTP-date in Retry-After the call makes one
    request and stops. *)
Lemma safe_get_429_not_always_retried :
  ~ (forall w url params st r,
       server w (trace st) (mk_request url params 30) = Response r ->
       status_code r = 429 ->
       exists wait t,
         snd (safe_get w url params st) =
           logged st ([EvGet (mk_request url params 30); EvSleep (1000 * wait);
                       EvGet (mk_request url params 30)] ++ t)).
Proof.
  intros H.
  destruct (H (world_always_429 [("Retry-After", HTTP_DATE)]) url_proposicoes None st0
              (resp_429 [("Retry-After", HTTP_DATE)]) eq_refl eq_refl)
    as (wait & t & Ht).
  vm_compute in Ht. discriminate Ht.
Qed.

(** a first attempt that raises anything but [HTTPError] ends the call
    with the generic warning and [None] *)
Lemma safe_get_first_raises w url params st e :
  server w (trace st) (mk_request url params 30) = Raises e ->
  e <> HTTPError ->
  safe_get w url params st =
    (Ok JNull, logged st [EvGet (mk_request url params 30); EvWarning (WarnFalha url e)]).
Proof.
  intros Hs Hne. unfold safe_get, SESSION_get. rewrite Hs.
  destruct e; try congruence; run; now rewrite <- app_assoc.
Qed.

(** after a first 429 whose pause is taken, the second attempt alone
    decides how the call ends *)
Lemma safe_get_retry w url params st r1 wait :
  let rq := mk_request url params 30 in
  server w (trace st) rq = Response r1 ->
  status_code r1 = 429 ->
  retry_after r1 = Some wait ->
  0 <= wait <= SLEEP_MAX ->
  sleep_refused w (trace st ++ [EvGet rq]) wait = false ->
  safe_get w url params st =
    match server w (trace st ++ [EvGet rq; EvSleep (1000 * wait)]) rq with
    | Response r2 =>
        safe_get_finish url r2 (logged st [EvGet rq; EvSleep (1000 * wait); EvGet rq])
    | Raises e =>
        safe_get_except url (Some r1) e
          (logged st [EvGet rq; EvSleep (1000 * wait); EvGet rq])
    end.
Proof.
  intros rq Hs Hc Hr Hw Hok.
  remember (1000 * wait) as ms eqn:Ems.
  unfold safe_get, SESSION_get. fold rq. rewrite Hs, Hc. simpl.
  unfold retry_after in Hr. rewrite Hr.
  match goal with |- context [time_sleep w wait ?s] =>
    pose proof (time_sleep_ok w wait s Hw Hok) as Hsl end.
  rewrite <- Ems in Hsl. rewrite Hsl. clear Hsl.
  cbn [logged trace memo_autores memo_partido].
  rewrite <- app_assoc. cbn [app].
  destruct (server w (trace st ++ [EvGet rq; EvSleep ms]) rq);
    unfold logged; rewrite <- app_assoc; reflexivity.
Qed.

(** C3, amended: when the first answer is a 429 and Retry-After is
    absent (read as 2) or holds an integer literal [int()] accepts, not
    negative, that [time.sleep] takes (it fits the clock and the platform
    does not turn it down), the call pauses that long and sends the
    request exactly once more; and whatever the answers are, one call
    sends at most two requests. *)
Theorem safe_get_429_retry_once w url params st :
  let rq := mk_request url params 30 in
  exists t,
    snd (safe_get w url params st) = logged st t /\
    (List.length (gets t) <= 2)%nat /\
    (forall r wait,
        server w (trace st) rq = Response r ->
        status_code r = 429 ->
        retry_after r = Some wait ->
        0 <= wait <= SLEEP_MAX ->
        sleep_refused w (trace st ++ [EvGet rq]) wait = false ->
        exists t', t = ([EvGet rq; EvSleep (1000 * wait); EvGet rq] ++ t')%list /\
                   gets t' = [] /\ sleeps t' = []) /\
    (forall r,
        server w (trace st) rq = Response r ->
        status_code r = 429 ->
        (forall k v, In (k, v) (headers r) -> Str.lower k <> "retry-after") ->
        sleep_refused w (trace st ++ [EvGet rq]) 2 = false ->
        exists t', t = ([EvGet rq; EvSleep 2000; EvGet rq] ++ t')%list /\
                   gets t' = [] /\ sleeps t' = []).
Proof.
  intros rq.
  destruct (safe_get_trace w url params st) as (t & Ht & Hg). fold rq in Hg.
  exists t. split; [exact Ht|]. split; [destruct Hg as [-> | ->]; simpl; lia|].
  assert (Main : forall r wait,
      server w (trace st) rq = Response r -> status_code r = 429 ->
      retry_after r = Some wait -> 0 <= wait <= SLEEP_MAX ->
      sleep_refused w (trace st ++ [EvGet rq]) wait = false ->
      exists t', t = ([EvGet rq; EvSleep (1000 * wait); EvGet rq] ++ t')%list /\
                 gets t' = [] /\ sleeps t' = []).
  { intros r wait Hs Hc Hr Hw Hok.
    assert (E : exists t', snd (safe_get w url params st) =
                  logged st ([EvGet rq; EvSleep (1000 * wait); EvGet rq] ++ t') /\
                  gets t' = [] /\ sleeps t' = []).
    { rewrite (safe_get_retry w url params st r wait Hs Hc Hr Hw Hok). fold rq.
      destruct (server w (trace st ++ [EvGet rq; EvSleep (1000 * wait)]) rq) as [r2|e2].
      - by_finish. exists t0. rewrite logged_app. auto.
      - by_except. exists [EvWarning x]. rewrite logged_app. auto. }
    destruct E as (t' & E & G & S). exists t'. split; [|split; assumption].
    rewrite Ht in E. unfold logged in E.
    injection E as E. now apply app_inv_head in E. }
  split; [exact Main|].
  intros r Hs Hc Habs Hok.
  replace 2000 with (1000 * 2) by reflexivity.
  apply (Main r 2 Hs Hc (retry_after_absent r Habs)); [unfold SLEEP_MAX; lia|exact Hok].
Qed.

Lemma safe_get_429_retry_once_witness :
  let w := world_429_then [("retry-after", "3")] (JObj [("dados", JArr [])]) in
  let rq := mk_request url_proposicoes None 30 in
  exists t,
    snd (safe_get w url_proposicoes None st0) = logged st0 t /\
    exists t', t = ([EvGet rq; EvSleep (1000 * 3); EvGet rq] ++ t')%list /\
               gets t' = [] /\ sleeps t' = [].
Proof.
  intros w rq.
  destruct (safe_get_429_retry_once w url_proposicoes None st0)
    as (t & Ht & _ & Hretry & _).
  exists t. split; [exact Ht|].
  apply (Hretry (resp_429 [("retry-after", "3")]) 3);
    [reflexivity | reflexivity | reflexivity | unfold SLEEP_MAX; lia | reflexivity].
Defined.




(** ** partido_do_deputado *)

Lemma or_empty_obj o : Py.or_ (JObj o) (JObj []) = JObj o.
Proof. destruct o; reflexivity. Qed.

Lemma partido_de_sigla js v : sigla js v -> partido_de js = Ok (partido_esperado v).
Proof.
  intros H. unfold partido_de.
  destruct (negb (Py.truthy js)) eqn:T.
  - (* an empty object: every level is missing *)
    destruct H as [o _|o d E _|o d u E _ _|o d u s E _ _];
      destruct o; simpl in T; try discriminate;
      first [reflexivity | simpl in E; discriminate].
  - destruct H as [o [E|E]|o d E [E'|E']|o d u E E' [E''|E'']|o d u s E E' E''];
      simpl; rewrite E; simpl; try reflexivity;
      rewrite or_empty_obj; simpl; rewrite E'; simpl; try reflexivity;
      rewrite or_empty_obj; simpl; rewrite E''; simpl; try reflexivity.
    unfold Py.or_. simpl. destruct s; reflexivity.
Qed.

Lemma partido_do_deputado_miss w id st :
  memo_hit (clock w (trace st)) id (memo_partido st) = None ->
  fst (partido_do_deputado w id st) = fst (partido_body w id st).
Proof.
  intros Hm. unfold partido_do_deputado. rewrite Hm.
  destruct (partido_body w id st) as [[v|e] st1]; reflexivity.
Qed.

(** C7: on a fetch, [partido_do_deputado] returns a string, never [None]
    and never an exception (the pool, as [requests] does, raising no
    [HTTPError] from [get]).  [safe_get] hands back a value; when that
    value is [None] or otherwise falsy the result is the empty string, and
    so it is when the first attempt raises or is answered by an error
    status; when the party code is missing or null at any level of the
    payload the result is the empty string, and for a code s it is
    [s.upper()]. *)
Theorem partido_do_deputado_spec w id st :
  let rq := mk_request (url_deputado id) None 30 in
  memo_hit (clock w (trace st)) id (memo_partido st) = None ->
  server w (trace st) rq <> Raises HTTPError ->
  (exists js st1,
     safe_get w (url_deputado id) None st = (Ok js, st1) /\
     (Py.truthy js = false -> fst (partido_do_deputado w id st) = Ok "") /\
     (forall v, sigla js v ->
                fst (partido_do_deputado w id st) = Ok (partido_esperado v))) /\
  (forall e, server w (trace st) rq = Raises e ->
             fst (partido_do_deputado w id st) = Ok "") /\
  (forall r, server w (trace st) rq = Response r ->
             400 <= status_code r < 600 -> status_code r <> 429 ->
             fst (partido_do_deputado w id st) = Ok "").
Proof.
  intros rq Hm Hne. rewrite (partido_do_deputado_miss w id st Hm).
  unfold partido_body, bind, lift. split; [|split].
  - destruct (safe_get_returns w (url_deputado id) None st Hne) as (js & st1 & Hg).
    exists js, st1. rewrite Hg. simpl. split; [reflexivity|]. split.
    + intros F. unfold partido_de. now rewrite F.
    + intros v Hv. now apply partido_de_sigla.
  - intros e Hs.
    rewrite (safe_get_first_raises w (url_deputado id) None st e Hs); [reflexivity|].
    intros ->. now apply Hne.
  - intros r Hs Hc Hn.
    now rewrite (safe_get_error_status w (url_deputado id) None st r Hs Hc Hn).
Qed.

Lemma partido_do_deputado_spec_witness :
  fst (partido_do_deputado
         (static_world [(url_deputado 55, ok_json (deputado_json (JStr "pt")))]
                       (Raises Timeout)) 55 st0) = Ok "PT" /\
  fst (partido_do_deputado (world_raising Timeout) 55 st0) = Ok "" /\
  fst (partido_do_deputado (static_world [] (Response (mk_response 404 [] None))) 55 st0)
    = Ok "".
Proof.
  split; [|split].
  - destruct (partido_do_deputado_spec
                (static_world [(url_deputado 55, ok_json (deputado_json (JStr "pt")))]
                              (Raises Timeout)) 55 st0 eq_refl)
      as ((js & st1 & Hg & _ & H) & _); [discriminate|].
    injection Hg as <- _.
    apply (H (Some "pt")).
    apply (sigla_presente _ [("id", JInt 55);
                             ("ultimoStatus", JObj [("siglaPartido", JStr "pt")])]
                          [("siglaPartido", JStr "pt")]); reflexivity.
  - destruct (partido_do_deputado_spec (world_raising Timeout) 55 st0 eq_refl)
      as (_ & H & _); [discriminate|].
    apply (H Timeout). reflexivity.
  - destruct (partido_do_deputado_spec
                (static_world [] (Response (mk_response 404 [] None))) 55 st0 eq_refl)
      as (_ & _ & H); [discriminate|].
    apply (H (mk_response 404 [] None)); [reflexivity | simpl; lia | discriminate].
Defined.

(** ** One author reference *)

Lemma get_campo o k : Py.get (JObj o) k JNull = Ok (campo o k).
Proof. reflexivity. Qed.

Lemma is_parlamentar_str o s :
  campo o "tipoAutor" = JStr s ->
  is_parlamentar (JObj o) = Ok (Str.startswith (Str.lower s) "parlamentar").
Proof.
  intros H. unfold is_parlamentar. rewrite get_campo, H. simpl.
  unfold Py.or_. simpl. destruct s; reflexivity.
Qed.

Lemma id_deputado_top o :
  Py.truthy (campo o "idDeputado") = true ->
  id_deputado_de (JObj o) = Ok (campo o "idDeputado").
Proof.
  intros H. unfold id_deputado_de, campo in *. cbn [res_bind Py.get].
  now rewrite H.
Qed.

Lemma id_deputado_nested o au :
  Py.truthy (campo o "idDeputado") = false ->
  campo o "autor" = JObj au ->
  id_deputado_de (JObj o) = Ok (campo au "id").
Proof.
  intros H A. unfold id_deputado_de, campo in *. cbn [res_bind Py.get].
  rewrite H. cbn [res_bind]. rewrite A, or_empty_obj. reflexivity.
Qed.

Lemma id_deputado_none o :
  Py.truthy (campo o "idDeputado") = false ->
  Py.truthy (campo o "autor") = false ->
  id_deputado_de (JObj o) = Ok JNull.
Proof.
  intros H A. unfold id_deputado_de, campo in *. cbn [res_bind Py.get].
  rewrite H. cbn [res_bind]. unfold Py.or_. now rewrite A.
Qed.

Lemma conta_autor_skip_tipo w a partidos st :
  is_parlamentar a = Ok false -> conta_autor w a partidos st = (Ok partidos, st).
Proof. intros H. unfold conta_autor, bind, lift. now rewrite H. Qed.

Lemma conta_autor_skip_id w a v partidos st :
  is_parlamentar a = Ok true ->
  id_deputado_de a = Ok v ->
  Py.truthy v = false ->
  conta_autor w a partidos st = (Ok partidos, st).
Proof.
  intros H I F. unfold conta_autor, bind, lift. rewrite H, I. simpl. now rewrite F.
Qed.

Lemma conta_autor_lookup w a v n partidos st p st1 :
  is_parlamentar a = Ok true ->
  id_deputado_de a = Ok v ->
  Py.truthy v = true ->
  Py.int v = Ok n ->
  partido_do_deputado w n st = (Ok p, st1) ->
  conta_autor w a partidos st =
    (Ok (if Str.is_empty p then partidos else (partidos ++ [p])%list), st1).
Proof.
  intros H I T N P. unfold conta_autor, bind, lift. rewrite H, I. simpl.
  rewrite T, N, P. destruct (Str.is_empty p); reflexivity.
Qed.

(** C9: with a falsy top-level idDeputado (absent, null, 0, ...) the
    identifier is the nested autor.id, and it is the legislator looked up:
    a parliamentary reference is tallied under the party
    [partido_do_deputado] returns for autor.id.  When autor.id is falsy
    too, or there is no autor, the reference triggers no party lookup (the
    state is left as it was) and adds nothing to the tally. *)
Theorem id_deputado_fallback :
  (forall o au,
      Py.truthy (campo o "idDeputado") = false ->
      campo o "autor" = JObj au ->
      id_deputado_de (JObj o) = Ok (campo au "id")) /\
  (forall w o au n partidos st p st1,
      is_parlamentar (JObj o) = Ok true ->
      Py.truthy (campo o "idDeputado") = false ->
      campo o "autor" = JObj au ->
      Py.truthy (campo au "id") = true ->
      Py.int (campo au "id") = Ok n ->
      partido_do_deputado w n st = (Ok p, st1) ->
      conta_autor w (JObj o) partidos st =
        (Ok (if Str.is_empty p then partidos else (partidos ++ [p])%list), st1)) /\
  (forall w o partidos st,
      is_parlamentar (JObj o) = Ok true ->
      Py.truthy (campo o "idDeputado") = false ->
      (Py.truthy (campo o "autor") = false \/
       exists au, campo o "autor" = JObj au /\ Py.truthy (campo au "id") = false) ->
      conta_autor w (JObj o) partidos st = (Ok partidos, st)).
Proof.
  split; [exact id_deputado_nested|]. split.
  - intros w o au n partidos st p st1 P T A V N L.
    apply (conta_autor_lookup w (JObj o) (campo au "id") n); auto.
    now apply id_deputado_nested.
  - intros w o partidos st P T [A|(au & A & F)].
    + apply (conta_autor_skip_id w _ JNull); auto using id_deputado_none.
    + apply (conta_autor_skip_id w _ (campo au "id")); auto using id_deputado_nested.
Qed.

Lemma id_deputado_fallback_witness :
  id_deputado_de (JObj [("tipoAutor", JStr "Parlamentar"); ("idDeputado", JNull);
                        ("autor", JObj [("id", JInt 55)])]) = Ok (JInt 55) /\
  fst (conta_autor (world_cenario true)
         (JObj [("tipoAutor", JStr "Parlamentar"); ("idDeputado", JInt 0);
                ("autor", JObj [("id", JInt 55)])]) [] st0) = Ok ["PT"] /\
  conta_autor (world_raising Timeout)
              (JObj [("tipoAutor", JStr "Parlamentar"); ("idDeputado", JInt 0);
                     ("autor", JObj [("id", JInt 0)])]) ["PT"] st0 = (Ok ["PT"], st0).
Proof.
  destruct id_deputado_fallback as (H1 & H2 & H3).
  split; [|split].
  - apply (H1 [("tipoAutor", JStr "Parlamentar"); ("idDeputado", JNull);
               ("autor", JObj [("id", JInt 55)])] [("id", JInt 55)]); reflexivity.
  - rewrite (H2 (world_cenario true)
               [("tipoAutor", JStr "Parlamentar"); ("idDeputado", JInt 0);
                ("autor", JObj [("id", JInt 55)])]
               [("id", JInt 55)] 55 [] st0 "PT"
               (snd (partido_do_deputado (world_cenario true) 55 st0)));
      reflexivity.
  - apply H3; [reflexivity | reflexivity |].
    right. exists [("id", JInt 0)]. split; reflexivity.
Defined.

(** C1: a party is tallied only for references whose tipoAutor starts
    with "parlamentar" whatever the case; the legislator is idDeputado or,
    failing that, autor.id; such a reference adds the party
    [partido_do_deputado] returns for that identifier, if not empty.  For
    the bills [101, 102] of the scenario the result is PT: 1. *)
Theorem contagem_por_partido_parlamentares :
  (forall w a partidos st,
      is_parlamentar a = Ok false -> conta_autor w a partidos st = (Ok partidos, st)) /\
  (forall o s,
      campo o "tipoAutor" = JStr s ->
      is_parlamentar (JObj o) = Ok (Str.startswith (Str.lower s) "parlamentar")) /\
  (forall o,
      Py.truthy (campo o "idDeputado") = true ->
      id_deputado_de (JObj o) = Ok (campo o "idDeputado")) /\
  (forall o au,
      Py.truthy (campo o "idDeputado") = false ->
      campo o "autor" = JObj au ->
      id_deputado_de (JObj o) = Ok (campo au "id")) /\
  (forall w a v n partidos st p st1,
      is_parlamentar a = Ok true ->
      id_deputado_de a = Ok v ->
      Py.truthy v = true ->
      Py.int v = Ok n ->
      partido_do_deputado w n st = (Ok p, st1) ->
      conta_autor w a partidos st =
        (Ok (if Str.is_empty p then partidos else (partidos ++ [p])%list), st1)) /\
  (forall nested usar_todos,
      fst (contagem_por_partido (world_cenario nested) [Some 101; Some 102]
                                usar_todos st0) = Ok [("PT", 1)]).
Proof.
  split; [exact conta_autor_skip_tipo|].
  split; [exact is_parlamentar_str|].
  split; [exact id_deputado_top|].
  split; [exact id_deputado_nested|].
  split; [exact conta_autor_lookup|].
  intros [|] [|]; vm_compute; reflexivity.
Qed.

Lemma contagem_por_partido_parlamentares_witness :
  let w := world_cenario false in
  conta_autor w (JObj [("tipoAutor", JStr "Comissao")]) [] st0 = (Ok [], st0) /\
  is_parlamentar (autor_55 false) = Ok true /\
  id_deputado_de (autor_55 false) = Ok (JInt 55) /\
  id_deputado_de (autor_55 true) = Ok (JInt 55) /\
  fst (conta_autor w (autor_55 false) [] st0) = Ok ["PT"].
Proof.
  intros w.
  destruct contagem_por_partido_parlamentares as (H1 & H2 & H3 & H4 & H5 & _).
  split; [apply H1; reflexivity|].
  split; [apply (H2 _ "Parlamentar"); reflexivity|].
  split; [apply H3; reflexivity|].
  split; [apply (H4 _ [("id", JInt 55)]); reflexivity|].
  rewrite (H5 w (autor_55 false) (JInt 55) 55 [] st0 "PT"
              (snd (partido_do_deputado w 55 st0)));
    reflexivity.
Defined.

(** ** Counting *)

Lemma total_incr p acc : total (incr p acc) = total acc + 1.
Proof.
  induction acc as [|[q n] r IH]; simpl; [reflexivity|].
  destruct (String.eqb p q); simpl; lia.
Qed.

Lemma autores_de_incr q p acc :
  autores_de q (incr p acc) = autores_de q acc + (if String.eqb q p then 1 else 0).
Proof.
  induction acc as [|[k n] r IH]; simpl.
  - destruct (String.eqb q p); reflexivity.
  - destruct (String.eqb_spec p k) as [->|Hpk]; simpl.
    + destruct (String.eqb q k); lia.
    + rewrite IH. destruct (String.eqb q k); lia.
Qed.

Lemma keys_incr k p acc :
  In k (map fst (incr p acc)) <-> k = p \/ In k (map fst acc).
Proof.
  induction acc as [|[q n] r IH]; simpl.
  - intuition.
  - destruct (String.eqb_spec p q) as [->|Hpq]; simpl; [intuition|].
    rewrite IH. intuition.
Qed.

Lemma nodup_incr p acc : NoDup (map fst acc) -> NoDup (map fst (incr p acc)).
Proof.
  induction acc as [|[q n] r IH]; simpl; intros H.
  - constructor; [intros []|constructor].
  - inversion H as [|? ? Hq Hr]; subst.
    destruct (String.eqb_spec p q) as [->|Hpq]; simpl; [now constructor|].
    constructor; [|now apply IH].
    rewrite keys_incr. intros [E|I]; [now apply Hpq|now apply Hq].
Qed.

Lemma positive_incr p acc :
  Forall (fun c => 0 < snd c) acc -> Forall (fun c => 0 < snd c) (incr p acc).
Proof.
  induction acc as [|[q n] r IH]; simpl; intros H.
  - repeat constructor.
  - inversion H as [|? ? Hq Hr]; subst. simpl in Hq.
    destruct (String.eqb p q); constructor; simpl; auto; lia.
Qed.

Lemma fold_incr_spec l : forall acc,
  let c := fold_left (fun a p => incr p a) l acc in
  total c = total acc + Z.of_nat (List.length l) /\
  (forall q, autores_de q c = autores_de q acc + ocorrencias q l) /\
  (NoDup (map fst acc) -> NoDup (map fst c)) /\
  (Forall (fun c => 0 < snd c) acc -> Forall (fun c => 0 < snd c) c).
Proof.
  unfold ocorrencias.
  induction l as [|p l IH]; intros acc; simpl.
  - repeat split; auto; intros; lia.
  - destruct (IH (incr p acc)) as (T & A & N & P). repeat split.
    + rewrite T, total_incr. lia.
    + intros q. rewrite A, autores_de_incr.
      destruct (string_dec p q) as [->|Hne].
      * rewrite String.eqb_refl. lia.
      * destruct (String.eqb_spec q p); [congruence|lia].
    + intros H. now apply N, nodup_incr.
    + intros H. now apply P, positive_incr.
Qed.

Lemma insert_desc_perm x l : Permutation (insert_desc x l) (x :: l).
Proof.
  induction l as [|y r IH]; simpl; [reflexivity|].
  destruct (snd y <=? snd x); [reflexivity|].
  rewrite IH. apply perm_swap.
Qed.

Lemma sort_values_desc_perm l : Permutation (sort_values_desc l) l.
Proof.
  induction l as [|x l IH]; simpl; [reflexivity|].
  rewrite insert_desc_perm. now constructor.
Qed.

Lemma total_perm a b : Permutation a b -> total a = total b.
Proof. induction 1; simpl; lia. Qed.

Lemma autores_de_perm q a b : Permutation a b -> autores_de q a = autores_de q b.
Proof.
  induction 1 as [|x l l' _ IH|x y l|l l' l'' _ IH1 _ IH2]; simpl;
    try rewrite IH; try lia.
  destruct (String.eqb q (fst x)), (String.eqb q (fst y)); lia.
Qed.

Lemma linhas_spec partidos :
  total (linhas partidos) = Z.of_nat (List.length partidos) /\
  (forall q, autores_de q (linhas partidos) = ocorrencias q partidos) /\
  NoDup (map fst (linhas partidos)) /\
  Forall (fun c => 0 < snd c) (linhas partidos).
Proof.
  destruct partidos as [|p r]; [repeat split; auto; constructor|].
  change (linhas (p :: r)) with (sort_values_desc (value_counts (p :: r))).
  generalize (p :: r). intros l.
  destruct (fold_incr_spec l []) as (T & A & N & P).
  fold (value_counts l) in *. simpl in T, A.
  assert (Hp := sort_values_desc_perm (value_counts l)).
  repeat split.
  - now rewrite (total_perm _ _ Hp).
  - intros q. now rewrite (autores_de_perm q _ _ Hp).
  - apply (Permutation_NoDup (l := map fst (value_counts l))).
    + apply Permutation_map. now symmetry.
    + apply N. constructor.
  - apply (Permutation_Forall (x := value_counts l)); [now symmetry|].
    apply P. constructor.
Qed.

(** ** The tally and the resolved references *)

Ltac fin :=
  simpl; first [ split; [now rewrite ?app_nil_r | reflexivity]
               | split; reflexivity ].

Lemma conta_autor_resolve w pid a ps st :
  mesma_contagem partido_opt ps (conta_autor w a ps st) (resolve w pid a st).
Proof.
  unfold conta_autor, resolve, bind, lift, ret, mesma_contagem.
  destruct (is_parlamentar a) as [[|]|e]; [|fin|fin]. simpl.
  destruct (id_deputado_de a) as [v|e]; [|fin]. simpl.
  destruct (Py.truthy v); [|fin]. simpl.
  destruct (Py.int v) as [n|e]; [|fin]. simpl.
  destruct (partido_do_deputado w n st) as [[p|e] st1]; [|fin].
  destruct (Str.is_empty p); fin.
Qed.

Lemma conta_autores_referencias w pid autores : forall ps st,
  mesma_contagem (map ref_partido) ps
    (conta_autores w autores ps st) (referencias_pl w pid autores st).
Proof.
  induction autores as [|a r IH]; intros ps st; simpl.
  - unfold ret. simpl. now rewrite app_nil_r.
  - unfold bind, ret.
    pose proof (conta_autor_resolve w pid a ps st) as H.
    unfold mesma_contagem in H.
    destruct (conta_autor w a ps st) as [[l|e1] s1],
             (resolve w pid a st) as [[o|e2] s2]; try contradiction; [|exact H].
    destruct H as [-> ->].
    specialize (IH (ps ++ partido_opt o)%list s2).
    unfold mesma_contagem in *.
    destruct (conta_autores w r _ s2) as [[l'|e1] s1'],
             (referencias_pl w pid r s2) as [[rs|e2] s2']; try contradiction; auto.
    destruct IH as [-> ->]. split; [|reflexivity].
    destruct o; simpl; now rewrite <- app_assoc.
Qed.

Lemma conta_pls_referencias w ids : forall i ps st,
  mesma_contagem (map ref_partido) ps
    (conta_pls w i ids ps st) (referencias w i ids st).
Proof.
  induction ids as [|pid r IH]; intros i ps st; simpl.
  - unfold ret. simpl. now rewrite app_nil_r.
  - unfold bind, lift, ret.
    destruct ((if i mod 25 =? 0 then time_sleep_ms 400 else fun st0 => (Ok tt, st0)) st)
      as [[[]|e] s0]; [|fin].
    destruct (autores_por_proposicao w pid s0) as [[au|e] s1]; [|fin].
    destruct (Py.iter au) as [itens|e]; [|fin].
    pose proof (conta_autores_referencias w pid itens ps s1) as H.
    unfold mesma_contagem in H.
    destruct (conta_autores w itens ps s1) as [[l|e1] s2],
             (referencias_pl w pid itens s1) as [[here|e2] s2'];
      try contradiction; [|exact H].
    destruct H as [-> ->].
    specialize (IH (i + 1) (ps ++ map ref_partido here)%list s2').
    unfold mesma_contagem in *.
    destruct (conta_pls w (i + 1) r _ s2') as [[l'|e1] s3],
             (referencias w (i + 1) r s2') as [[rest|e2] s3'];
      try contradiction; auto.
    destruct IH as [-> ->]. split; [|reflexivity].
    now rewrite map_app, app_assoc.
Qed.

Lemma resolve_resolvida w pid a st x st' :
  resolve w pid a st = (Ok (Some x), st') -> resolvida x /\ ref_pl x = pid.
Proof.
  unfold resolve, bind, lift, ret.
  destruct (is_parlamentar a) as [[|]|e] eqn:P; simpl; try discriminate.
  destruct (id_deputado_de a) as [v|e]; simpl; try discriminate.
  destruct (Py.truthy v); simpl; try discriminate.
  destruct (Py.int v) as [n|e]; simpl; try discriminate.
  destruct (partido_do_deputado w n st) as [[p|e] st1]; simpl; try discriminate.
  destruct p as [|c p]; simpl; try discriminate.
  intros H. injection H as <- _. unfold resolvida. simpl.
  repeat split; [exact P|discriminate].
Qed.

Lemma referencias_pl_resolvidas w pid autores : forall st rs st',
  referencias_pl w pid autores st = (Ok rs, st') -> Forall resolvida rs.
Proof.
  induction autores as [|a r IH]; intros st rs st'; simpl.
  - unfold ret. intros H. injection H as <- _. constructor.
  - unfold bind at 1.
    destruct (resolve w pid a st) as [[o|e] s1] eqn:R; [|discriminate].
    unfold bind, ret.
    destruct (referencias_pl w pid r s1) as [[rs'|e] s2] eqn:R'; [|discriminate].
    intros H. injection H as <- _.
    specialize (IH _ _ _ R').
    destruct o as [x|]; [|exact IH].
    constructor; [|exact IH]. now apply (resolve_resolvida _ _ _ _ _ _ R).
Qed.

Lemma referencias_resolvidas w ids : forall i st rs st',
  referencias w i ids st = (Ok rs, st') -> Forall resolvida rs.
Proof.
  induction ids as [|pid r IH]; intros i st rs st'; simpl.
  - unfold ret. intros H. injection H as <- _. constructor.
  - unfold bind at 1.
    destruct ((if i mod 25 =? 0 then time_sleep_ms 400 else ret tt) st)
      as [[[]|e] s0]; [|discriminate].
    unfold bind at 1.
    destruct (autores_por_proposicao w pid s0) as [[au|e] s1]; [|discriminate].
    unfold bind at 1. unfold lift.
    destruct (Py.iter au) as [itens|e]; [|discriminate].
    unfold bind at 1.
    destruct (referencias_pl w pid itens s1) as [[here|e] s2] eqn:R; [|discriminate].
    unfold bind, ret.
    destruct (referencias w (i + 1) r s2) as [[rest|e] s3] eqn:R'; [|discriminate].
    intros H. injection H as <- _.
    apply Forall_app. split.
    + now apply (referencias_pl_resolvidas _ _ _ _ _ _ R).
    + now apply (IH _ _ _ _ R').
Qed.

(** C8: the counts [contagem_por_partido] returns are non-negative and
    add up to the number of parliamentary author references for which a
    non-empty party code came back, one per bill-author pairing; the row
    of each party counts the references resolved to that party. *)
Theorem contagem_por_partido_soma w df_id usar_todos st :
  match contagem_por_partido w df_id usar_todos st,
        referencias w 1 (amostra (dropna df_id) usar_todos) st with
  | (Ok counts, s1), (Ok refs, s2) =>
      s1 = s2 /\
      Forall resolvida refs /\
      Forall (fun c => 0 <= snd c) counts /\
      total counts = Z.of_nat (List.length refs) /\
      NoDup (map fst counts) /\
      (forall p, autores_de p counts = ocorrencias p (map ref_partido refs))
  | (Raise e1, s1), (Raise e2, s2) => e1 = e2 /\ s1 = s2
  | _, _ => False
  end.
Proof.
  unfold contagem_por_partido.
  set (ids := amostra (dropna df_id) usar_todos).
  pose proof (conta_pls_referencias w ids 1 [] st) as H.
  unfold mesma_contagem in H. unfold bind.
  destruct (conta_pls w 1 ids [] st) as [[l|e1] s1],
           (referencias w 1 ids st) as [[refs|e2] s2] eqn:R;
    try contradiction; [|destruct H; auto].
  destruct H as [-> ->]. rewrite !app_nil_l.
  destruct (linhas_spec (map ref_partido refs)) as (T & A & N & P).
  assert (E : (match map ref_partido refs with
               | [] => ret []
               | _ :: _ => ret (sort_values_desc (value_counts (map ref_partido refs)))
               end) s2 = (Ok (linhas (map ref_partido refs)), s2)).
  { unfold linhas. destruct (map ref_partido refs); reflexivity. }
  rewrite E. split; [reflexivity|].
  split; [now apply (referencias_resolvidas _ _ _ _ _ _ R)|].
  split; [eapply Forall_impl; [|exact P]; simpl; intros; lia|].
  split; [now rewrite T, length_map|].
  split; assumption.
Qed.

(** ** Sampling *)

Lemma is_url_autores_autores pid : is_url_autores (url_autores pid) = true.
Proof. reflexivity. Qed.

Lemma is_url_autores_deputado n : is_url_autores (url_deputado n) = false.
Proof. reflexivity. Qed.

Lemma pedidos_autores_app t u :
  pedidos_autores (t ++ u) = (pedidos_autores t ++ pedidos_autores u)%list.
Proof. unfold pedidos_autores. now rewrite gets_app, map_app, filter_app. Qed.

Lemma passo_refl st : passo st st [] [].
Proof. split; [now rewrite app_nil_r|auto]. Qed.

Lemma passo_trans st1 st2 st3 t u n m :
  passo st1 st2 t n -> passo st2 st3 u m -> passo st1 st3 (t ++ u) (n ++ m).
Proof.
  intros [T1 M1] [T2 M2]. split.
  - now rewrite T2, T1, app_assoc.
  - intros pid H. rewrite M2, M1; auto; intros I; apply H, in_or_app; auto.
Qed.

Lemma passo_logged st t : passo st (logged st t) t [].
Proof. split; [reflexivity|auto]. Qed.

Lemma safe_get_passo w url st :
  exists t k, passo st (snd (safe_get w url None st)) t [] /\
              (k = 1 \/ k = 2)%nat /\ map req_url (gets t) = repeat url k.
Proof.
  destruct (safe_get_trace w url None st) as (t & Ht & Hg).
  exists t. destruct Hg as [Hg|Hg]; [exists 1%nat|exists 2%nat];
    rewrite Ht, Hg; (split; [apply passo_logged|split; [auto|reflexivity]]).
Qed.

Lemma partido_do_deputado_passo w n st :
  exists t, passo st (snd (partido_do_deputado w n st)) t [] /\ pedidos_autores t = [].
Proof.
  unfold partido_do_deputado.
  destruct (memo_hit _ n (memo_partido st)) as [[v ws]|].
  { exists (List.map EvWarning ws). split; [apply passo_logged|].
    unfold pedidos_autores. now rewrite gets_warnings. }
  unfold partido_body, bind, lift.
  destruct (safe_get_passo w (url_deputado n) st) as (t & k & [T M] & Hk & Hg).
  destruct (safe_get w (url_deputado n) None st) as [[js|e] st1]; simpl in T, M.
  - exists t. split.
    + destruct (partido_de js); simpl; split; auto.
    + unfold pedidos_autores. rewrite Hg.
      destruct Hk as [-> | ->]; reflexivity.
  - exists t. split; [split; auto|].
    unfold pedidos_autores. rewrite Hg. destruct Hk as [-> | ->]; reflexivity.
Qed.

Lemma conta_autor_passo w a ps st :
  exists t, passo st (snd (conta_autor w a ps st)) t [] /\ pedidos_autores t = [].
Proof.
  unfold conta_autor, bind, lift, ret.
  destruct (is_parlamentar a) as [[|]|e];
    try (exists []; split; [apply passo_refl|reflexivity]).
  destruct (id_deputado_de a) as [v|e];
    try (exists []; split; [apply passo_refl|reflexivity]).
  destruct (Py.truthy v);
    try (exists []; split; [apply passo_refl|reflexivity]).
  destruct (Py.int v) as [n|e];
    try (exists []; split; [apply passo_refl|reflexivity]).
  destruct (partido_do_deputado_passo w n st) as (t & P & G).
  destruct (partido_do_deputado w n st) as [[p|e] st1]; simpl in P.
  - exists t. destruct (negb (Str.is_empty p)); simpl; auto.
  - exists t. auto.
Qed.

Lemma conta_autores_passo w autores : forall ps st,
  exists t, passo st (snd (conta_autores w autores ps st)) t [] /\ pedidos_autores t = [].
Proof.
  induction autores as [|a r IH]; intros ps st; simpl.
  - exists []. split; [apply passo_refl|reflexivity].
  - unfold bind.
    destruct (conta_autor_passo w a ps st) as (t & P & G).
    destruct (conta_autor w a ps st) as [[l|e] st1]; simpl in P.
    + destruct (IH l st1) as (u & P' & G').
      exists (t ++ u)%list. split.
      * exact (passo_trans _ _ _ _ _ _ _ P P').
      * now rewrite pedidos_autores_app, G, G'.
    + exists t. auto.
Qed.

Lemma autores_por_proposicao_passo w pid st :
  memo_find pid (memo_autores st) = None ->
  exists t k, passo st (snd (autores_por_proposicao w pid st)) t [pid] /\
              (k = 1 \/ k = 2)%nat /\ pedidos_autores t = repeat (url_autores pid) k.
Proof.
  intros Hm. unfold autores_por_proposicao, memo_hit. rewrite Hm.
  unfold autores_body, bind, lift, ret.
  destruct (safe_get_passo w (url_autores pid) st) as (t & k & [T M] & Hk & Hg).
  exists t, k.
  assert (G : pedidos_autores t = repeat (url_autores pid) k).
  { unfold pedidos_autores. rewrite Hg. destruct Hk as [-> | ->]; reflexivity. }
  destruct (safe_get w (url_autores pid) None st) as [[js|e] st1]; simpl in T, M.
  - assert (K : forall v, passo st
                 (mk_state (trace st1) ((pid, (clock w (trace st1), v)) :: memo_autores st1)
                           (memo_partido st1)) t [pid]).
    { intros v. split; [exact T|]. intros q Hq. simpl.
      destruct (Z.eqb_spec q pid) as [->|_]; [exfalso; apply Hq; now left|].
      apply M. intros []. }
    destruct (negb (Py.truthy js)); simpl; [auto|].
    destruct (Py.get js "dados" (JArr [])); simpl; auto.
    split; [|auto]. split; [exact T|]. intros q _. apply M. intros [].
  - simpl. split; [|auto]. split; [exact T|]. intros q _. apply M. intros [].
Qed.

Lemma pedidos_de_cons pid k ids ks :
  pedidos_de (pid :: ids) (k :: ks) = (repeat (url_autores pid) k ++ pedidos_de ids ks)%list.
Proof. reflexivity. Qed.

Lemma pedidos_de_one pid k ids :
  pedidos_de (pid :: ids) [k] = repeat (url_autores pid) k.
Proof. unfold pedidos_de. simpl. destruct ids; simpl; now rewrite app_nil_r. Qed.

(** The loop asks for the authors of the bills of [ids] one after the
    other, each once (twice after a 429), and for those of no other
    bill: all of them when it ends normally, a first part of them when an
    exception stops it. *)
Lemma conta_pls_pedidos w ids : forall i ps st,
  NoDup ids ->
  sem_memo ids st ->
  exists t ks,
    trace (snd (conta_pls w i ids ps st)) = (trace st ++ t)%list /\
    pedidos_autores t = pedidos_de ids ks /\
    Forall (fun k => k = 1 \/ k = 2)%nat ks /\
    (List.length ks <= List.length ids)%nat /\
    (forall l, fst (conta_pls w i ids ps st) = Ok l -> List.length ks = List.length ids).
Proof.
  induction ids as [|pid r IH]; intros i ps st Hnd Hm.
  - exists [], []. simpl. rewrite app_nil_r. repeat split; auto.
  - apply NoDup_cons_iff in Hnd. destruct Hnd as [Hnotin Hnd].
    cbn [conta_pls]. unfold bind, lift.
    set (pause := if i mod 25 =? 0 then time_sleep_ms 400 else ret tt).
    assert (Hp : exists t0, (pause st = (Ok tt, logged st t0)) /\ pedidos_autores t0 = []).
    { unfold pause. destruct (i mod 25 =? 0).
      - exists [EvSleep 400]. split; reflexivity.
      - exists []. rewrite logged_nil. split; reflexivity. }
    destruct Hp as (t0 & -> & G0).
    assert (Hm0 : memo_find pid (memo_autores (logged st t0)) = None)
      by (apply Hm; now left).
    destruct (autores_por_proposicao_passo w pid (logged st t0) Hm0)
      as (t1 & k & [T1 M1] & Hk & G1).
    destruct (autores_por_proposicao w pid (logged st t0)) as [[au|e] s1];
      simpl in T1, M1.
    2:{ exists (t0 ++ t1)%list, [k]. cbn [fst snd]. rewrite T1.
        split; [cbn [logged trace]; now rewrite app_assoc|].
        rewrite pedidos_autores_app, G0, G1, pedidos_de_one.
        repeat split; auto; [simpl; lia|discriminate]. }
    destruct (Py.iter au) as [itens|e].
    2:{ exists (t0 ++ t1)%list, [k]. cbn [fst snd]. rewrite T1.
        split; [cbn [logged trace]; now rewrite app_assoc|].
        rewrite pedidos_autores_app, G0, G1, pedidos_de_one.
        repeat split; auto; [simpl; lia|discriminate]. }
    destruct (conta_autores_passo w itens ps s1) as (t2 & [T2 M2] & G2).
    destruct (conta_autores w itens ps s1) as [[l|e] s2]; simpl in T2, M2.
    2:{ exists (t0 ++ t1 ++ t2)%list, [k]. cbn [fst snd]. rewrite T2, T1.
        split; [cbn [logged trace]; now rewrite !app_assoc|].
        rewrite !pedidos_autores_app, G0, G1, G2, pedidos_de_one, app_nil_r.
        repeat split; auto; [simpl; lia|discriminate]. }
    assert (Hm2 : sem_memo r s2).
    { intros q Hq. rewrite M2 by (intros []). rewrite M1.
      - apply Hm. now right.
      - intros [->|[]]. contradiction. }
    destruct (IH (i + 1) l s2 Hnd Hm2) as (t3 & ks & T3 & G3 & F3 & L3 & O3).
    exists (t0 ++ t1 ++ t2 ++ t3)%list, (k :: ks).
    split; [rewrite T3, T2, T1; cbn [logged trace]; now rewrite !app_assoc|].
    split; [rewrite !pedidos_autores_app, G0, G1, G2, G3, pedidos_de_cons; reflexivity|].
    split; [now constructor|].
    split; [simpl; lia|].
    intros l' Hl'. simpl. f_equal. now apply (O3 l').
Qed.

Lemma dropna_some l : dropna (map Some l) = l.
Proof. induction l as [|x l IH]; simpl; [reflexivity|now rewrite IH]. Qed.

Lemma NoDup_firstn {A} n (l : list A) : NoDup l -> NoDup (firstn n l).
Proof.
  intros H. rewrite <- (firstn_skipn n l) in H. exact (NoDup_app_remove_r _ _ H).
Qed.

Lemma contagem_por_partido_trace w df_id usar_todos st :
  snd (contagem_por_partido w df_id usar_todos st) =
  snd (conta_pls w 1 (amostra (dropna df_id) usar_todos) [] st) /\
  (forall c, fst (contagem_por_partido w df_id usar_todos st) = Ok c ->
             exists l, fst (conta_pls w 1 (amostra (dropna df_id) usar_todos) [] st) = Ok l).
Proof.
  unfold contagem_por_partido, bind, ret.
  destruct (conta_pls w 1 _ [] st) as [[l|e] s1]; simpl.
  - split; [destruct l; reflexivity|]. intros _ _. now exists l.
  - split; [reflexivity|discriminate].
Qed.

(** C6: without [usar_todos] the loop runs over the first 800
    identifiers of the column, in the column's order, that is over
    min(800, n) of them; with [usar_todos] over all n.  Seen from the
    API (distinct identifiers, nothing cached yet): the authors of
    exactly these bills are requested, in that order, each once (twice
    after a 429).  With 1000 identifiers these are the bills 1 to 800. *)
Theorem contagem_por_partido_amostra :
  (forall ids,
      amostra ids false = firstn 800 ids /\
      List.length (amostra ids false) = Nat.min 800 (List.length ids) /\
      exists rest, ids = (amostra ids false ++ rest)%list) /\
  (forall ids, amostra ids true = ids) /\
  (forall w df_id st,
      contagem_por_partido w df_id false st =
      contagem_por_partido w (map Some (firstn 800 (dropna df_id))) true st) /\
  (forall w df_id usar_todos st,
      NoDup (dropna df_id) ->
      memo_autores st = [] ->
      exists t ks,
        trace (snd (contagem_por_partido w df_id usar_todos st)) = (trace st ++ t)%list /\
        pedidos_autores t = pedidos_de (amostra (dropna df_id) usar_todos) ks /\
        Forall (fun k => k = 1 \/ k = 2)%nat ks /\
        (forall c, fst (contagem_por_partido w df_id usar_todos st) = Ok c ->
                   List.length ks = List.length (amostra (dropna df_id) usar_todos))) /\
  (map req_url (gets (trace (snd
      (contagem_por_partido world_sem_autores (coluna_ate 1000) false st0)))) =
   map url_autores (py_range 1 801)) /\
  (map req_url (gets (trace (snd
      (contagem_por_partido world_sem_autores (coluna_ate 1000) true st0)))) =
   map url_autores (py_range 1 1001)).
Proof.
  split.
  { intros ids. unfold amostra. simpl negb. cbv iota.
    split; [reflexivity|]. split; [apply length_firstn|].
    exists (skipn 800 ids). symmetry. apply firstn_skipn. }
  split; [reflexivity|].
  split.
  { intros w df_id st. unfold contagem_por_partido, amostra.
    simpl negb. cbv iota. now rewrite dropna_some. }
  split.
  { intros w df_id usar_todos st Hnd Hm.
    destruct (contagem_por_partido_trace w df_id usar_todos st) as [-> Hok].
    assert (Hnd' : NoDup (amostra (dropna df_id) usar_todos)).
    { unfold amostra. destruct (negb usar_todos); [now apply NoDup_firstn|exact Hnd]. }
    assert (Hm' : sem_memo (amostra (dropna df_id) usar_todos) st).
    { intros pid _. now rewrite Hm. }
    destruct (conta_pls_pedidos w _ 1 [] st Hnd' Hm') as (t & ks & T & G & F & _ & O).
    exists t, ks. repeat split; auto.
    intros c Hc. destruct (Hok c Hc) as (l & Hl). now apply (O l). }
  split; vm_compute; reflexivity.
Qed.

Lemma contagem_por_partido_amostra_witness :
  exists t ks,
    trace (snd (contagem_por_partido (world_cenario true) [Some 101; None; Some 102]
                                     false st0)) = ([] ++ t)%list /\
    pedidos_autores t = pedidos_de [101; 102] ks /\
    Forall (fun k => k = 1 \/ k = 2)%nat ks /\
    List.length ks = 2%nat.
Proof.
  destruct contagem_por_partido_amostra as (_ & _ & _ & H & _).
  destruct (H (world_cenario true) [Some 101; None; Some 102] false st0)
    as (t & ks & T & G & F & L).
  - repeat constructor; simpl; intuition discriminate.
  - reflexivity.
  - exists t, ks. repeat split; auto.
    apply (L [("PT", 1)]). vm_compute. reflexivity.
Defined.

(** ** Pagination *)

Lemma link_rel_fun l r1 r2 : link_rel l r1 -> link_rel l r2 -> r1 = r2.
Proof.
  intros (o & h & -> & R & _) (o' & h' & E & R' & _).
  injection E as <-. congruence.
Qed.

Lemma links_dict_ok ls :
  links_ok ls ->
  exists links, links_dict ls = Ok links /\ (has_next links = true <-> tem_next ls).
Proof.
  unfold links_ok, tem_next.
  induction ls as [|l r IH]; intros H.
  - exists []. split; [reflexivity|]. simpl. split; [discriminate|].
    intros E. inversion E.
  - inversion H as [|? ? (rel & Hl) Hr]; subst.
    destruct (IH Hr) as (links & E & Hn).
    pose proof Hl as (o & href & -> & R & Hh).
    exists ((JStr rel, href) :: links). split.
    + simpl. rewrite R, Hh. simpl. now rewrite E.
    + simpl. rewrite Bool.orb_true_iff, Hn. split.
      * intros [Heq|Hex]; [|now apply Exists_cons_tl].
        apply Exists_cons_hd. apply String.eqb_eq in Heq. now subst.
      * intros Hex. inversion Hex as [? ? Hhd|? ? Htl]; subst; [|now right].
        left. apply String.eqb_eq. exact (link_rel_fun _ _ _ Hl Hhd).
Qed.

Lemma pagina_truthy js ds ls : pagina js ds ls -> Py.truthy js = true.
Proof.
  intros (o & -> & D & _). destruct o; [discriminate|reflexivity].
Qed.

Lemma pagina_lida_pagina js ds ls :
  pagina js ds ls ->
  exists b, pagina_lida js = Ok (ds, b) /\ (b = true <-> tem_next ls /\ ds <> []).
Proof.
  intros (o & -> & D & L & K).
  destruct (links_dict_ok ls K) as (links & E & Hn).
  exists (has_next links && (0 <? Z.of_nat (List.length ds))). split.
  - unfold pagina_lida. simpl. rewrite D. simpl.
    destruct L as [L|[L ->]]; rewrite L; simpl.
    + now rewrite E.
    + simpl in E. injection E as <-. reflexivity.
  - rewrite Bool.andb_true_iff, Hn, Z.ltb_lt.
    destruct ds; simpl; split; intros [A B]; split; auto; try lia; congruence.
Qed.

Lemma pagina_lida_cheia js ds : cheia js ds -> pagina_lida js = Ok (ds, true).
Proof.
  intros (ls & P & N & D).
  destruct (pagina_lida_pagina js ds ls P) as (b & E & Hb).
  rewrite E. now rewrite (proj2 Hb (conj N D)).
Qed.

Lemma pagina_lida_ultima js ds : ultima js ds -> pagina_lida js = Ok (ds, false).
Proof.
  intros (ls & P & H).
  destruct (pagina_lida_pagina js ds ls P) as (b & E & Hb).
  rewrite E. destruct b; [|reflexivity].
  destruct (proj1 Hb eq_refl) as [N D]. destruct H; contradiction.
Qed.

Lemma safe_get_responde w ano p js st :
  responde w ano p js ->
  safe_get w url_proposicoes (Some (params_pagina ano p)) st =
    (Ok js, logged st [EvGet (req_pagina ano p)]).
Proof.
  intros H. destruct (H (trace st)) as (r & S & C & B).
  now apply (safe_get_ok w _ _ st r js).
Qed.

Lemma paginas_step fuel w ano p todos st :
  paginas (S fuel) w ano p todos st =
    match safe_get w url_proposicoes (Some (params_pagina ano p)) st with
    | (Raise e, st1) => Some (Raise e, st1)
    | (Ok js, st1) =>
        if negb (Py.truthy js) then Some (Ok todos, st1)
        else
          match pagina_lida js with
          | Raise e => Some (Raise e, st1)
          | Ok (dados, true) =>
              paginas fuel w ano (p + 1) (todos ++ dados)%list (logged st1 [EvSleep 150])
          | Ok (dados, false) => Some (Ok (todos ++ dados)%list, st1)
          end
    end.
Proof. reflexivity. Qed.

(** a fetch that comes back empty ends the year at once; the records
    gathered so far are kept *)
Lemma paginas_absent fuel w ano p todos st js st1 :
  safe_get w url_proposicoes (Some (params_pagina ano p)) st = (Ok js, st1) ->
  Py.truthy js = false ->
  paginas (S fuel) w ano p todos st = Some (Ok todos, st1).
Proof. intros G F. rewrite paginas_step, G, F. reflexivity. Qed.

Lemma paginas_run w ano full : forall p todos st fuel last,
  (forall k js ds,
      nth_error full k = Some (js, ds) ->
      cheia js ds /\ responde w ano (p + Z.of_nat k) js) ->
  ultima (fst last) (snd last) ->
  responde w ano (p + Z.of_nat (List.length full)) (fst last) ->
  (List.length full < fuel)%nat ->
  paginas fuel w ano p todos st =
    Some (Ok (todos ++ List.concat (map snd full) ++ snd last)%list,
          logged st (trace_paginas ano p (List.length full))).
Proof.
  induction full as [|[js ds] full IH]; intros p todos st fuel last Hf Hu Hl Hfuel;
    (destruct fuel as [|fuel]; [simpl in Hfuel; lia|]); rewrite paginas_step.
  - simpl in Hl. rewrite Z.add_0_r in Hl.
    rewrite (safe_get_responde w ano p _ st Hl).
    destruct Hu as (ls & P & Hn).
    rewrite (pagina_truthy _ _ _ P). simpl negb. cbv iota.
    rewrite (pagina_lida_ultima (fst last) (snd last));
      [reflexivity | now exists ls].
  - destruct (Hf 0%nat js ds eq_refl) as [Hc Hr].
    simpl in Hr. rewrite Z.add_0_r in Hr.
    rewrite (safe_get_responde w ano p _ st Hr).
    pose proof Hc as (ls & P & _).
    rewrite (pagina_truthy _ _ _ P). simpl negb. cbv iota.
    rewrite (pagina_lida_cheia js ds Hc).
    rewrite (IH (p + 1) (todos ++ ds)%list _ fuel last).
    + rewrite !logged_app. simpl. now rewrite <- !app_assoc.
    + intros k js' ds' Hk. destruct (Hf (S k) js' ds' Hk) as [A B].
      split; [exact A|].
      replace (p + 1 + Z.of_nat k) with (p + Z.of_nat (S k)) by lia. exact B.
    + exact Hu.
    + replace (p + 1 + Z.of_nat (List.length full))
        with (p + Z.of_nat (List.length ((js, ds) :: full))) by (simpl List.length; lia).
      exact Hl.
    + simpl in Hfuel. lia.
Qed.

Lemma gets_trace_paginas ano p n :
  gets (trace_paginas ano p n) =
    map (fun k => req_pagina ano (p + Z.of_nat k)) (seq 0 (S n)).
Proof.
  revert p. induction n as [|n IH]; intros p.
  - simpl. now rewrite Z.add_0_r.
  - change (gets (trace_paginas ano p (S n)))
      with (req_pagina ano p :: gets (trace_paginas ano (p + 1) n)).
    rewrite IH. change (seq 0 (S (S n))) with (0%nat :: seq 1 (S n)).
    rewrite <- seq_shift, map_cons, map_map. simpl Z.of_nat at 1.
    rewrite Z.add_0_r. f_equal.
    apply map_ext. intros k. f_equal. lia.
Qed.

Lemma anos_run w fuel full last ys : forall todos st,
  (forall y, In y ys ->
             api_paginada w y (full y) (last y) /\ (List.length (full y) < fuel)%nat) ->
  anos fuel w ys todos st =
    Some (Ok (todos ++ registros_de full last ys)%list, logged st (trace_de full ys)).
Proof.
  induction ys as [|y ys IH]; intros todos st H.
  - simpl. now rewrite app_nil_r, logged_nil.
  - destruct (H y (or_introl eq_refl)) as [(Hf & Hu & Hl) Hfuel].
    simpl anos.
    rewrite (paginas_run w y (full y) 1 todos st fuel (last y) Hf Hu Hl Hfuel).
    rewrite IH by (intros y' Hy'; apply H; now right).
    rewrite logged_app. unfold registros_de, trace_de. simpl flat_map.
    now rewrite <- !app_assoc.
Qed.

Lemma in_py_range y a b : In y (py_range a b) -> a <= y < b.
Proof.
  unfold py_range. rewrite in_map_iff. intros (k & <- & Hk).
  apply in_seq in Hk. lia.
Qed.

Lemma anos_absent fuel w ano ys todos st js st1 :
  safe_get w url_proposicoes (Some (params_pagina ano 1)) st = (Ok js, st1) ->
  Py.truthy js = false ->
  anos (S fuel) w (ano :: ys) todos st = anos (S fuel) w ys todos st1.
Proof.
  intros G F. cbn [anos]. now rewrite (paginas_absent fuel w ano 1 todos st js st1 G F).
Qed.

(** C5: every year starts at page 1; after a full page (records and a
    "next" link) the next page is requested, after a page without "next"
    link or without records none is; a fetch that comes back empty ends
    the year at once, keeping what was collected, and the next year
    follows.  Against an API that serves, for every year of the period, N
    full pages and then a last one, the function returns all records after
    exactly N + 1 page requests per year. *)
Theorem buscar_pls_periodo_paginacao :
  (forall fuel w ano p todos st js st1,
      safe_get w url_proposicoes (Some (params_pagina ano p)) st = (Ok js, st1) ->
      Py.truthy js = false ->
      paginas (S fuel) w ano p todos st = Some (Ok todos, st1)) /\
  (forall fuel w ano ys todos st js st1,
      safe_get w url_proposicoes (Some (params_pagina ano 1)) st = (Ok js, st1) ->
      Py.truthy js = false ->
      anos (S fuel) w (ano :: ys) todos st = anos (S fuel) w ys todos st1) /\
  (forall w ano_ini ano_fim full last fuel st,
      (forall y, ano_ini <= y <= ano_fim ->
                 api_paginada w y (full y) (last y) /\
                 (List.length (full y) < fuel)%nat) ->
      buscar_pls_periodo fuel w ano_ini ano_fim st =
        Some (Ok (registros_de full last (py_range ano_ini (ano_fim + 1))),
              logged st (trace_de full (py_range ano_ini (ano_fim + 1))))) /\
  (forall ano n,
      gets (trace_paginas ano 1 n) =
        map (fun k => req_pagina ano (1 + Z.of_nat k)) (seq 0 (S n)) /\
      List.length (gets (trace_paginas ano 1 n)) = S n).
Proof.
  split; [exact paginas_absent|].
  split; [exact anos_absent|].
  split.
  - intros w a b full last fuel st H. unfold buscar_pls_periodo.
    rewrite (anos_run w fuel full last); [reflexivity|].
    intros y Hy. apply H. apply in_py_range in Hy. lia.
  - intros ano n. rewrite gets_trace_paginas. split; [reflexivity|].
    now rewrite length_map, length_seq.
Qed.

Lemma link_rel_link rel : link_rel (link rel) rel.
Proof. eexists _, _. repeat split. Qed.

Lemma pagina_pagina_json ds rels : pagina (pagina_json ds rels) ds (map link rels).
Proof.
  eexists. split; [reflexivity|]. split; [reflexivity|]. split; [now left|].
  unfold links_ok. rewrite Forall_map. apply Forall_forall.
  intros rel _. exists rel. apply link_rel_link.
Qed.

Lemma tem_next_link rels : tem_next (map link rels) <-> In "next" rels.
Proof.
  unfold tem_next. rewrite Exists_map, Exists_exists. split.
  - intros (rel & Hin & H). now rewrite (link_rel_fun _ _ _ H (link_rel_link rel)).
  - intros H. exists "next". split; [exact H|apply link_rel_link].
Qed.

Lemma api_paginada_exemplo y :
  2023 <= y <= 2024 ->
  api_paginada (world_paginado rotas_exemplo) y (full_exemplo y) (last_exemplo y).
Proof.
  intros Hy. assert (E : y = 2023 \/ y = 2024) by lia.
  destruct E as [-> | ->]; unfold api_paginada; simpl; split.
  - intros [|[|[|k]]] js ds H; simpl in H; try discriminate;
      injection H as <- <-; (split; [|intros h; eexists; repeat split]).
    + eexists. split; [apply pagina_pagina_json|]. split; [|discriminate].
      apply tem_next_link. simpl. tauto.
    + eexists. split; [apply pagina_pagina_json|]. split; [|discriminate].
      apply tem_next_link. simpl. tauto.
  - split; [|intros h; eexists; repeat split].
    eexists. split; [apply pagina_pagina_json|]. left.
    rewrite tem_next_link. simpl. intros [H|[H|[]]]; discriminate.
  - intros [|k] js ds H; discriminate.
  - split; [|intros h; eexists; repeat split].
    eexists. split; [apply pagina_pagina_json|]. left.
    rewrite tem_next_link. simpl. tauto.
Qed.

Lemma buscar_pls_periodo_paginacao_witness :
  buscar_pls_periodo 3 (world_paginado rotas_exemplo) 2023 2024 st0 =
    Some (Ok [pl 1; pl 2; pl 3; pl 4; pl 5; pl 6],
          logged st0 [EvGet (req_pagina 2023 1); EvSleep 150;
                      EvGet (req_pagina 2023 2); EvSleep 150;
                      EvGet (req_pagina 2023 3);
                      EvGet (req_pagina 2024 1)]) /\
  paginas 1 (world_paginado []) 2023 1 [pl 1] st0 =
    Some (Ok [pl 1],
          logged st0 [EvGet (req_pagina 2023 1);
                      EvWarning (WarnStatus 404 url_proposicoes)]).
Proof.
  destruct buscar_pls_periodo_paginacao as (Habs & _ & Hrun & _). split.
  - apply (Hrun (world_paginado rotas_exemplo) 2023 2024 full_exemplo last_exemplo 3%nat st0).
    intros y Hy. split; [now apply api_paginada_exemplo|].
    unfold full_exemplo. destruct (y =? 2023); simpl; lia.
  - apply (Habs 0%nat (world_paginado []) 2023 1 [pl 1] st0 JNull); reflexivity.
Defined.

(** ** Scenarios *)

(** a legislator who signs two bills is counted twice, and looked up
    once: the second lookup is answered by the cache *)
Example mesmo_autor_conta_duas_vezes :
  let r := contagem_por_partido world_mesmo_autor [Some 1; Some 2] false st0 in
  fst r = Ok [("PT", 2)] /\
  map req_url (gets (trace (snd r))) = [url_autores 1; url_deputado 55; url_autores 2].
Proof. vm_compute. split; reflexivity. Qed.

(** once the entry is older than [TTL] the legislator is fetched again *)
Example memo_expira :
  let r := contagem_por_partido world_relogio_rapido [Some 1; Some 2] false st0 in
  fst r = Ok [("PT", 2)] /\
  map req_url (gets (trace (snd r))) =
    [url_autores 1; url_deputado 55; url_autores 2; url_deputado 55].
Proof. vm_compute. split; reflexivity. Qed.

(** a negative Retry-After is read, but [time.sleep] refuses it: no
    second attempt either *)
Example retry_after_negativo :
  safe_get (world_always_429 [("Retry-After", "-1")]) url_proposicoes None st0 =
    (Ok JNull, logged st0 [EvGet (mk_request url_proposicoes None 30);
                           EvWarning (WarnFalha url_proposicoes ValueError)]).
Proof. reflexivity. Qed.

(** a pause the platform turns down is not taken, and there is no second
    attempt *)
Example pausa_recusada :
  safe_get (world_pausa_recusada 9223372000) url_proposicoes None st0 =
    (Ok JNull, logged st0 [EvGet (mk_request url_proposicoes None 30);
                           EvWarning (WarnFalha url_proposicoes OSError)]).
Proof. vm_compute. reflexivity. Qed.

(** a party code with letters outside ASCII is upper-cased like any
    other *)
Example partido_com_acento :
  partido_de (deputado_json (JStr "União")) = Ok "UNIÃO".
Proof. vm_compute. reflexivity. Qed.

(** a 429 answered by another 429 is not retried again *)
Example segundo_429 :
  safe_get (world_always_429 [("Retry-After", "1")]) url_proposicoes None st0 =
    (Ok JNull, logged st0 [EvGet (mk_request url_proposicoes None 30); EvSleep 1000;
                           EvGet (mk_request url_proposicoes None 30);
                           EvWarning (WarnStatus 429 url_proposicoes)]).
Proof. reflexivity. Qed.

(** the records of the first page of 2023 survive the failure of the
    second one, and 2024 is still collected *)
Example ano_interrompido :
  buscar_pls_periodo 5 (world_paginado rotas_falha) 2023 2024 st0 =
    Some (Ok [pl 1; pl 2; pl 6],
          logged st0 [EvGet (req_pagina 2023 1); EvSleep 150;
                      EvGet (req_pagina 2023 2);
                      EvWarning (WarnStatus 404 url_proposicoes);
                      EvGet (req_pagina 2024 1)]).
Proof. vm_compute. reflexivity. Qed.

(** an API that always offers a "next" page keeps the loop running: no
    amount of fuel is enough *)
Example paginas_sem_fim fuel ano p todos st :
  paginas fuel
    (mk_world (fun _ _ => ok_json (pagina_json [pl 1] ["next"])) (fun _ => 0)
              (fun _ _ => false))
    ano p todos st = None.
Proof.
  revert p todos st. induction fuel as [|fuel IH]; intros p todos st; [reflexivity|].
  rewrite paginas_step.
  rewrite (safe_get_ok _ _ _ st (mk_response 200 [] (Some (pagina_json [pl 1] ["next"])))
                       (pagina_json [pl 1] ["next"])); try reflexivity.
  apply IH.
Qed.

(** * Further properties *)

(** ** safe_get, path by path *)

Lemma warnings_app t u : warnings (t ++ u) = (warnings t ++ warnings u)%list.
Proof. unfold warnings. apply flat_map_app. Qed.

Lemma safe_get_finish_effects url r st :
  exists j t, safe_get_finish url r st = (Ok j, logged st t) /\
              (t = [] \/ (j = JNull /\ exists x, t = [EvWarning x])).
Proof.
  unfold safe_get_finish.
  destruct (res_bind (raise_for_status r) (fun _ => resp_json r)) as [j|e].
  - exists j, []. rewrite logged_nil. auto.
  - destruct (safe_get_except_bound url r e st) as [x Hx].
    exists JNull, [EvWarning x]. rewrite Hx. split; [reflexivity|]. right. eauto.
Qed.

(** X1: a first answer whose status is outside 400..599 (1xx, 2xx, 3xx
    and 600 or more alike) and whose payload decodes is returned as it
    is, after that single request, with no warning and no pause. *)
Theorem safe_get_success w url params st r j :
  server w (trace st) (mk_request url params 30) = Response r ->
  status_code r < 400 \/ 600 <= status_code r ->
  body r = Some j ->
  safe_get w url params st = (Ok j, logged st [EvGet (mk_request url params 30)]).
Proof.
  intros Hs Hc Hb. unfold safe_get, SESSION_get. rewrite Hs.
  case_status r.
  unfold safe_get_finish, raise_for_status, resp_json.
  destruct (Z.leb_spec 400 (status_code r)); destruct (Z.ltb_spec (status_code r) 600);
    try lia; simpl; now rewrite Hb.
Qed.

Lemma safe_get_success_witness :
  safe_get (static_world [] (Response (mk_response 304 [] (Some (JInt 7)))))
           url_proposicoes None st0 =
    (Ok (JInt 7), logged st0 [EvGet (mk_request url_proposicoes None 30)]) /\
  safe_get (static_world [] (Response (mk_response 600 [] (Some (JInt 7)))))
           url_proposicoes None st0 =
    (Ok (JInt 7), logged st0 [EvGet (mk_request url_proposicoes None 30)]).
Proof.
  split.
  - apply (safe_get_success _ _ _ _ (mk_response 304 [] (Some (JInt 7))));
      [reflexivity | left; reflexivity | reflexivity].
  - apply (safe_get_success _ _ _ _ (mk_response 600 [] (Some (JInt 7))));
      [reflexivity | right; discriminate | reflexivity].
Defined.

(** X2: a first answer with an error status (400..599) other than 429
    costs one request and ends in the warning naming that status and the
    URL; the call returns [None], whatever the payload holds. *)
Theorem safe_get_status_warning w url params st r :
  server w (trace st) (mk_request url params 30) = Response r ->
  400 <= status_code r < 600 ->
  status_code r <> 429 ->
  safe_get w url params st =
    (Ok JNull, logged st [EvGet (mk_request url params 30);
                          EvWarning (WarnStatus (status_code r) url)]).
Proof. exact (safe_get_error_status w url params st r). Qed.

Lemma safe_get_status_warning_witness :
  safe_get (static_world [] (Response (mk_response 503 [] (Some (JObj [("dados", JArr [])])))))
           url_proposicoes None st0 =
    (Ok JNull, logged st0 [EvGet (mk_request url_proposicoes None 30);
                           EvWarning (WarnStatus 503 url_proposicoes)]).
Proof.
  apply (safe_get_status_warning _ _ _ _
           (mk_response 503 [] (Some (JObj [("dados", JArr [])]))));
    [reflexivity | simpl; lia | discriminate].
Defined.

(** X3: the only way a call raises is the unassigned [resp]: it ends in
    an exception exactly when the first attempt itself raises
    [HTTPError], and the exception is then [UnboundLocalError]. *)
Theorem safe_get_raises_iff w url params st e :
  fst (safe_get w url params st) = Raise e <->
  server w (trace st) (mk_request url params 30) = Raises HTTPError /\
  e = UnboundLocalError.
Proof.
  split.
  - intros H.
    destruct (server w (trace st) (mk_request url params 30)) as [r|e0] eqn:Hs.
    + destruct (safe_get_returns w url params st) as (j & st' & E);
        [rewrite Hs; discriminate|]. rewrite E in H. discriminate.
    + destruct e0;
        try (destruct (safe_get_returns w url params st) as (j & st' & E);
             [rewrite Hs; discriminate|]; rewrite E in H; discriminate).
      split; [reflexivity|].
      unfold safe_get, SESSION_get in H. rewrite Hs in H. simpl in H. congruence.
  - intros [Hs ->]. unfold safe_get, SESSION_get. now rewrite Hs.
Qed.

Lemma safe_get_raises_iff_witness :
  fst (safe_get (world_raising HTTPError) url_proposicoes None st0) =
    Raise UnboundLocalError.
Proof.
  apply (proj2 (safe_get_raises_iff (world_raising HTTPError) url_proposicoes None st0
                                    UnboundLocalError)).
  split; reflexivity.
Defined.

(** X4: after a 429 and its pause (a Retry-After that [int()] reads
    and [time.sleep] takes) the second answer alone decides: a payload
    under a status outside 400..599 is returned; an error status, 429
    again included, gives the warning with that second status and [None].
    There is no third request. *)
Theorem safe_get_retry_outcome w url params st r1 wait r2 :
  let rq := mk_request url params 30 in
  server w (trace st) rq = Response r1 ->
  status_code r1 = 429 ->
  retry_after r1 = Some wait ->
  0 <= wait <= SLEEP_MAX ->
  sleep_refused w (trace st ++ [EvGet rq]) wait = false ->
  server w (trace st ++ [EvGet rq; EvSleep (1000 * wait)]) rq = Response r2 ->
  (forall j, (status_code r2 < 400 \/ 600 <= status_code r2) -> body r2 = Some j ->
     safe_get w url params st =
       (Ok j, logged st [EvGet rq; EvSleep (1000 * wait); EvGet rq])) /\
  (400 <= status_code r2 < 600 ->
     safe_get w url params st =
       (Ok JNull, logged st [EvGet rq; EvSleep (1000 * wait); EvGet rq;
                             EvWarning (WarnStatus (status_code r2) url)])).
Proof.
  intros rq Hs Hc Hr Hw Hok Hs2.
  rewrite (safe_get_retry w url params st r1 wait Hs Hc Hr Hw Hok). fold rq.
  rewrite Hs2. unfold safe_get_finish, raise_for_status, resp_json. split.
  - intros j Hc2 Hb.
    destruct (Z.leb_spec 400 (status_code r2)); destruct (Z.ltb_spec (status_code r2) 600);
      try lia; simpl; now rewrite Hb.
  - intros Hc2.
    destruct (Z.leb_spec 400 (status_code r2)); destruct (Z.ltb_spec (status_code r2) 600);
      try lia.
    cbn [andb res_bind safe_get_except]. unfold bind, st_warning, emit, ret, logged.
    cbn [trace memo_autores memo_partido]. now rewrite <- app_assoc.
Qed.

Lemma safe_get_retry_outcome_witness :
  let rq := mk_request url_proposicoes None 30 in
  safe_get (world_429_then [] (JInt 7)) url_proposicoes None st0 =
    (Ok (JInt 7), logged st0 [EvGet rq; EvSleep (1000 * 2); EvGet rq]) /\
  safe_get (world_always_429 [("Retry-After", "1")]) url_proposicoes None st0 =
    (Ok JNull, logged st0 [EvGet rq; EvSleep (1000 * 1); EvGet rq;
                           EvWarning (WarnStatus 429 url_proposicoes)]).
Proof.
  intros rq. split.
  - destruct (safe_get_retry_outcome (world_429_then [] (JInt 7)) url_proposicoes None
                st0 (resp_429 []) 2 (mk_response 200 [] (Some (JInt 7)))) as [H _];
      [reflexivity | reflexivity | reflexivity | unfold SLEEP_MAX; lia | reflexivity
      | reflexivity |].
    apply H; [left; reflexivity | reflexivity].
  - destruct (safe_get_retry_outcome (world_always_429 [("Retry-After", "1")])
                url_proposicoes None st0 (resp_429 [("Retry-After", "1")]) 1
                (resp_429 [("Retry-After", "1")])) as [_ H];
      [reflexivity | reflexivity | reflexivity | unfold SLEEP_MAX; lia | reflexivity
      | reflexivity |].
    apply H. simpl. lia.
Defined.

(** X5: an answer outside the error range whose payload [resp.json()]
    cannot decode ends in the generic warning, with the decoding error,
    and [None]; it is not requested again. *)
Theorem safe_get_undecodable w url params st r :
  server w (trace st) (mk_request url params 30) = Response r ->
  status_code r < 400 \/ 600 <= status_code r ->
  body r = None ->
  safe_get w url params st =
    (Ok JNull, logged st [EvGet (mk_request url params 30);
                          EvWarning (WarnFalha url JSONDecodeError)]).
Proof.
  intros Hs Hc Hb. unfold safe_get, SESSION_get. rewrite Hs.
  case_status r.
  unfold safe_get_finish, raise_for_status, resp_json.
  destruct (Z.leb_spec 400 (status_code r)); destruct (Z.ltb_spec (status_code r) 600);
    try lia; rewrite Hb; run; now rewrite <- app_assoc.
Qed.

Lemma safe_get_undecodable_witness :
  safe_get (static_world [] (Response (mk_response 200 [] None))) url_proposicoes None st0 =
    (Ok JNull, logged st0 [EvGet (mk_request url_proposicoes None 30);
                           EvWarning (WarnFalha url_proposicoes JSONDecodeError)]).
Proof.
  apply (safe_get_undecodable _ _ _ _ (mk_response 200 [] None));
    [reflexivity | left; reflexivity | reflexivity].
Defined.

(** X6: when the first attempt raises anything but [HTTPError] (a
    timeout, a connection error, ...), the call makes no second attempt:
    it shows the generic warning with that exception and returns
    [None]. *)
Theorem safe_get_network_failure w url params st e :
  server w (trace st) (mk_request url params 30) = Raises e ->
  e <> HTTPError ->
  safe_get w url params st =
    (Ok JNull, logged st [EvGet (mk_request url params 30); EvWarning (WarnFalha url e)]).
Proof.
  exact (safe_get_first_raises w url params st e).
Qed.

Lemma safe_get_network_failure_witness :
  safe_get (world_raising Timeout) url_proposicoes None st0 =
    (Ok JNull, logged st0 [EvGet (mk_request url_proposicoes None 30);
                           EvWarning (WarnFalha url_proposicoes Timeout)]).
Proof.
  apply (safe_get_network_failure (world_raising Timeout));
    [reflexivity | discriminate].
Defined.

Lemma time_sleep_effects w n st :
  exists r t, time_sleep w n st = (r, logged st t) /\
              gets t = [] /\ warnings t = [] /\ (List.length (sleeps t) <= 1)%nat.
Proof.
  destruct (time_sleep_cases w n st) as [[e ->]| ->].
  - eexists; exists []; rewrite logged_nil; repeat split; simpl; lia.
  - eexists; exists [EvSleep (1000 * n)]. repeat split. simpl. lia.
Qed.

Ltac frame_tail :=
  simpl; rewrite ?app_nil_r; simpl;
  repeat match goal with |- _ /\ _ => split end;
  try lia; eauto;
  try (intros ? ?; repeat match goal with
                           | H : _ \/ _ |- _ => destruct H
                           | H : False |- _ => destruct H
                           end; subst; reflexivity);
  try (intros ? ? ?; simpl in *; congruence);
  try (intros ?; simpl in *; congruence).

(** X7: what a call never does.  It leaves both caches as they are and
    only adds events; every request it sends is the same GET (same URL,
    same parameters, timeout 30); it shows at most one warning, and none
    when it returns a value other than [None]; it pauses at most once,
    and only after a first answer with status 429. *)
Theorem safe_get_frame w url params st :
  let rq := mk_request url params 30 in
  exists t,
    snd (safe_get w url params st) = logged st t /\
    (forall rq', In rq' (gets t) -> rq' = rq) /\
    (List.length (warnings t) <= 1)%nat /\
    (forall j, fst (safe_get w url params st) = Ok j -> j <> JNull -> warnings t = []) /\
    (List.length (sleeps t) <= 1)%nat /\
    (sleeps t <> [] ->
     exists r, server w (trace st) rq = Response r /\ status_code r = 429).
Proof.
  intros rq. unfold safe_get, SESSION_get. fold rq.
  change (mk_state (trace st ++ [EvGet rq]) (memo_autores st) (memo_partido st))
    with (logged st [EvGet rq]).
  destruct (server w (trace st) rq) as [r1|e] eqn:Hs.
  - destruct (Z.eqb_spec (status_code r1) 429) as [H429|Hn].
    + destruct (Str.to_int _) as [wait|].
      * destruct (time_sleep_effects w wait (logged st [EvGet rq]))
          as (r & t & Hsl & Hg & Hw & Hl).
        rewrite Hsl. destruct r as [[]|e].
        -- change (mk_state (trace (logged (logged st [EvGet rq]) t) ++ [EvGet rq])
                     (memo_autores (logged (logged st [EvGet rq]) t))
                     (memo_partido (logged (logged st [EvGet rq]) t)))
             with (logged (logged (logged st [EvGet rq]) t) [EvGet rq]).
           rewrite !logged_app.
           match goal with |- context [match server w ?h rq with _ => _ end] =>
             destruct (server w h rq) as [r2|e2] end.
           ++ match goal with |- context [safe_get_finish url r2 ?s] =>
                destruct (safe_get_finish_effects url r2 s) as (j & u & Hf & Hu) end.
              rewrite Hf, logged_app. eexists. split; [reflexivity|].
              rewrite !gets_app, !warnings_app, !sleeps_app, Hg, Hw.
              destruct Hu as [-> | [-> [x ->]]]; frame_tail.
           ++ match goal with |- context [safe_get_except url (Some r1) e2 ?s] =>
                destruct (safe_get_except_bound url r1 e2 s) as [x Hx] end.
              rewrite Hx, logged_app. eexists. split; [reflexivity|].
              rewrite !gets_app, !warnings_app, !sleeps_app, Hg, Hw. frame_tail.
        -- match goal with |- context [safe_get_except url (Some r1) e ?s] =>
             destruct (safe_get_except_bound url r1 e s) as [x Hx] end.
           rewrite Hx, !logged_app. eexists. split; [reflexivity|].
           rewrite !gets_app, !warnings_app, !sleeps_app, Hg, Hw. frame_tail.
      * match goal with |- context [safe_get_except url (Some r1) ValueError ?s] =>
          destruct (safe_get_except_bound url r1 ValueError s) as [x Hx] end.
        rewrite Hx, logged_app. eexists. split; [reflexivity|]. frame_tail.
    + match goal with |- context [safe_get_finish url r1 ?s] =>
        destruct (safe_get_finish_effects url r1 s) as (j & u & Hf & Hu) end.
      rewrite Hf, logged_app. eexists. split; [reflexivity|].
      destruct Hu as [-> | [-> [x ->]]]; frame_tail.
  - destruct e; run;
      try (exists [EvGet rq]; split; [reflexivity|]; frame_tail);
      (eexists [EvGet rq; _]; split; [rewrite <- app_assoc; reflexivity|]; frame_tail).
Qed.

Lemma safe_get_frame_witness :
  exists t,
    snd (safe_get (world_always_429 [("Retry-After", "1")]) url_proposicoes None st0)
      = logged st0 t /\
    (List.length (warnings t) <= 1)%nat /\
    (List.length (sleeps t) <= 1)%nat /\
    (sleeps t <> [] ->
     exists r, server (world_always_429 [("Retry-After", "1")]) (trace st0)
                      (mk_request url_proposicoes None 30) = Response r /\
               status_code r = 429).
Proof.
  destruct (safe_get_frame (world_always_429 [("Retry-After", "1")]) url_proposicoes None st0)
    as (t & H1 & _ & H3 & _ & H5 & H6).
  exists t. repeat split; assumption.
Defined.

(** ** buscar_pls_periodo, edges *)

Lemma py_range_empty a b : b <= a -> py_range a b = [].
Proof.
  intros H. unfold py_range. replace (Z.to_nat (b - a)) with 0%nat by lia. reflexivity.
Qed.

Lemma py_range_cons a b : a < b -> py_range a b = a :: py_range (a + 1) b.
Proof.
  intros H. unfold py_range.
  replace (Z.to_nat (b - a)) with (S (Z.to_nat (b - (a + 1)))) by lia.
  cbn [seq map]. rewrite Z.add_0_r. f_equal.
  rewrite <- seq_shift, map_map. apply map_ext. intros k. lia.
Qed.

(** X8: a period whose last year precedes its first is empty: the
    function returns no record and sends no request, whatever the API
    would answer. *)
Theorem buscar_pls_periodo_periodo_vazio fuel w ano_ini ano_fim st :
  ano_fim < ano_ini ->
  buscar_pls_periodo fuel w ano_ini ano_fim st = Some (Ok [], st).
Proof.
  intros H. unfold buscar_pls_periodo. rewrite py_range_empty by lia. reflexivity.
Qed.

Lemma buscar_pls_periodo_periodo_vazio_witness :
  buscar_pls_periodo 0 (world_raising HTTPError) 2025 2019 st0 = Some (Ok [], st0).
Proof. apply buscar_pls_periodo_periodo_vazio. lia. Defined.

(** X9: the loop has no page limit of its own.  Against an API that
    answers every page of a year, from some page on, with records and a
    "next" link, the paging of that year does not end: no amount of fuel
    yields a result, and neither does a collection that reaches that
    year. *)
Theorem paginas_nao_termina w ano p :
  (forall q, p <= q -> exists js ds, cheia js ds /\ responde w ano q js) ->
  (forall fuel todos st, paginas fuel w ano p todos st = None) /\
  (p = 1 -> forall fuel ano_fim st,
     ano <= ano_fim -> buscar_pls_periodo fuel w ano ano_fim st = None).
Proof.
  intros H.
  assert (L : forall fuel q todos st, p <= q -> paginas fuel w ano q todos st = None).
  { induction fuel as [|fuel IH]; intros q todos st Hq; [reflexivity|].
    destruct (H q Hq) as (js & ds & Hc & Hr).
    rewrite paginas_step, (safe_get_responde w ano q js st Hr).
    pose proof Hc as (ls & P & _).
    rewrite (pagina_truthy _ _ _ P), (pagina_lida_cheia js ds Hc). simpl negb. cbv iota.
    apply IH. lia. }
  split.
  - intros fuel todos st. apply L. lia.
  - intros -> fuel ano_fim st Hle. unfold buscar_pls_periodo.
    rewrite py_range_cons by lia. cbn [anos]. now rewrite L by lia.
Qed.

Lemma paginas_nao_termina_witness :
  buscar_pls_periodo 1000
    (mk_world (fun _ _ => ok_json (pagina_json [pl 1] ["next"])) (fun _ => 0)
              (fun _ _ => false))
    2023 2024 st0 = None.
Proof.
  refine (proj2 (paginas_nao_termina
            (mk_world (fun _ _ => ok_json (pagina_json [pl 1] ["next"])) (fun _ => 0)
              (fun _ _ => false))
            2023 1 _) eq_refl 1000%nat 2024 st0 _); [|lia].
  intros q _. exists (pagina_json [pl 1] ["next"]), [pl 1]. split.
  - exists (map link ["next"]). split; [apply pagina_pagina_json|].
    split; [|discriminate]. apply tem_next_link. now left.
  - intros h. eexists. repeat split.
Defined.

(** X10: a malformed listing page is not degraded to partial data: it
    stops the whole collection with an exception (shown here for the
    first page of the period).  A non-empty payload that is not an object
    raises [AttributeError]; an object whose "dados" is [null] raises
    [TypeError]. *)
Theorem buscar_pls_periodo_payload_invalido fuel w ano_ini ano_fim st js :
  ano_ini <= ano_fim ->
  responde w ano_ini 1 js ->
  Py.truthy js = true ->
  ((forall o, js <> JObj o) ->
   buscar_pls_periodo (S fuel) w ano_ini ano_fim st =
     Some (Raise AttributeError, logged st [EvGet (req_pagina ano_ini 1)])) /\
  ((exists o, js = JObj o /\ Py.lookup "dados" o = Some JNull) ->
   buscar_pls_periodo (S fuel) w ano_ini ano_fim st =
     Some (Raise TypeError, logged st [EvGet (req_pagina ano_ini 1)])).
Proof.
  intros Hle Hr Ht. unfold buscar_pls_periodo.
  rewrite py_range_cons by lia. cbn [anos].
  rewrite paginas_step, (safe_get_responde w ano_ini 1 js st Hr), Ht.
  simpl negb. cbv iota. split.
  - intros Hno. destruct js; try reflexivity. exfalso. now apply (Hno fields).
  - intros (o & -> & Hd). unfold pagina_lida. simpl. rewrite Hd. reflexivity.
Qed.

Lemma buscar_pls_periodo_payload_invalido_witness :
  buscar_pls_periodo 1 (world_paginado [(2023, 1, JArr [pl 1])]) 2023 2024 st0 =
    Some (Raise AttributeError, logged st0 [EvGet (req_pagina 2023 1)]) /\
  buscar_pls_periodo 1 (world_paginado [(2023, 1, JObj [("dados", JNull)])]) 2023 2024 st0 =
    Some (Raise TypeError, logged st0 [EvGet (req_pagina 2023 1)]).
Proof.
  split.
  - apply (proj1 (buscar_pls_periodo_payload_invalido 0
                    (world_paginado [(2023, 1, JArr [pl 1])]) 2023 2024 st0 (JArr [pl 1])
                    ltac:(lia) ltac:(intros h; eexists; repeat split) eq_refl)).
    intros o. discriminate.
  - apply (proj2 (buscar_pls_periodo_payload_invalido 0
                    (world_paginado [(2023, 1, JObj [("dados", JNull)])]) 2023 2024 st0
                    (JObj [("dados", JNull)])
                    ltac:(lia) ltac:(intros h; eexists; repeat split) eq_refl)).
    exists [("dados", JNull)]. split; reflexivity.
Defined.

Lemma paginas_pedidos w ano : forall fuel p todos st r st',
  paginas fuel w ano p todos st = Some (r, st') ->
  exists t,
    st' = logged st t /\
    Forall (fun rq => exists q, p <= q /\ rq = req_pagina ano q) (gets t) /\
    (forall l, r = Ok l -> exists recs, l = (todos ++ recs)%list).
Proof.
  induction fuel as [|fuel IH]; intros p todos st r st' H; [discriminate|].
  rewrite paginas_step in H.
  destruct (safe_get_trace w url_proposicoes (Some (params_pagina ano p)) st)
    as (t & Ht & Hg).
  fold (req_pagina ano p) in Hg.
  assert (Hf : Forall (fun rq => exists q, p <= q /\ rq = req_pagina ano q) (gets t)).
  { destruct Hg as [-> | ->]; repeat constructor; exists p; split; try lia; reflexivity. }
  destruct (safe_get w url_proposicoes (Some (params_pagina ano p)) st) as [[js|e] s1];
    simpl in Ht; subst s1.
  2:{ injection H as <- <-. exists t. repeat split; auto. discriminate. }
  destruct (negb (Py.truthy js)).
  { injection H as <- <-. exists t. repeat split; auto.
    intros l [= <-]. exists []. now rewrite app_nil_r. }
  destruct (pagina_lida js) as [[dados [|]]|e].
  - destruct (IH _ _ _ _ _ H) as (u & -> & Hu & Hl).
    exists (t ++ [EvSleep 150] ++ u)%list. rewrite !logged_app. split; [reflexivity|].
    split.
    + rewrite !gets_app. simpl. apply Forall_app. split; [exact Hf|].
      eapply Forall_impl; [|exact Hu]. intros rq (q & Hq & ->). exists q. split; [lia|reflexivity].
    + intros l Hl'. destruct (Hl l Hl') as (recs & ->).
      exists (dados ++ recs)%list. now rewrite app_assoc.
  - injection H as <- <-. exists t. repeat split; auto.
    intros l [= <-]. now exists dados.
  - injection H as <- <-. exists t. repeat split; auto. discriminate.
Qed.

Lemma anos_pedidos w fuel : forall ys todos st r st',
  anos fuel w ys todos st = Some (r, st') ->
  exists t,
    st' = logged st t /\
    Forall (fun rq => exists y q, In y ys /\ 1 <= q /\ rq = req_pagina y q) (gets t) /\
    (forall l, r = Ok l -> exists recs, l = (todos ++ recs)%list).
Proof.
  induction ys as [|y ys IH]; intros todos st r st' H.
  - injection H as <- <-. exists []. rewrite logged_nil. repeat split; [constructor|].
    intros l [= <-]. exists []. now rewrite app_nil_r.
  - cbn [anos] in H.
    destruct (paginas fuel w y 1 todos st) as [[[l1|e] s1]|] eqn:Hp; [| |discriminate].
    + destruct (paginas_pedidos w y _ _ _ _ _ _ Hp) as (t & -> & Ht & Hl).
      destruct (IH _ _ _ _ H) as (u & -> & Hu & Hl').
      exists (t ++ u)%list. rewrite logged_app. split; [reflexivity|]. split.
      * rewrite gets_app. apply Forall_app. split.
        -- eapply Forall_impl; [|exact Ht]. intros rq (q & Hq & ->).
           exists y, q. repeat split; auto. now left.
        -- eapply Forall_impl; [|exact Hu]. intros rq (y' & q & Hy & Hq & ->).
           exists y', q. repeat split; auto. now right.
      * intros l E. destruct (Hl' l E) as (recs' & ->).
        destruct (Hl l1 eq_refl) as (recs & ->).
        exists (recs ++ recs')%list. now rewrite app_assoc.
    + injection H as <- <-.
      destruct (paginas_pedidos w y _ _ _ _ _ _ Hp) as (t & -> & Ht & _).
      exists t. split; [reflexivity|]. split; [|discriminate].
      eapply Forall_impl; [|exact Ht]. intros rq (q & Hq & ->).
      exists y, q. repeat split; auto. now left.
Qed.

(** X11: whatever the API answers, a collection that ends (normally or
    with an exception) has only added events and left both caches as they
    were, and every request it sent went to the listing endpoint, for a
    year of the period and a page number of at least 1, with the fixed
    parameters (type PL, 100 items, that year's first and last day). *)
Theorem buscar_pls_periodo_pedidos fuel w ano_ini ano_fim st r st' :
  buscar_pls_periodo fuel w ano_ini ano_fim st = Some (r, st') ->
  exists t,
    st' = logged st t /\
    Forall (fun rq => exists y q,
                ano_ini <= y <= ano_fim /\ 1 <= q /\
                rq = mk_request url_proposicoes (Some (params_pagina y q)) 30)
           (gets t).
Proof.
  intros H. unfold buscar_pls_periodo in H.
  destruct (anos_pedidos w fuel _ _ _ _ _ H) as (t & -> & Ht & _).
  exists t. split; [reflexivity|].
  eapply Forall_impl; [|exact Ht]. intros rq (y & q & Hy & Hq & ->).
  exists y, q. apply in_py_range in Hy. repeat split; auto; lia.
Qed.

Lemma buscar_pls_periodo_pedidos_witness :
  exists t,
    logged st0 [EvGet (req_pagina 2023 1); EvSleep 150; EvGet (req_pagina 2023 2);
                EvWarning (WarnStatus 404 url_proposicoes); EvGet (req_pagina 2024 1)]
      = logged st0 t /\
    Forall (fun rq => exists y q,
                2023 <= y <= 2024 /\ 1 <= q /\
                rq = mk_request url_proposicoes (Some (params_pagina y q)) 30)
           (gets t).
Proof.
  apply (buscar_pls_periodo_pedidos 5 (world_paginado rotas_falha) 2023 2024 st0
                                    (Ok [pl 1; pl 2; pl 6])).
  vm_compute. reflexivity.
Defined.

(** ** The two resolvers *)

(** X12: what [autores_por_proposicao] returns on a fetch.  A fetch that
    gave nothing yields the empty list; an object yields its "dados" as
    it is (also [null] or a non-list) and the empty list when the key is
    missing; in both cases the value enters the cache, with the warnings
    the fetch showed.  A non-empty payload that is not an object raises
    [AttributeError], and the cache gets no entry. *)
Theorem autores_por_proposicao_resultado w pid st js st1 :
  memo_hit (clock w (trace st)) pid (memo_autores st) = None ->
  safe_get w (url_autores pid) None st = (Ok js, st1) ->
  let guardado v :=
    mk_state (trace st1)
             ((pid, (clock w (trace st1), (v, warnings (since st st1)))) :: memo_autores st1)
             (memo_partido st1) in
  (Py.truthy js = false ->
   autores_por_proposicao w pid st = (Ok (JArr []), guardado (JArr []))) /\
  (forall o, js = JObj o -> o <> [] ->
   let v := match Py.lookup "dados" o with Some v => v | None => JArr [] end in
   autores_por_proposicao w pid st = (Ok v, guardado v)) /\
  (Py.truthy js = true -> (forall o, js <> JObj o) ->
   autores_por_proposicao w pid st = (Raise AttributeError, st1)).
Proof.
  intros Hm Hg guardado. unfold autores_por_proposicao. rewrite Hm.
  unfold autores_body, bind, lift, ret. rewrite Hg. repeat split.
  - intros F. now rewrite F.
  - intros o -> Ho. destruct o; [contradiction|]. reflexivity.
  - intros T Hno. rewrite T. destruct js; try reflexivity.
    exfalso. now apply (Hno fields).
Qed.

Lemma autores_por_proposicao_resultado_witness :
  fst (autores_por_proposicao (world_raising Timeout) 101 st0) = Ok (JArr []) /\
  fst (autores_por_proposicao
         (static_world [(url_autores 101, ok_json (JObj [("dados", JNull)]))]
                       (Raises Timeout)) 101 st0) = Ok JNull /\
  fst (autores_por_proposicao
         (static_world [(url_autores 101, ok_json (JArr [JInt 1]))] (Raises Timeout))
         101 st0) = Raise AttributeError.
Proof.
  split; [|split].
  - destruct (autores_por_proposicao_resultado (world_raising Timeout) 101 st0 JNull
                (logged st0 [EvGet (mk_request (url_autores 101) None 30);
                             EvWarning (WarnFalha (url_autores 101) Timeout)])
                eq_refl eq_refl) as (H & _ & _).
    now rewrite (H eq_refl).
  - destruct (autores_por_proposicao_resultado
                (static_world [(url_autores 101, ok_json (JObj [("dados", JNull)]))]
                              (Raises Timeout)) 101 st0 (JObj [("dados", JNull)])
                (logged st0 [EvGet (mk_request (url_autores 101) None 30)])
                eq_refl eq_refl) as (_ & H & _).
    rewrite (H [("dados", JNull)] eq_refl); [reflexivity|discriminate].
  - destruct (autores_por_proposicao_resultado
                (static_world [(url_autores 101, ok_json (JArr [JInt 1]))] (Raises Timeout))
                101 st0 (JArr [JInt 1])
                (logged st0 [EvGet (mk_request (url_autores 101) None 30)])
                eq_refl eq_refl) as (_ & _ & H).
    rewrite (H eq_refl); [reflexivity|discriminate].
Defined.

Lemma memo_hit_fresh {V} now pid (v : V) m : memo_hit now pid ((pid, (now, v)) :: m) = Some v.
Proof.
  unfold memo_hit. simpl. rewrite Z.eqb_refl.
  destruct (Z.ltb_spec now (now + TTL)); [reflexivity|unfold TTL in *; lia].
Qed.

(** X13: a resolver asked again right after a fetch answers from its
    cache: the same value, no request and no pause; the warnings the fetch
    showed are shown again, and nothing else happens.  This holds for
    every value the fetch returned, the empty list or empty party of a
    failed fetch included: a failure is remembered like an answer. *)
Theorem resolvers_repetidos w :
  (forall pid st v st1,
      memo_hit (clock w (trace st)) pid (memo_autores st) = None ->
      autores_por_proposicao w pid st = (Ok v, st1) ->
      autores_por_proposicao w pid st1 =
        (Ok v, logged st1 (List.map EvWarning (warnings (since st st1))))) /\
  (forall id st p st1,
      memo_hit (clock w (trace st)) id (memo_partido st) = None ->
      partido_do_deputado w id st = (Ok p, st1) ->
      partido_do_deputado w id st1 =
        (Ok p, logged st1 (List.map EvWarning (warnings (since st st1))))).
Proof.
  split.
  - intros pid st v st1 Hm. unfold autores_por_proposicao at 1. rewrite Hm.
    destruct (autores_body w pid st) as [[v0|e] s1]; [|discriminate].
    intros [= <- <-]. unfold autores_por_proposicao.
    cbn [trace memo_autores]. now rewrite memo_hit_fresh.
  - intros id st p st1 Hm. unfold partido_do_deputado at 1. rewrite Hm.
    destruct (partido_body w id st) as [[v0|e] s1]; [|discriminate].
    intros [= <- <-]. unfold partido_do_deputado.
    cbn [trace memo_partido]. now rewrite memo_hit_fresh.
Qed.

Lemma resolvers_repetidos_witness :
  let w := world_429_then [] (deputado_json (JStr "pt")) in
  let st1 := snd (partido_do_deputado w 55 st0) in
  partido_do_deputado w 55 st1 = (Ok "PT", st1) /\
  let st2 := snd (autores_por_proposicao (world_raising Timeout) 7 st0) in
  autores_por_proposicao (world_raising Timeout) 7 st2 =
    (Ok (JArr []), logged st2 [EvWarning (WarnFalha (url_autores 7) Timeout)]).
Proof.
  intros w st1. split.
  - rewrite <- (logged_nil st1) at 2.
    apply (proj2 (resolvers_repetidos w) 55 st0); vm_compute; reflexivity.
  - intros st2.
    apply (proj1 (resolvers_repetidos (world_raising Timeout)) 7 st0);
      vm_compute; reflexivity.
Defined.

Lemma partido_de_maiusculo js p : partido_de js = Ok p -> maiusculo p.
Proof.
  unfold partido_de. destruct (negb (Py.truthy js)); [intros [= <-]; now exists ""|].
  destruct (Py.get js "dados" (JObj [])) as [d|]; [|discriminate]. simpl.
  destruct (Py.get (Py.or_ d (JObj [])) "ultimoStatus" (JObj [])) as [u|]; [|discriminate].
  simpl.
  destruct (Py.get (Py.or_ u (JObj [])) "siglaPartido" JNull) as [x|]; [|discriminate].
  simpl. destruct (Py.or_ x (JStr "")) as [| | |s| |]; try discriminate.
  intros [= <-]. now exists s.
Qed.

Lemma partido_maiusculo_inv w id st :
  memo_maiusculo st ->
  memo_maiusculo (snd (partido_do_deputado w id st)) /\
  (forall p, fst (partido_do_deputado w id st) = Ok p -> maiusculo p).
Proof.
  unfold memo_maiusculo. intros Hinv. unfold partido_do_deputado, memo_hit.
  assert (Body :
    Forall (fun e => maiusculo (fst (snd (snd e))))
      (memo_partido
         (snd (match partido_body w id st with
               | (Ok v, st1) =>
                   (Ok v, mk_state (trace st1) (memo_autores st1)
                            ((id, (clock w (trace st1), (v, warnings (since st st1))))
                             :: memo_partido st1))
               | (Raise e, st1) => (Raise e, st1)
               end))) /\
    (forall p,
        fst (match partido_body w id st with
             | (Ok v, st1) =>
                 (Ok v, mk_state (trace st1) (memo_autores st1)
                          ((id, (clock w (trace st1), (v, warnings (since st st1))))
                           :: memo_partido st1))
             | (Raise e, st1) => (Raise e, st1)
             end) = Ok p -> maiusculo p)).
  { unfold partido_body, bind, lift.
    destruct (safe_get_trace w (url_deputado id) None st) as (t & Ht & _).
    destruct (safe_get w (url_deputado id) None st) as [[js|e] s1]; simpl in Ht; subst s1.
    - destruct (partido_de js) as [p|e] eqn:Hp; simpl.
      + pose proof (partido_de_maiusculo js p Hp) as Hu.
        split; [constructor; assumption|]. now intros q [= <-].
      + split; [exact Hinv|discriminate].
    - simpl. split; [exact Hinv|discriminate]. }
  destruct (memo_find id (memo_partido st)) as [[stamp [v ws]]|] eqn:Hf; [|exact Body].
  assert (Hv : maiusculo v).
  { clear - Hinv Hf. induction (memo_partido st) as [|[k [s x]] m IH]; [discriminate|].
    inversion Hinv as [|? ? Hx Hm]; subst. simpl in Hf, Hx.
    destruct (id =? k); [|now apply IH].
    injection Hf as _ Hsx. subst x. exact Hx. }
  destruct (clock w (trace st) <? stamp + TTL); [|exact Body].
  split; [exact Hinv|]. now intros p [= <-].
Qed.

(** X15: party codes stay upper-cased texts.  If every code in the cache
    is one (an empty cache qualifies), then so is whatever
    [partido_do_deputado] returns, from the cache or from the API, and so
    is every code in the cache afterwards. *)
Theorem partido_do_deputado_maiusculas w id st :
  memo_maiusculo st ->
  memo_maiusculo (snd (partido_do_deputado w id st)) /\
  (forall p, fst (partido_do_deputado w id st) = Ok p -> maiusculo p).
Proof. exact (partido_maiusculo_inv w id st). Qed.

Lemma partido_do_deputado_maiusculas_witness :
  fst (partido_do_deputado
         (static_world [(url_deputado 55, ok_json (deputado_json (JStr "PCdoB")))]
                       (Raises Timeout)) 55 st0) = Ok "PCDOB" /\
  maiusculo "PCDOB".
Proof.
  split; [reflexivity|].
  apply (proj2 (partido_do_deputado_maiusculas
                  (static_world [(url_deputado 55, ok_json (deputado_json (JStr "PCdoB")))]
                                (Raises Timeout)) 55 st0 (Forall_nil _))).
  reflexivity.
Defined.

(** X16: a falsy value at any level of the legislator's payload, not only
    a missing key or [null] but also 0, [false], an empty string, list or
    object, reads as "no party": the result is the empty string. *)
Theorem partido_de_falsy o :
  (Py.truthy (campo o "dados") = false -> partido_de (JObj o) = Ok "") /\
  (forall d, campo o "dados" = JObj d ->
             Py.truthy (campo d "ultimoStatus") = false -> partido_de (JObj o) = Ok "") /\
  (forall d u, campo o "dados" = JObj d -> campo d "ultimoStatus" = JObj u ->
               Py.truthy (campo u "siglaPartido") = false -> partido_de (JObj o) = Ok "").
Proof.
  assert (G : forall x k, Py.get (JObj x) k (JObj []) =
                Ok (match Py.lookup k x with Some v => v | None => JObj [] end))
    by reflexivity.
  assert (F : forall x k, Py.truthy (campo x k) = false ->
                Py.or_ (match Py.lookup k x with Some v => v | None => JObj [] end) (JObj [])
                = JObj []).
  { intros x k. unfold campo, Py.or_. destruct (Py.lookup k x); [|reflexivity].
    now intros ->. }
  assert (K : forall x k y, campo x k = JObj y ->
                Py.or_ (match Py.lookup k x with Some v => v | None => JObj [] end) (JObj [])
                = JObj y).
  { intros x k y. unfold campo. destruct (Py.lookup k x); [|discriminate].
    intros ->. apply or_empty_obj. }
  unfold partido_de. destruct (negb (Py.truthy (JObj o))); [repeat split; reflexivity|].
  rewrite G. cbn [res_bind]. repeat split.
  - intros H. rewrite (F _ _ H). reflexivity.
  - intros d Hd H. rewrite (K _ _ _ Hd), G. cbn [res_bind]. rewrite (F _ _ H). reflexivity.
  - intros d u Hd Hu H. rewrite (K _ _ _ Hd), G. cbn [res_bind].
    rewrite (K _ _ _ Hu). unfold campo in H. simpl.
    destruct (Py.lookup "siglaPartido" u) as [x|]; [|reflexivity].
    unfold Py.or_. rewrite H. reflexivity.
Qed.

Lemma partido_de_falsy_witness :
  partido_de (JObj [("dados", JInt 0)]) = Ok "" /\
  partido_de (JObj [("dados", JObj [("ultimoStatus", JArr [])])]) = Ok "" /\
  partido_de (deputado_json (JBool false)) = Ok "".
Proof.
  split; [|split].
  - apply (proj1 (partido_de_falsy [("dados", JInt 0)])). reflexivity.
  - apply (proj1 (proj2 (partido_de_falsy [("dados", JObj [("ultimoStatus", JArr [])])]))
             [("ultimoStatus", JArr [])]); reflexivity.
  - apply (proj2 (proj2 (partido_de_falsy _))
             [("id", JInt 55); ("ultimoStatus", JObj [("siglaPartido", JBool false)])]
             [("siglaPartido", JBool false)]); reflexivity.
Defined.

(** X17: a truthy value of the wrong kind is not tolerated.  A non-empty
    payload that is not an object, a truthy "dados" or "ultimoStatus"
    that is not an object, and a truthy "siglaPartido" that is not a
    string each raise [AttributeError]; the caller gets no party. *)
Theorem partido_de_invalido :
  (forall js, Py.truthy js = true -> (forall o, js <> JObj o) ->
              partido_de js = Raise AttributeError) /\
  (forall o x, o <> [] -> campo o "dados" = x -> Py.truthy x = true ->
               (forall d, x <> JObj d) -> partido_de (JObj o) = Raise AttributeError) /\
  (forall o d x, o <> [] -> campo o "dados" = JObj d -> campo d "ultimoStatus" = x ->
                 Py.truthy x = true -> (forall u, x <> JObj u) ->
                 partido_de (JObj o) = Raise AttributeError) /\
  (forall o d u x, o <> [] -> campo o "dados" = JObj d -> campo d "ultimoStatus" = JObj u ->
                   campo u "siglaPartido" = x -> Py.truthy x = true ->
                   (forall s, x <> JStr s) ->
                   partido_de (JObj o) = Raise AttributeError).
Proof.
  assert (T : forall o, o <> [] -> negb (Py.truthy (JObj o)) = false)
    by (intros [|? ?] H; [contradiction|reflexivity]).
  assert (C : forall x k v, campo x k = v -> Py.truthy v = true ->
                match Py.lookup k x with Some y => y | None => JObj [] end = v).
  { intros x k v. unfold campo. destruct (Py.lookup k x); [auto|].
    intros <-. discriminate. }
  assert (C' : forall x k v, campo x k = v -> Py.truthy v = true ->
                match Py.lookup k x with Some y => y | None => JNull end = v)
    by (intros x k v H _; exact H).
  assert (O : forall v, Py.truthy v = true -> forall e, Py.or_ v e = v)
    by (intros v H e; unfold Py.or_; now rewrite H).
  repeat split.
  - intros js H Hno. unfold partido_de. rewrite H. simpl.
    destruct js; try reflexivity. exfalso. now apply (Hno fields).
  - intros o x Ho Hx Hx' Hno. unfold partido_de. rewrite (T o Ho). cbn [Py.get res_bind].
    rewrite (C _ _ _ Hx Hx'), (O x Hx').
    destruct x; try reflexivity. exfalso. now apply (Hno fields).
  - intros o d x Ho Hd Hx Hx' Hno. unfold partido_de. rewrite (T o Ho).
    cbn [Py.get res_bind].
    assert (Hd' := Hd). unfold campo in Hd'.
    destruct (Py.lookup "dados" o) as [y|]; [|discriminate]. subst y.
    rewrite or_empty_obj. cbn [Py.get res_bind].
    rewrite (C _ _ _ Hx Hx'), (O x Hx').
    destruct x; try reflexivity. exfalso. now apply (Hno fields).
  - intros o d u x Ho Hd Hu Hx Hx' Hno. unfold partido_de. rewrite (T o Ho).
    cbn [Py.get res_bind].
    assert (Hd' := Hd). unfold campo in Hd'.
    destruct (Py.lookup "dados" o) as [y|]; [|discriminate]. subst y.
    rewrite or_empty_obj. cbn [Py.get res_bind].
    assert (Hu' := Hu). unfold campo in Hu'.
    destruct (Py.lookup "ultimoStatus" d) as [y|]; [|discriminate]. subst y.
    rewrite or_empty_obj. cbn [Py.get res_bind].
    rewrite (C' _ _ _ Hx Hx'), (O x Hx').
    destruct x; try reflexivity. exfalso. now apply (Hno s).
Qed.

Lemma partido_de_invalido_witness :
  partido_de (JArr [JInt 1]) = Raise AttributeError /\
  partido_de (JObj [("dados", JStr "x")]) = Raise AttributeError /\
  partido_de (JObj [("dados", JObj [("ultimoStatus", JInt 3)])]) = Raise AttributeError /\
  partido_de (deputado_json (JInt 13)) = Raise AttributeError.
Proof.
  destruct partido_de_invalido as (H1 & H2 & H3 & H4).
  split; [|split; [|split]].
  - apply H1; [reflexivity | discriminate].
  - apply (H2 _ (JStr "x")); [discriminate | reflexivity | reflexivity | discriminate].
  - apply (H3 _ [("ultimoStatus", JInt 3)] (JInt 3));
      [discriminate | reflexivity | reflexivity | reflexivity | discriminate].
  - apply (H4 _ [("id", JInt 55); ("ultimoStatus", JObj [("siglaPartido", JInt 13)])]
              [("siglaPartido", JInt 13)] (JInt 13));
      [discriminate | reflexivity | reflexivity | reflexivity | reflexivity | discriminate].
Defined.

(** ** contagem_por_partido, result and edges *)

Lemma insert_desc_sorted x l : decrescente l -> decrescente (insert_desc x l).
Proof.
  unfold decrescente. induction l as [|y r IH]; intros H; simpl.
  - repeat constructor.
  - inversion H as [|? ? Hr Hy]; subst.
    destruct (Z.leb_spec (snd y) (snd x)).
    + constructor; [exact H|]. constructor; [assumption|].
      eapply Forall_impl; [|exact Hy]. simpl. intros; lia.
    + constructor; [now apply IH|].
      apply (Permutation_Forall (x := x :: r)); [symmetry; apply insert_desc_perm|].
      constructor; [lia|exact Hy].
Qed.

Lemma sort_values_desc_sorted l : decrescente (sort_values_desc l).
Proof.
  induction l as [|x l IH]; simpl; [constructor|]. now apply insert_desc_sorted.
Qed.

Lemma contagem_linhas w df_id usar_todos st :
  contagem_por_partido w df_id usar_todos st =
    match conta_pls w 1 (amostra (dropna df_id) usar_todos) [] st with
    | (Ok l, s1) => (Ok (linhas l), s1)
    | (Raise e, s1) => (Raise e, s1)
    end.
Proof.
  unfold contagem_por_partido, bind, ret.
  destruct (conta_pls w 1 _ [] st) as [[[|p l]|e] s1]; reflexivity.
Qed.

(** X18: the rows [contagem_por_partido] returns are in descending order
    of their counts: no row has a larger count than a row before it. *)
Theorem contagem_por_partido_ordenada w df_id usar_todos st c :
  fst (contagem_por_partido w df_id usar_todos st) = Ok c -> decrescente c.
Proof.
  rewrite contagem_linhas.
  destruct (conta_pls w 1 _ [] st) as [[l|e] s1]; [|discriminate].
  intros [= <-]. unfold linhas. destruct l; [constructor|apply sort_values_desc_sorted].
Qed.

Lemma contagem_por_partido_ordenada_witness :
  decrescente [("PSDB", 2); ("PT", 1)].
Proof.
  apply (contagem_por_partido_ordenada world_dois_partidos [Some 1; Some 2] false st0).
  vm_compute. reflexivity.
Defined.

(** X19: a frame without identifiers (no row, or only missing values in
    the "id" column) gives the empty result at once: no request, no
    pause, nothing cached. *)
Theorem contagem_por_partido_vazia w df_id usar_todos st :
  Forall (fun cell => cell = None) df_id ->
  contagem_por_partido w df_id usar_todos st = (Ok [], st).
Proof.
  intros H. assert (E : dropna df_id = []).
  { induction H as [|x l Hx _ IH]; [reflexivity|]. subst x. exact IH. }
  unfold contagem_por_partido. rewrite E. destruct usar_todos; reflexivity.
Qed.

Lemma contagem_por_partido_vazia_witness :
  contagem_por_partido (world_raising HTTPError) [None; None] false st0 = (Ok [], st0).
Proof. apply contagem_por_partido_vazia. repeat constructor. Defined.

Lemma firstn_all_le {A} n (l : list A) : (List.length l <= n)%nat -> firstn n l = l.
Proof. intros H. now apply firstn_all2. Qed.

(** X25: with at most 800 identifiers the switch [usar_todos] changes
    nothing: same result, same requests, same final state. *)
Theorem contagem_por_partido_ate_800 w df_id st :
  (List.length (dropna df_id) <= 800)%nat ->
  contagem_por_partido w df_id false st = contagem_por_partido w df_id true st.
Proof.
  intros H. unfold contagem_por_partido, amostra. simpl negb. cbv iota.
  now rewrite firstn_all_le.
Qed.

Lemma contagem_por_partido_ate_800_witness :
  contagem_por_partido (world_cenario true) [Some 101; Some 102] false st0 =
  contagem_por_partido (world_cenario true) [Some 101; Some 102] true st0.
Proof. apply contagem_por_partido_ate_800. simpl. lia. Defined.

(** X22: authors that are not parliamentary cost nothing: a list of such
    references leaves the tally and the state as they are (no lookup of
    any legislator, even when the reference carries an idDeputado). *)
Theorem conta_autores_nao_parlamentares w autores ps st :
  Forall (fun a => is_parlamentar a = Ok false) autores ->
  conta_autores w autores ps st = (Ok ps, st).
Proof.
  induction 1 as [|a r Ha _ IH]; [reflexivity|].
  cbn [conta_autores]. unfold bind. now rewrite (conta_autor_skip_tipo w a ps st Ha).
Qed.

Lemma conta_autores_nao_parlamentares_witness :
  conta_autores (world_raising HTTPError)
    [JObj [("tipoAutor", JStr "Orgao do Poder Executivo"); ("idDeputado", JInt 77)];
     JObj [("idDeputado", JInt 78)]] ["PT"] st0 = (Ok ["PT"], st0).
Proof. apply conta_autores_nao_parlamentares. repeat constructor. Defined.

(** X23: the legislator's identifier goes through [int()].  A
    non-empty text that [int()] reads as n (the text "0" included, which
    unlike the number 0 is truthy; white space around the digits and
    digits of any script are read) leads to the lookup of legislator n; a
    text it rejects raises [ValueError] out of the loop body, with the
    state untouched: the reference is not skipped. *)
Theorem conta_autor_id_texto w a s ps st :
  is_parlamentar a = Ok true ->
  id_deputado_de a = Ok (JStr s) ->
  s <> "" ->
  (forall n p st1,
      Str.to_int s = Some n ->
      partido_do_deputado w n st = (Ok p, st1) ->
      conta_autor w a ps st =
        (Ok (if Str.is_empty p then ps else (ps ++ [p])%list), st1)) /\
  (Str.to_int s = None -> conta_autor w a ps st = (Raise ValueError, st)).
Proof.
  intros Hp Hi Hs. split.
  - intros n p st1 Hn Hl.
    apply (conta_autor_lookup w a (JStr s) n); auto.
    + destruct s; [contradiction|reflexivity].
    + simpl. now rewrite Hn.
  - intros Hn. unfold conta_autor, bind, lift. rewrite Hp, Hi.
    destruct s; [contradiction|]. cbn [Py.truthy Str.is_empty negb Py.int].
    now rewrite Hn.
Qed.

Lemma conta_autor_id_texto_witness :
  let a s := JObj [("tipoAutor", JStr "Parlamentar"); ("idDeputado", JStr s)] in
  fst (conta_autor (world_cenario false) (a " 55 ") [] st0) = Ok ["PT"] /\
  fst (conta_autor (world_cenario false) (a "٥٥") [] st0) = Ok ["PT"] /\
  conta_autor (world_cenario false) (a "55a") [] st0 = (Raise ValueError, st0).
Proof.
  intros a. split; [|split].
  - destruct (conta_autor_id_texto (world_cenario false) (a " 55 ") " 55 " [] st0)
      as [H _]; [reflexivity | reflexivity | discriminate |].
    rewrite (H 55 "PT" (snd (partido_do_deputado (world_cenario false) 55 st0)));
      reflexivity.
  - destruct (conta_autor_id_texto (world_cenario false) (a "٥٥") "٥٥" [] st0)
      as [H _]; [reflexivity | reflexivity | discriminate |].
    rewrite (H 55 "PT" (snd (partido_do_deputado (world_cenario false) 55 st0)));
      reflexivity.
  - destruct (conta_autor_id_texto (world_cenario false) (a "55a") "55a" [] st0)
      as [_ H]; [reflexivity | reflexivity | discriminate |].
    apply H. reflexivity.
Defined.

(** *** What the tally holds *)


Section TallyInvariant.

Variable w : world.
(** an invariant of the party cache and a property of party codes *)
Variable I : memo (string * list warning) -> Prop.
Variable P : string -> Prop.

Hypothesis partido_I : forall id st,
  I (memo_partido st) ->
  I (memo_partido (snd (partido_do_deputado w id st))) /\
  (forall p, fst (partido_do_deputado w id st) = Ok p -> p <> "" -> P p).




End TallyInvariant.





(** *** Pacing *)

Lemma pausas_400_app t u : pausas_400 (t ++ u) = (pausas_400 t + pausas_400 u)%nat.
Proof. unfold pausas_400. now rewrite sleeps_app, filter_app, length_app. Qed.

(** [t] holds no pause of 0.4 s *)
Lemma pausas_400_zero t : Forall (fun ms => ms <> 400) (sleeps t) -> pausas_400 t = 0%nat.
Proof.
  unfold pausas_400. induction (sleeps t) as [|ms l IH]; intros H; [reflexivity|].
  inversion H as [|? ? Hms Hl]; subst. simpl.
  destruct (Z.eqb_spec ms 400); [contradiction|now apply IH].
Qed.

Lemma safe_get_sem_pausa w url params st :
  exists t, snd (safe_get w url params st) = logged st t /\ pausas_400 t = 0%nat.
Proof.
  unfold safe_get, SESSION_get.
  set (rq := mk_request url params 30).
  change (mk_state (trace st ++ [EvGet rq]) (memo_autores st) (memo_partido st))
    with (logged st [EvGet rq]).
  destruct (server w (trace st) rq) as [r1|e].
  - destruct (status_code r1 =? 429).
    + destruct (Str.to_int _) as [wait|].
      * assert (Hsl : exists r t,
                  time_sleep w wait (logged st [EvGet rq]) = (r, logged (logged st [EvGet rq]) t)
                  /\ pausas_400 t = 0%nat).
        { destruct (time_sleep_cases w wait (logged st [EvGet rq])) as [[e ->]| ->].
          - eexists; exists []; rewrite logged_nil; split; reflexivity.
          - eexists; exists [EvSleep (1000 * wait)]. split; [reflexivity|].
            apply pausas_400_zero. unfold sleeps. cbn [flat_map app].
            constructor; [lia|constructor]. }
        destruct Hsl as (r & t & Hsl & Hz). rewrite Hsl. destruct r as [[]|e].
        -- change (mk_state (trace (logged (logged st [EvGet rq]) t) ++ [EvGet rq])
                     (memo_autores (logged (logged st [EvGet rq]) t))
                     (memo_partido (logged (logged st [EvGet rq]) t)))
             with (logged (logged (logged st [EvGet rq]) t) [EvGet rq]).
           rewrite !logged_app.
           match goal with |- context [match server w ?h rq with _ => _ end] =>
             destruct (server w h rq) as [r2|e2] end.
           ++ by_finish. rewrite logged_app. eexists. split; [reflexivity|].
              rewrite !pausas_400_app, Hz. unfold pausas_400 at 1 2. simpl.
              unfold pausas_400.
              match goal with H : sleeps _ = [] |- _ => now rewrite H end.
           ++ by_except. rewrite logged_app. eexists. split; [reflexivity|].
              rewrite !pausas_400_app, Hz. reflexivity.
        -- by_except. rewrite !logged_app. eexists. split; [reflexivity|].
           rewrite !pausas_400_app, Hz. reflexivity.
      * by_except. rewrite logged_app. eexists. split; reflexivity.
    + by_finish. rewrite logged_app. eexists. split; [reflexivity|].
      rewrite pausas_400_app. unfold pausas_400. simpl.
      match goal with H : sleeps _ = [] |- _ => now rewrite H end.
  - destruct e; run;
      try (exists [EvGet rq]; split; reflexivity);
      (eexists [EvGet rq; _]; split; [rewrite <- app_assoc; reflexivity|reflexivity]).
Qed.

Lemma sem_pausa_refl st : sem_pausa st st.
Proof. exists []. split; [now rewrite app_nil_r|reflexivity]. Qed.

Lemma sem_pausa_trans s1 s2 s3 : sem_pausa s1 s2 -> sem_pausa s2 s3 -> sem_pausa s1 s3.
Proof.
  intros (t & T & Z1) (u & U & Z2). exists (t ++ u)%list. split.
  - now rewrite U, T, app_assoc.
  - now rewrite pausas_400_app, Z1, Z2.
Qed.

Lemma sem_pausa_safe_get w url params st : sem_pausa st (snd (safe_get w url params st)).
Proof.
  destruct (safe_get_sem_pausa w url params st) as (t & -> & Hz). now exists t.
Qed.

Lemma sem_pausa_warnings st ws : sem_pausa st (logged st (List.map EvWarning ws)).
Proof.
  exists (List.map EvWarning ws). split; [reflexivity|].
  unfold pausas_400. now rewrite sleeps_warnings.
Qed.

Lemma sem_pausa_partido w n st : sem_pausa st (snd (partido_do_deputado w n st)).
Proof.
  unfold partido_do_deputado.
  destruct (memo_hit _ n (memo_partido st)) as [[v ws]|]; [apply sem_pausa_warnings|].
  unfold partido_body, bind, lift.
  pose proof (sem_pausa_safe_get w (url_deputado n) None st) as H.
  destruct (safe_get w (url_deputado n) None st) as [[js|e] s1]; simpl in H; [|exact H].
  destruct (partido_de js); exact H.
Qed.

Lemma sem_pausa_autores w pid st : sem_pausa st (snd (autores_por_proposicao w pid st)).
Proof.
  unfold autores_por_proposicao.
  destruct (memo_hit _ pid (memo_autores st)) as [[v ws]|]; [apply sem_pausa_warnings|].
  unfold autores_body, bind, lift, ret.
  pose proof (sem_pausa_safe_get w (url_autores pid) None st) as H.
  destruct (safe_get w (url_autores pid) None st) as [[js|e] s1]; simpl in H; [|exact H].
  destruct (negb (Py.truthy js)); [exact H|].
  destruct (Py.get js "dados" (JArr [])); exact H.
Qed.

Lemma sem_pausa_conta_autor w a ps st : sem_pausa st (snd (conta_autor w a ps st)).
Proof.
  unfold conta_autor, bind, lift, ret.
  destruct (is_parlamentar a) as [[|]|e]; try apply sem_pausa_refl.
  destruct (id_deputado_de a) as [v|e]; try apply sem_pausa_refl.
  destruct (Py.truthy v); try apply sem_pausa_refl.
  destruct (Py.int v) as [n|e]; try apply sem_pausa_refl.
  pose proof (sem_pausa_partido w n st) as H.
  destruct (partido_do_deputado w n st) as [[p|e] s1]; simpl in H; [|exact H].
  destruct (negb (Str.is_empty p)); exact H.
Qed.

Lemma sem_pausa_conta_autores w autores : forall ps st,
  sem_pausa st (snd (conta_autores w autores ps st)).
Proof.
  induction autores as [|a r IH]; intros ps st; [apply sem_pausa_refl|].
  cbn [conta_autores]. unfold bind.
  pose proof (sem_pausa_conta_autor w a ps st) as H.
  destruct (conta_autor w a ps st) as [[l|e] s1]; simpl in H; [|exact H].
  exact (sem_pausa_trans _ _ _ H (IH l s1)).
Qed.

Lemma pausas_entre_zero i : pausas_entre i 0 = [].
Proof. unfold pausas_entre. rewrite py_range_empty by (simpl; lia). reflexivity. Qed.

Lemma pausas_entre_cons i n :
  pausas_entre i (S n) =
    ((if i mod 25 =? 0 then [i] else []) ++ pausas_entre (i + 1) n)%list.
Proof.
  unfold pausas_entre. rewrite py_range_cons by lia.
  replace (i + Z.of_nat (S n)) with (i + 1 + Z.of_nat n) by lia.
  cbn [filter]. destruct (i mod 25 =? 0); reflexivity.
Qed.

Lemma py_range_snoc a b : a <= b -> py_range a (b + 1) = (py_range a b ++ [b])%list.
Proof.
  intros H. unfold py_range.
  replace (Z.to_nat (b + 1 - a)) with (S (Z.to_nat (b - a))) by lia.
  rewrite seq_S, map_app. cbn [map Nat.add]. f_equal. f_equal. lia.
Qed.

Lemma pausas_entre_div n :
  Z.of_nat (List.length (pausas_entre 1 n)) = Z.of_nat n / 25.
Proof.
  induction n as [|n IH]; [reflexivity|].
  unfold pausas_entre in *.
  replace (1 + Z.of_nat (S n)) with (1 + Z.of_nat n + 1) by lia.
  rewrite py_range_snoc by lia. rewrite filter_app, length_app, Nat2Z.inj_add, IH.
  cbn [filter].
  destruct (Z.eqb_spec ((1 + Z.of_nat n) mod 25) 0) as [E|E]; cbn [List.length];
    clear IH; rewrite (Nat2Z.inj_succ n); revert E;
    generalize (Z.of_nat n) (Nat2Z.is_nonneg n); intros z Hz E;
    simpl Z.of_nat; unfold Z.succ; replace (z + 1) with (1 + z) by lia;
    Z.div_mod_to_equations; lia.
Qed.

Lemma conta_pls_pausas w ids : forall i ps st,
  exists t,
    trace (snd (conta_pls w i ids ps st)) = (trace st ++ t)%list /\
    (pausas_400 t <= List.length (pausas_entre i (List.length ids)))%nat /\
    (forall l, fst (conta_pls w i ids ps st) = Ok l ->
               pausas_400 t = List.length (pausas_entre i (List.length ids))).
Proof.
  induction ids as [|pid r IH]; intros i ps st.
  - exists []. cbn [conta_pls List.length]. rewrite pausas_entre_zero, app_nil_r.
    repeat split; auto.
  - cbn [conta_pls List.length]. rewrite pausas_entre_cons, length_app. unfold bind, lift.
    set (k := if i mod 25 =? 0 then [i] else []).
    assert (Hp : exists t0, (if i mod 25 =? 0 then time_sleep_ms 400 else ret tt) st
                            = (Ok tt, logged st t0) /\ pausas_400 t0 = List.length k).
    { unfold k. destruct (i mod 25 =? 0).
      - exists [EvSleep 400]. split; reflexivity.
      - exists []. rewrite logged_nil. split; reflexivity. }
    destruct Hp as (t0 & -> & H0).
    destruct (sem_pausa_autores w pid (logged st t0)) as (t1 & T1 & Z1).
    destruct (autores_por_proposicao w pid (logged st t0)) as [[au|e] s1]; simpl in T1.
    2:{ exists (t0 ++ t1)%list. cbn [snd fst]. rewrite T1. cbn [logged trace].
        rewrite app_assoc, pausas_400_app, H0, Z1.
        repeat split; [lia|discriminate]. }
    destruct (Py.iter au) as [itens|e].
    2:{ exists (t0 ++ t1)%list. cbn [snd fst]. rewrite T1. cbn [logged trace].
        rewrite app_assoc, pausas_400_app, H0, Z1.
        repeat split; [lia|discriminate]. }
    destruct (sem_pausa_conta_autores w itens ps s1) as (t2 & T2 & Z2).
    destruct (conta_autores w itens ps s1) as [[l|e] s2]; simpl in T2.
    2:{ exists (t0 ++ t1 ++ t2)%list. cbn [snd fst]. rewrite T2, T1. cbn [logged trace].
        rewrite !app_assoc, !pausas_400_app, H0, Z1, Z2.
        repeat split; [lia|discriminate]. }
    destruct (IH (i + 1) l s2) as (t3 & T3 & L3 & O3).
    exists (t0 ++ t1 ++ t2 ++ t3)%list.
    split; [rewrite T3, T2, T1; cbn [logged trace]; now rewrite !app_assoc|].
    rewrite !pausas_400_app, H0, Z1, Z2. split; [lia|].
    intros l' Hl. rewrite (O3 l' Hl). lia.
Qed.

(** every call begins with its request *)
Lemma safe_get_first w url params st :
  exists t', snd (safe_get w url params st) =
             logged st (EvGet (mk_request url params 30) :: t').
Proof.
  unfold safe_get, SESSION_get.
  set (rq := mk_request url params 30).
  change (mk_state (trace st ++ [EvGet rq]) (memo_autores st) (memo_partido st))
    with (logged st [EvGet rq]).
  assert (F : forall r s, exists u, snd (safe_get_finish url r s) = logged s u).
  { intros r s. destruct (safe_get_finish_returns url r s) as (j & t & H & _).
    rewrite H. now exists t. }
  assert (X : forall r e s, exists u, snd (safe_get_except url (Some r) e s) = logged s u).
  { intros r e s. destruct (safe_get_except_bound url r e s) as [x Hx].
    rewrite Hx. now exists [EvWarning x]. }
  destruct (server w (trace st) rq) as [r1|e].
  - destruct (status_code r1 =? 429).
    + destruct (Str.to_int _) as [wait|].
      * destruct (time_sleep_cases w wait (logged st [EvGet rq])) as [[e ->]| ->].
        -- destruct (X r1 e (logged st [EvGet rq])) as [u ->].
           rewrite logged_app. now exists u.
        -- change (mk_state
                     (trace (logged (logged st [EvGet rq]) [EvSleep (1000 * wait)]) ++ [EvGet rq])
                     (memo_autores (logged (logged st [EvGet rq]) [EvSleep (1000 * wait)]))
                     (memo_partido (logged (logged st [EvGet rq]) [EvSleep (1000 * wait)])))
             with (logged (logged (logged st [EvGet rq]) [EvSleep (1000 * wait)]) [EvGet rq]).
           rewrite !logged_app.
           match goal with |- context [match server w ?h rq with _ => _ end] =>
             destruct (server w h rq) as [r2|e2] end.
           ++ match goal with |- context [safe_get_finish url r2 ?s] =>
                destruct (F r2 s) as [u ->] end.
              rewrite logged_app. eexists. reflexivity.
           ++ match goal with |- context [safe_get_except url (Some r1) e2 ?s] =>
                destruct (X r1 e2 s) as [u ->] end.
              rewrite logged_app. eexists. reflexivity.
      * destruct (X r1 ValueError (logged st [EvGet rq])) as [u ->].
        rewrite logged_app. now exists u.
    + destruct (F r1 (logged st [EvGet rq])) as [u ->]. rewrite logged_app. now exists u.
  - destruct e; run;
      try (exists []; reflexivity);
      (eexists [_]; rewrite <- app_assoc; reflexivity).
Qed.

Lemma pausas_400_get rq t : pausas_400 (EvGet rq :: t) = pausas_400 t.
Proof. reflexivity. Qed.

(** the events of a bill's authors, fetched from the API *)
Lemma autores_por_proposicao_segmento w pid st :
  memo_find pid (memo_autores st) = None ->
  exists s',
    passo st (snd (autores_por_proposicao w pid st))
          (EvGet (mk_request (url_autores pid) None 30) :: s') [pid] /\
    pausas_400 s' = 0%nat /\
    Forall (fun u => u = url_autores pid) (pedidos_autores s').
Proof.
  intros Hm.
  destruct (autores_por_proposicao_passo w pid st Hm) as (t & k & P & Hk & G).
  destruct (sem_pausa_autores w pid st) as (t1 & T1 & Z1).
  assert (Hf : exists s', trace (snd (autores_por_proposicao w pid st)) =
                          (trace st ++ EvGet (mk_request (url_autores pid) None 30) :: s')%list).
  { unfold autores_por_proposicao, memo_hit. rewrite Hm.
    unfold autores_body, bind, lift, ret.
    destruct (safe_get_first w (url_autores pid) None st) as (s' & Hs').
    exists s'.
    destruct (safe_get w (url_autores pid) None st) as [[js|e] s1]; simpl in Hs'; subst s1;
      [|reflexivity].
    destruct (negb (Py.truthy js)); [reflexivity|].
    destruct (Py.get js "dados" (JArr [])); reflexivity. }
  destruct Hf as (s' & Hs'). exists s'.
  pose proof P as [T _].
  assert (Et : t = EvGet (mk_request (url_autores pid) None 30) :: s').
  { rewrite T in Hs'. now apply app_inv_head in Hs'. }
  assert (Et1 : t1 = t).
  { rewrite T in T1. apply app_inv_head in T1. now symmetry. }
  subst t1. subst t. split; [exact P|]. split; [exact Z1|].
  unfold pedidos_autores in G. cbn [gets flat_map app map req_url filter] in G.
  fold (gets s') in G. rewrite is_url_autores_autores in G.
  fold (pedidos_autores s') in G.
  destruct Hk as [-> | ->]; cbn [repeat] in G; injection G as G; rewrite G;
    repeat constructor.
Qed.

(** the events of the inner loop: no request for authors, no pause *)
Lemma conta_autores_segmento w autores ps st :
  exists t,
    passo st (snd (conta_autores w autores ps st)) t [] /\
    pedidos_autores t = [] /\ pausas_400 t = 0%nat.
Proof.
  destruct (conta_autores_passo w autores ps st) as (t & P & G).
  destruct (sem_pausa_conta_autores w autores ps st) as (t1 & T1 & Z1).
  exists t. split; [exact P|]. split; [exact G|].
  destruct P as [T _]. rewrite T in T1. apply app_inv_head in T1. now subst t1.
Qed.

Lemma eventos_pl_app pid s' t :
  pausas_400 s' = 0%nat ->
  Forall (fun u => u = url_autores pid) (pedidos_autores s') ->
  pedidos_autores t = [] -> pausas_400 t = 0%nat ->
  eventos_pl pid (EvGet (mk_request (url_autores pid) None 30) :: s' ++ t)%list.
Proof.
  intros Z F G Zt. exists (s' ++ t)%list. split; [reflexivity|]. split.
  - now rewrite pausas_400_app, Z, Zt.
  - now rewrite pedidos_autores_app, G, app_nil_r.
Qed.

Lemma eventos_pl_only pid s' :
  pausas_400 s' = 0%nat ->
  Forall (fun u => u = url_autores pid) (pedidos_autores s') ->
  eventos_pl pid (EvGet (mk_request (url_autores pid) None 30) :: s').
Proof. intros Z F. exists s'. auto. Qed.

(** The loop, bill by bill (distinct bills, none of them cached): the
    events are those of the bills in turn, each beginning with the request
    for its authors, and a pause of 0.4 s stands right before the bills
    whose position is divisible by 25. *)
Lemma conta_pls_ritmo w ids : forall i ps st,
  NoDup ids ->
  sem_memo ids st ->
  exists segs,
    trace (snd (conta_pls w i ids ps st)) = (trace st ++ ritmo i segs)%list /\
    Forall2 eventos_pl (firstn (List.length segs) ids) segs /\
    (List.length segs <= List.length ids)%nat /\
    (forall l, fst (conta_pls w i ids ps st) = Ok l -> List.length segs = List.length ids).
Proof.
  induction ids as [|pid r IH]; intros i ps st Hnd Hm.
  - exists []. simpl. rewrite app_nil_r. repeat split; auto.
  - apply NoDup_cons_iff in Hnd. destruct Hnd as [Hnotin Hnd].
    cbn [conta_pls]. unfold bind, lift.
    set (t0 := if i mod 25 =? 0 then [EvSleep 400] else []).
    assert (Hp : (if i mod 25 =? 0 then time_sleep_ms 400 else ret tt) st
                 = (Ok tt, logged st t0)).
    { unfold t0. destruct (i mod 25 =? 0); [reflexivity|]. now rewrite logged_nil. }
    rewrite Hp.
    set (rq := mk_request (url_autores pid) None 30).
    assert (Hm0 : memo_find pid (memo_autores (logged st t0)) = None)
      by (apply Hm; now left).
    destruct (autores_por_proposicao_segmento w pid (logged st t0) Hm0)
      as (s1 & [T1 M1] & Z1 & F1).
    fold rq in T1.
    assert (One : forall s, s = (EvGet rq :: s1)%list ->
              (trace (logged st t0) ++ s = trace st ++ ritmo i [s])%list).
    { intros s ->. cbn [ritmo logged trace]. fold t0.
      now rewrite app_nil_r, <- app_assoc. }
    destruct (autores_por_proposicao w pid (logged st t0)) as [[au|e] st1];
      simpl in T1, M1.
    2:{ exists [(EvGet rq :: s1)%list]. cbn [fst snd]. rewrite T1.
        split; [now apply One|].
        split; [repeat constructor; now apply eventos_pl_only|].
        split; [simpl; lia|discriminate]. }
    destruct (Py.iter au) as [itens|e].
    2:{ exists [(EvGet rq :: s1)%list]. cbn [fst snd]. rewrite T1.
        split; [now apply One|].
        split; [repeat constructor; now apply eventos_pl_only|].
        split; [simpl; lia|discriminate]. }
    destruct (conta_autores_segmento w itens ps st1) as (t2 & [T2 M2] & G2 & Z2).
    assert (Two : (trace st1 ++ t2 = trace st ++ ritmo i [EvGet rq :: s1 ++ t2])%list).
    { rewrite T1. cbn [ritmo logged trace]. fold t0.
      rewrite app_nil_r, <- !app_assoc. reflexivity. }
    destruct (conta_autores w itens ps st1) as [[l|e] st2]; simpl in T2, M2.
    2:{ exists [(EvGet rq :: s1 ++ t2)%list]. cbn [fst snd]. rewrite T2.
        split; [exact Two|].
        split; [repeat constructor; now apply eventos_pl_app|].
        split; [simpl; lia|discriminate]. }
    assert (Hm2 : sem_memo r st2).
    { intros q Hq. rewrite M2 by (intros []). rewrite M1.
      - apply Hm. now right.
      - intros [->|[]]. contradiction. }
    destruct (IH (i + 1) l st2 Hnd Hm2) as (segs & T3 & F3 & L3 & O3).
    exists ((EvGet rq :: s1 ++ t2)%list :: segs).
    split.
    { rewrite T3, T2, T1. cbn [ritmo logged trace]. fold t0.
      rewrite <- !app_assoc. cbn [app]. rewrite <- !app_assoc. reflexivity. }
    split; [cbn [List.length firstn]; constructor; [now apply eventos_pl_app|exact F3]|].
    split; [simpl; lia|].
    intros l' Hl'. simpl. f_equal. now apply (O3 l').
Qed.

(** X21: pacing.  The loop pauses 0.4 s before the 25th, 50th, 75th ...
    bill it processes and at no other moment.  A count over n bills that
    ends normally holds exactly n div 25 such pauses (32 for the sample of
    800), and a count stopped by an exception holds no more.  Seen from
    the API (distinct identifiers, none cached yet): the events are those
    of the bills in turn, each beginning with the request for the bill's
    authors, and each pause stands right before the first event of a bill
    whose position is divisible by 25. *)
Theorem contagem_por_partido_pausas w df_id usar_todos st :
  let ids := amostra (dropna df_id) usar_todos in
  let n := List.length ids in
  exists t,
    trace (snd (contagem_por_partido w df_id usar_todos st)) = (trace st ++ t)%list /\
    Z.of_nat (pausas_400 t) <= Z.of_nat n / 25 /\
    (forall c, fst (contagem_por_partido w df_id usar_todos st) = Ok c ->
               Z.of_nat (pausas_400 t) = Z.of_nat n / 25) /\
    (NoDup ids -> sem_memo ids st ->
     exists segs,
       t = ritmo 1 segs /\
       Forall2 eventos_pl (firstn (List.length segs) ids) segs /\
       (forall c, fst (contagem_por_partido w df_id usar_todos st) = Ok c ->
                  List.length segs = n)).
Proof.
  intros ids n. rewrite contagem_linhas. fold ids.
  destruct (conta_pls_pausas w ids 1 [] st) as (t & T & L & O).
  fold n in L, O. rewrite <- pausas_entre_div.
  exists t.
  assert (R : NoDup ids -> sem_memo ids st ->
              exists segs,
                t = ritmo 1 segs /\
                Forall2 eventos_pl (firstn (List.length segs) ids) segs /\
                (forall l, fst (conta_pls w 1 ids [] st) = Ok l -> List.length segs = n)).
  { intros Hnd Hm.
    destruct (conta_pls_ritmo w ids 1 [] st Hnd Hm) as (segs & T' & F' & _ & O').
    exists segs. rewrite T in T'. apply app_inv_head in T'. auto. }
  destruct (conta_pls w 1 ids [] st) as [[l|e] s1]; simpl in *.
  - repeat split; [exact T|lia| |].
    + intros c _. now rewrite (O l eq_refl).
    + intros Hnd Hm. destruct (R Hnd Hm) as (segs & E & F & O').
      exists segs. repeat split; auto. intros c _. now apply (O' l).
  - repeat split; [exact T|lia|discriminate|].
    intros Hnd Hm. destruct (R Hnd Hm) as (segs & E & F & _).
    exists segs. repeat split; auto. discriminate.
Qed.

Lemma contagem_por_partido_pausas_witness :
  exists t,
    trace (snd (contagem_por_partido world_sem_autores (coluna_ate 60) true st0)) =
      ([] ++ t)%list /\
    Z.of_nat (pausas_400 t) = 2 /\
    exists segs,
      t = ritmo 1 segs /\
      Forall2 eventos_pl (firstn (List.length segs) (py_range 1 61)) segs /\
      List.length segs = 60%nat.
Proof.
  destruct (contagem_por_partido_pausas world_sem_autores (coluna_ate 60) true st0)
    as (t & T & _ & O & R).
  exists t. split; [exact T|].
  assert (Hok : fst (contagem_por_partido world_sem_autores (coluna_ate 60) true st0) = Ok [])
    by (vm_compute; reflexivity).
  split; [rewrite (O [] Hok); reflexivity|].
  destruct R as (segs & E & F & L).
  - change (amostra (dropna (coluna_ate 60)) true) with (dropna (coluna_ate 60)).
    unfold coluna_ate. rewrite dropna_some. unfold py_range.
    apply Finite.Injective_map_NoDup; [intros a b H; lia|apply seq_NoDup].
  - intros pid _. reflexivity.
  - exists segs. split; [exact E|]. split; [|exact (L [] Hok)].
    change (amostra (dropna (coluna_ate 60)) true) with (dropna (coluna_ate 60)) in F.
    unfold coluna_ate in F. now rewrite dropna_some in F.
Defined.

(** *** Malformed author lists *)

Lemma autores_por_proposicao_fetch w pid st o :
  memo_find pid (memo_autores st) = None ->
  (exists r, server w (trace st) (mk_request (url_autores pid) None 30) = Response r /\
             status_code r < 400 /\ body r = Some (JObj o)) ->
  o <> [] ->
  fst (autores_por_proposicao w pid st) =
    Ok (match Py.lookup "dados" o with Some v => v | None => JArr [] end).
Proof.
  intros Hm (r & Hs & Hc & Hb) Ho.
  unfold autores_por_proposicao, memo_hit. rewrite Hm.
  unfold autores_body, bind, lift, ret.
  rewrite (safe_get_ok w _ None st r (JObj o) Hs Hc Hb).
  destruct o; [contradiction|]. reflexivity.
Qed.

(** X24: a malformed author list is not skipped: it ends the whole count
    with an exception.  When the first bill's payload has a "dados" that
    cannot be iterated (null, a number, a boolean) the count raises
    [TypeError]; when "dados" is a list whose first entry is not an
    object it raises [AttributeError]. *)
Theorem contagem_por_partido_autores_invalidos w pid resto usar_todos st o :
  memo_find pid (memo_autores st) = None ->
  (exists r, server w (trace st) (mk_request (url_autores pid) None 30) = Response r /\
             status_code r < 400 /\ body r = Some (JObj o)) ->
  (forall v, Py.lookup "dados" o = Some v -> Py.iter v = Raise TypeError ->
     fst (contagem_por_partido w (Some pid :: resto) usar_todos st) = Raise TypeError) /\
  (forall a l, Py.lookup "dados" o = Some (JArr (a :: l)) -> (forall x, a <> JObj x) ->
     fst (contagem_por_partido w (Some pid :: resto) usar_todos st) = Raise AttributeError).
Proof.
  intros Hm Hs.
  assert (E : amostra (dropna (Some pid :: resto)) usar_todos
              = pid :: amostra_resto usar_todos (dropna resto)).
  { unfold amostra, amostra_resto. destruct usar_todos; reflexivity. }
  split.
  - intros v Hv Hi. rewrite contagem_linhas, E. cbn [conta_pls]. unfold bind, lift, ret.
    change (1 mod 25 =? 0) with false. cbv beta iota.
    assert (Ho : o <> []) by (intros ->; discriminate).
    pose proof (autores_por_proposicao_fetch w pid st o Hm Hs Ho) as Ha.
    rewrite Hv in Ha.
    destruct (autores_por_proposicao w pid st) as [[au|e] s1]; simpl in Ha; [|discriminate].
    injection Ha as ->. now rewrite Hi.
  - intros a l Hv Hno. rewrite contagem_linhas, E. cbn [conta_pls]. unfold bind, lift, ret.
    change (1 mod 25 =? 0) with false. cbv beta iota.
    assert (Ho : o <> []) by (intros ->; discriminate).
    pose proof (autores_por_proposicao_fetch w pid st o Hm Hs Ho) as Ha.
    rewrite Hv in Ha.
    destruct (autores_por_proposicao w pid st) as [[au|e] s1]; simpl in Ha; [|discriminate].
    injection Ha as ->. cbn [Py.iter conta_autores]. unfold bind, conta_autor, bind, lift.
    assert (Hp : is_parlamentar a = Raise AttributeError).
    { destruct a; try reflexivity. exfalso. now apply (Hno fields). }
    now rewrite Hp.
Qed.

Lemma contagem_por_partido_autores_invalidos_witness :
  fst (contagem_por_partido
         (static_world [(url_autores 7, ok_json (JObj [("dados", JNull)]))] (Raises Timeout))
         [Some 7; Some 8] false st0) = Raise TypeError /\
  fst (contagem_por_partido
         (static_world [(url_autores 7, ok_json (JObj [("dados", JArr [JStr "x"])]))]
                       (Raises Timeout))
         [Some 7; Some 8] true st0) = Raise AttributeError.
Proof.
  split.
  - refine (proj1 (contagem_por_partido_autores_invalidos _ 7 [Some 8] false st0
                     [("dados", JNull)] eq_refl _) JNull eq_refl eq_refl).
    eexists. repeat split.
  - refine (proj2 (contagem_por_partido_autores_invalidos _ 7 [Some 8] true st0
                     [("dados", JArr [JStr "x"])] eq_refl _) (JStr "x") [] eq_refl _).
    + eexists. repeat split.
    + discriminate.
Defined.

(** ** The request URLs *)

Lemma list_ascii_app s t :
  list_ascii_of_string (s ++ t) = (list_ascii_of_string s ++ list_ascii_of_string t)%list.
Proof. induction s as [|c s IH]; simpl; [reflexivity|now rewrite IH]. Qed.

Lemma append_inv_tail s1 s2 t : (s1 ++ t = s2 ++ t)%string -> s1 = s2.
Proof.
  intros H. apply (f_equal list_ascii_of_string) in H.
  rewrite !list_ascii_app in H. apply app_inv_tail in H.
  apply (f_equal string_of_list_ascii) in H.
  now rewrite !string_of_list_ascii_of_string in H.
Qed.

Lemma append_inv_head s x y : (s ++ x = s ++ y)%string -> x = y.
Proof. induction s as [|c s IH]; simpl; intros H; [exact H|]. injection H. exact IH. Qed.

Lemma to_int_nonnil z : Z.to_int z <> Decimal.Pos Decimal.Nil /\ Z.to_int z <> Decimal.Neg Decimal.Nil.
Proof.
  destruct z; simpl; split; try discriminate;
    intros [= H]; now apply (DecimalPos.Unsigned.to_uint_nonnil p).
Qed.

Lemma of_Z_inj a b : Str.of_Z a = Str.of_Z b -> a = b.
Proof.
  unfold Str.of_Z. intros H. apply (f_equal NilZero.int_of_string) in H.
  destruct (to_int_nonnil a) as [A1 A2], (to_int_nonnil b) as [B1 B2].
  rewrite !NilZero.isi in H by assumption.
  injection H. apply DecimalZ.to_int_inj.
Qed.

(** X26: the URLs the resolvers build.  Different bills have different
    authors URLs and different legislators different URLs; an authors
    URL is never a legislator's URL, and neither is ever the listing
    URL.  So a table of answers by URL, as the API is, cannot mix up two
    lookups. *)
Theorem urls_distintas :
  (forall a b, url_autores a = url_autores b -> a = b) /\
  (forall a b, url_deputado a = url_deputado b -> a = b) /\
  (forall a b, url_autores a <> url_deputado b) /\
  (forall a, url_autores a <> url_proposicoes /\ url_deputado a <> url_proposicoes).
Proof.
  repeat split.
  - intros a b H. unfold url_autores in H.
    apply append_inv_head, append_inv_head, append_inv_tail in H. now apply of_Z_inj.
  - intros a b H. unfold url_deputado in H.
    apply append_inv_head, append_inv_head in H. now apply of_Z_inj.
  - intros a b H. pose proof (is_url_autores_autores a) as T.
    rewrite H, is_url_autores_deputado in T. discriminate.
  - intros H. pose proof (is_url_autores_autores a) as T. rewrite H in T. discriminate.
  - intros H.
    assert (T : Str.startswith (url_deputado a) (BASE ++ "/deputados/") = true)
      by reflexivity.
    rewrite H in T. discriminate.
Qed.

Lemma urls_distintas_witness : url_autores 101 <> url_autores 102.
Proof.
  intros H. apply (proj1 urls_distintas) in H. discriminate.
Defined.
